(** * asset-uploader: a shallow embedding of main.go and its lifecycle properties

    The service keeps one record per asset in a DynamoDB table and hands out
    presigned S3 URLs.  This file embeds the Go program of main.go: the pieces
    of the Go standard library and of the AWS SDK it calls are modelled first
    (strings, strconv, time, math/rand, base64, net/url, encoding/json,
    net/http, awserr, dynamodb, s3), then the program itself, then the mock
    clients of main_test.go and an in-memory record store, and last the
    theorems.

    Conventions.  A Go [string] is a Rocq [string] (a sequence of 8-bit
    characters).  A Go [int], [int64] or [time.Duration] is a [Z] kept inside
    the signed 64-bit range, with wrap-around written out where Go wraps.  A
    Go [error] that may be nil is an [option error]. *)

From Stdlib Require Import ZArith Ascii String List Lia DecimalString.
From stdpp Require Import base option list strings gmap.

Local Open Scope list_scope.
Local Open Scope string_scope.

(** ** Small state monad with panics

    Every function of main.go that touches the service handles, the response
    writer, the random source or the log is a computation over one state
    record; a Go run-time panic stops the computation where it happens. *)

Inductive outcome (St A : Type) : Type :=
| Done (a : A) (s : St)
| Panicked (msg : string) (s : St).
Arguments Done {St A} a s.
Arguments Panicked {St A} msg s.

Definition M (St A : Type) : Type := St -> outcome St A.

Definition ret {St A} (a : A) : M St A := fun s => Done a s.

Definition bind {St A B} (m : M St A) (f : A -> M St B) : M St B :=
  fun s => match m s with
           | Done a s' => f a s'
           | Panicked msg s' => Panicked msg s'
           end.

Definition panic {St A} (msg : string) : M St A := fun s => Panicked msg s.
Definition gets {St A} (f : St -> A) : M St A := fun s => Done (f s) s.
Definition modify {St} (f : St -> St) : M St unit := fun s => Done tt (f s).

(** The double quote character, and a string between double quotes. *)
Definition dquote : ascii := "034"%char.
Definition quoted (s : string) : string := String dquote (s ++ String dquote "").

Declare Scope go_scope.
Delimit Scope go_scope with go.
Notation "'let!' x ':=' c1 'in' c2" := (bind c1 (fun x => c2))
  (at level 10, x name, c1 at level 100, c2 at level 200) : go_scope.
Notation "'do!' c1 'in' c2" := (bind c1 (fun _ => c2))
  (at level 10, c1 at level 100, c2 at level 200) : go_scope.

(** ** strings *)

Module strings.

(** [strings.TrimPrefix(s, prefix)]: [s] without the leading [prefix], or
    [s] itself when it does not start with [prefix]. *)
Fixpoint cutPrefix (s prefix : string) : option string :=
  match prefix with
  | EmptyString => Some s
  | String p prefix' =>
      match s with
      | EmptyString => None
      | String c s' => if Ascii.eqb c p then cutPrefix s' prefix' else None
      end
  end.

Definition TrimPrefix (s prefix : string) : string :=
  match cutPrefix s prefix with
  | Some rest => rest
  | None => s
  end.

(** [strings.Join(elems, sep)]. *)
Fixpoint Join (elems : list string) (sep : string) : string :=
  match elems with
  | [] => ""
  | [e] => e
  | e :: rest => e ++ sep ++ Join rest sep
  end.

End strings.

(** ** Machine integers *)

Definition minInt64 : Z := - 2 ^ 63.
Definition maxInt64 : Z := 2 ^ 63 - 1.

(** The value an [int64] holds after an arithmetic result [z] wraps around. *)
Definition wrap64 (z : Z) : Z := ((z + 2 ^ 63) mod 2 ^ 64 - 2 ^ 63)%Z.

(** ** strconv *)

Module strconv.

Inductive NumError := ErrSyntax | ErrRange.

Definition isDigit (c : ascii) : bool :=
  (48 <=? nat_of_ascii c)%nat && (nat_of_ascii c <=? 57)%nat.

Definition digitVal (c : ascii) : Z := (Z.of_nat (nat_of_ascii c) - 48)%Z.

(** Accumulates decimal digits; [None] on the first byte that is no digit. *)
Fixpoint digits (s : string) (n : Z) : option Z :=
  match s with
  | EmptyString => Some n
  | String ch s' =>
      if isDigit ch then digits s' (n * 10 + digitVal ch)%Z else None
  end.

(** [strconv.Atoi] on a target whose [int] has 64 bits: an optional sign,
    then one or more decimal digits and nothing else; a value that does not
    fit an [int] is a range error.  (The fast path for short strings and
    [ParseInt(s, 10, 0)] agree on this.) *)
Definition Atoi (s : string) : Z + NumError :=
  match s with
  | EmptyString => inr ErrSyntax
  | String c0 rest =>
      let neg := Ascii.eqb c0 "-" in
      let body := if neg || Ascii.eqb c0 "+" then rest else s in
      match body with
      | EmptyString => inr ErrSyntax
      | _ =>
          match digits body 0 with
          | None => inr ErrSyntax
          | Some n =>
              let v := if neg then (- n)%Z else n in
              if (minInt64 <=? v)%Z && (v <=? maxInt64)%Z
              then inl v else inr ErrRange
          end
      end
  end.

End strconv.

(** ** time *)

Module time.

(** [time.Duration] is an [int64] count of nanoseconds. *)
Definition Duration := Z.

Definition Nanosecond : Duration := 1%Z.
Definition Second : Duration := (1000000000 * Nanosecond)%Z.
Definition Minute : Duration := (60 * Second)%Z.
Definition Hour : Duration := (60 * Minute)%Z.

(** Multiplication of two run-time [Duration] values wraps silently. *)
Definition mul (a b : Duration) : Duration := wrap64 (a * b).

End time.

(** ** math/rand *)

Module rand.

(** [rand.Source]: a generator of non-negative 63-bit integers.  The
    generator the process seeds from the clock in [main] is any instance. *)
Class Source (R : Type) := { Int63 : R -> Z * R }.

(** [rand.Rand] with the read buffer its [Read] method keeps. *)
Record Rand (R : Type) := mkRand { src : R; readVal : Z; readPos : Z }.
Arguments mkRand {R} src readVal readPos.
Arguments src {R} r.
Arguments readVal {R} r.
Arguments readPos {R} r.

Definition New {R} (s : R) : Rand R := mkRand s 0 0.

(** [rand.Read(p)] with [len(p) = n]: each 63-bit value drawn from the
    source supplies seven bytes, low byte first.  It never fails. *)
Fixpoint Read {R} `{Source R} (n : nat) (r : Rand R) : list Z * Rand R :=
  match n with
  | O => ([], r)
  | S n' =>
      let r1 := if (readPos r =? 0)%Z
                then let (v, s') := Int63 (src r) in mkRand s' v 7
                else r in
      let b := (readVal r1 mod 256)%Z in
      let r2 := mkRand (src r1) (Z.shiftr (readVal r1) 8) (readPos r1 - 1) in
      let (bs, r3) := Read n' r2 in
      (b :: bs, r3)
  end.

End rand.

(** ** encoding/base64 *)

Module base64.

Definition encodeURL : string :=
  "ABCDEFGHIJKLMNOPQRSTUVWXYZabcdefghijklmnopqrstuvwxyz0123456789-_".

(** The character of the URL alphabet for the low six bits of [v]. *)
Definition enc (v : Z) : string :=
  match String.get (Z.to_nat (Z.land v 63)) encodeURL with
  | Some c => String c EmptyString
  | None => EmptyString
  end.

(** [base64.RawURLEncoding.EncodeToString]: URL alphabet, no padding.
    Bytes are integers in [0, 256). *)
Fixpoint EncodeToString (src : list Z) : string :=
  match src with
  | b0 :: b1 :: b2 :: rest =>
      let val := Z.lor (Z.lor (Z.shiftl b0 16) (Z.shiftl b1 8)) b2 in
      enc (Z.shiftr val 18) ++ enc (Z.shiftr val 12) ++
      enc (Z.shiftr val 6) ++ enc val ++ EncodeToString rest
  | [b0; b1] =>
      let val := Z.lor (Z.shiftl b0 16) (Z.shiftl b1 8) in
      enc (Z.shiftr val 18) ++ enc (Z.shiftr val 12) ++ enc (Z.shiftr val 6)
  | [b0] =>
      let val := Z.shiftl b0 16 in
      enc (Z.shiftr val 18) ++ enc (Z.shiftr val 12)
  | [] => ""
  end.

End base64.

(** ** Hexadecimal digits and UTF-8, shared by net/url and encoding/json *)

Definition byteOf (n : Z) : ascii := ascii_of_nat (Z.to_nat (n mod 256)).
Definition codeOf (c : ascii) : Z := Z.of_nat (nat_of_ascii c).

Definition unhex (c : ascii) : option Z :=
  let n := codeOf c in
  if (48 <=? n)%Z && (n <=? 57)%Z then Some (n - 48)%Z
  else if (97 <=? n)%Z && (n <=? 102)%Z then Some (n - 97 + 10)%Z
  else if (65 <=? n)%Z && (n <=? 70)%Z then Some (n - 65 + 10)%Z
  else None.

Definition hexDigit (n : Z) : ascii :=
  if (n <? 10)%Z then byteOf (48 + n) else byteOf (97 + n - 10).

(** [utf8.EncodeRune] for a code point below 0x110000. *)
Definition utf8 (r : Z) : string :=
  if (r <? 128)%Z then String (byteOf r) ""
  else if (r <? 2048)%Z then
    String (byteOf (192 + Z.shiftr r 6))
      (String (byteOf (128 + Z.land r 63)) "")
  else if (r <? 65536)%Z then
    String (byteOf (224 + Z.shiftr r 12))
      (String (byteOf (128 + Z.land (Z.shiftr r 6) 63))
         (String (byteOf (128 + Z.land r 63)) ""))
  else
    String (byteOf (240 + Z.shiftr r 18))
      (String (byteOf (128 + Z.land (Z.shiftr r 12) 63))
         (String (byteOf (128 + Z.land (Z.shiftr r 6) 63))
            (String (byteOf (128 + Z.land r 63)) ""))).

(** ** net/url: the query string *)

Module url.

(** [url.Values] is a [map[string][]string]. *)
Abbreviation Values := (gmap string (list string)).

Record URL := mkURL { Path : string; RawQuery : string }.

(** The pieces of [s] between occurrences of [sep]. *)
Fixpoint split (sep : ascii) (s : string) : list string :=
  match s with
  | EmptyString => [""]
  | String c s' =>
      if Ascii.eqb c sep then "" :: split sep s'
      else match split sep s' with
           | h :: t => String c h :: t
           | [] => [String c ""]
           end
  end.

(** [strings.Cut(s, sep)] without its flag. *)
Fixpoint cut (sep : ascii) (s : string) : string * string :=
  match s with
  | EmptyString => ("", "")
  | String c s' =>
      if Ascii.eqb c sep then ("", s')
      else let (a, b) := cut sep s' in (String c a, b)
  end.

Fixpoint contains (ch : ascii) (s : string) : bool :=
  match s with
  | EmptyString => false
  | String c s' => Ascii.eqb c ch || contains ch s'
  end.

(** [url.QueryUnescape]: [%XX] is a byte, [+] a space; a [%] that is not
    followed by two hexadecimal digits is an error. *)
Fixpoint QueryUnescape (s : string) : option string :=
  match s with
  | EmptyString => Some ""
  | String c s' =>
      if Ascii.eqb c "%" then
        match s' with
        | String h1 (String h2 s'') =>
            match unhex h1, unhex h2 with
            | Some a, Some b =>
                match QueryUnescape s'' with
                | Some t => Some (String (byteOf (a * 16 + b)) t)
                | None => None
                end
            | _, _ => None
            end
        | _ => None
        end
      else
        match QueryUnescape s' with
        | Some t => Some (String (if Ascii.eqb c "+" then " "%char else c) t)
        | None => None
        end
  end.

(** One iteration of the loop of [parseQuery]: a piece with a semicolon, an
    empty piece, or one whose key or value does not unescape is skipped. *)
Definition addPair (m : Values) (piece : string) : Values :=
  if contains ";" piece then m
  else if String.eqb piece "" then m
  else
    let (k, v) := cut "=" piece in
    match QueryUnescape k with
    | None => m
    | Some key =>
        match QueryUnescape v with
        | None => m
        | Some value => <[key := (default [] (m !! key) ++ [value])%list]> m
        end
    end.

(** [u.Query()]: [ParseQuery(u.RawQuery)] with its error dropped. *)
Definition Query (u : URL) : Values :=
  fold_left addPair (split "&" (RawQuery u)) ∅.

(** [Values.Get(key)]: the first value of [key], or the empty string. *)
Definition Get (v : Values) (key : string) : string :=
  match v !! key with
  | Some (x :: _) => x
  | _ => ""
  end.

(** [Values.Has(key)]. *)
Definition Has (v : Values) (key : string) : bool :=
  bool_decide (is_Some (v !! key)).

End url.

(** ** Go errors *)

(** An [error] value is either one that implements [awserr.Error] (it has a
    code and a message) or a plain one, such as [errors.New] makes. *)
Inductive error : Type :=
| awserr_New (code message : string)
| errors_New (text : string).

(** [err.Error()]. *)
Definition Error (e : error) : string :=
  match e with
  | awserr_New code message => code ++ ": " ++ message
  | errors_New text => text
  end.

(** The type assertion [err.(awserr.Error)]: the code, when [err] has one. *)
Definition asAwsErr (e : error) : option string :=
  match e with
  | awserr_New code _ => Some code
  | errors_New _ => None
  end.

(** ** encoding/json *)

Module json.

#[warnings="-register-all"]
Inductive value : Type :=
| Null
| Bool (b : bool)
| Number (literal : string)
| Str (s : string)
| Array (elems : list value)
| Object (members : list (string * value)).

Definition isSpace (c : ascii) : bool :=
  Ascii.eqb c " " || Ascii.eqb c "009" || Ascii.eqb c "013" || Ascii.eqb c "010".

Fixpoint skipSpace (s : string) : string :=
  match s with
  | String c s' => if isSpace c then skipSpace s' else s
  | EmptyString => s
  end.

(** *** String literals *)

(** What a string literal is made of: a byte taken as it is, or the 16-bit
    unit of a [\uXXXX] escape. *)
Inductive unit16 := Raw (c : ascii) | U16 (n : Z).

Definition simpleEscape (e : ascii) : option ascii :=
  if Ascii.eqb e dquote then Some dquote
  else if Ascii.eqb e "\" then Some "\"%char
  else if Ascii.eqb e "/" then Some "/"%char
  else if Ascii.eqb e "b" then Some "008"%char
  else if Ascii.eqb e "f" then Some "012"%char
  else if Ascii.eqb e "n" then Some "010"%char
  else if Ascii.eqb e "r" then Some "013"%char
  else if Ascii.eqb e "t" then Some "009"%char
  else None.

Definition getu4 (h1 h2 h3 h4 : ascii) : option Z :=
  match unhex h1, unhex h2, unhex h3, unhex h4 with
  | Some a, Some b, Some c, Some d => Some (((a * 16 + b) * 16 + c) * 16 + d)%Z
  | _, _, _, _ => None
  end.

(** The literal after its opening quote, up to the closing quote: its units
    and the input that follows.  A control character or a bad escape is a
    syntax error. *)
Fixpoint scanString (s : string) : option (list unit16 * string) :=
  match s with
  | EmptyString => None
  | String c s' =>
      if Ascii.eqb c dquote then Some ([], s')
      else if Ascii.eqb c "\" then
        match s' with
        | EmptyString => None
        | String e s'' =>
            match simpleEscape e with
            | Some ch =>
                match scanString s'' with
                | Some (us, r) => Some (Raw ch :: us, r)
                | None => None
                end
            | None =>
                if Ascii.eqb e "u" then
                  match s'' with
                  | String h1 (String h2 (String h3 (String h4 s4))) =>
                      match getu4 h1 h2 h3 h4 with
                      | Some n =>
                          match scanString s4 with
                          | Some (us, r) => Some (U16 n :: us, r)
                          | None => None
                          end
                      | None => None
                      end
                  | _ => None
                  end
                else None
            end
        end
      else if (codeOf c <? 32)%Z then None
      else
        match scanString s' with
        | Some (us, r) => Some (Raw c :: us, r)
        | None => None
        end
  end.

Definition isHighSurrogate (n : Z) : bool := (55296 <=? n)%Z && (n <? 56320)%Z.
Definition isLowSurrogate (n : Z) : bool := (56320 <=? n)%Z && (n <? 57344)%Z.
Definition replacementChar : Z := 65533.

(** The bytes of a literal, as [unquote] produces them: a surrogate pair is
    one code point, a lone surrogate the replacement character.  (Raw bytes
    are kept as they are; the replacement of malformed UTF-8 among them is
    not modelled.) *)
Fixpoint unquote (us : list unit16) : string :=
  match us with
  | [] => ""
  | Raw c :: r => String c (unquote r)
  | U16 n :: r =>
      if isHighSurrogate n then
        match r with
        | U16 lo :: r' =>
            if isLowSurrogate lo
            then utf8 (65536 + (n - 55296) * 1024 + (lo - 56320)) ++ unquote r'
            else utf8 replacementChar ++ unquote r
        | _ => utf8 replacementChar ++ unquote r
        end
      else if isLowSurrogate n then utf8 replacementChar ++ unquote r
      else utf8 n ++ unquote r
  end.

Definition stringLit (s : string) : option (string * string) :=
  match scanString s with
  | Some (us, r) => Some (unquote us, r)
  | None => None
  end.

(** *** Numbers *)

Fixpoint spanDigits (s : string) : string * string :=
  match s with
  | String c s' =>
      if strconv.isDigit c
      then let (ds, r) := spanDigits s' in (String c ds, r)
      else ("", s)
  | EmptyString => ("", s)
  end.

(** The number literal at the head of [s]: an optional minus sign; a zero,
    or a non-zero digit and further digits; optionally a point and digits;
    optionally an exponent letter, a sign and digits. *)
Definition scanNumber (s : string) : option (string * string) :=
  let '(sign, s1) := match s with
                     | String c r => if Ascii.eqb c "-" then ("-", r) else ("", s)
                     | EmptyString => ("", s)
                     end in
  '(ip, s2) ← match s1 with
               | String c r =>
                   if Ascii.eqb c "0" then Some ("0", r)
                   else if strconv.isDigit c
                   then let (ds, r') := spanDigits r in Some (String c ds, r')
                   else None
               | EmptyString => None
               end;
  '(fp, s3) ← match s2 with
               | String c r =>
                   if Ascii.eqb c "." then
                     let (ds, r') := spanDigits r in
                     if String.eqb ds "" then None else Some (String c ds, r')
                   else Some ("", s2)
               | EmptyString => Some ("", s2)
               end;
  '(ep, s4) ← match s3 with
               | String c r =>
                   if Ascii.eqb c "e" || Ascii.eqb c "E" then
                     let '(sg, r1) :=
                       match r with
                       | String g r0 =>
                           if Ascii.eqb g "+" || Ascii.eqb g "-"
                           then (String g "", r0) else ("", r)
                       | EmptyString => ("", r)
                       end in
                     let (ds, r') := spanDigits r1 in
                     if String.eqb ds "" then None
                     else Some (String c (sg ++ ds), r')
                   else Some ("", s3)
               | EmptyString => Some ("", s3)
               end;
  Some (sign ++ ip ++ fp ++ ep, s4).

(** *** Values *)

(** The scanner keeps a stack of the objects and arrays it is inside of
    and refuses to go deeper than this ("exceeded max depth"). *)
Definition maxNestingDepth : Z := 10000.

(** The first JSON value of [s] and the input after it, read inside of
    [depth] open objects and arrays.  An opening brace or bracket is pushed
    before anything after it is looked at, so an empty object or array
    counts for the depth as well.  [fuel] bounds the number of nested
    calls; each of them has consumed a character, so [S (String.length s)]
    is enough for every input. *)
Fixpoint scanValueAt (fuel : nat) (depth : Z) (s : string)
    : option (value * string) :=
  match fuel with
  | O => None
  | S fuel' =>
      match skipSpace s with
      | EmptyString => None
      | String c r =>
          if Ascii.eqb c "{" then
            if (depth + 1 <=? maxNestingDepth)%Z then
              match skipSpace r with
              | String c' r' =>
                  if Ascii.eqb c' "}" then Some (Object [], r')
                  else '(ms, r'') ← scanMembersAt fuel' (depth + 1)%Z r;
                       Some (Object ms, r'')
              | EmptyString => None
              end
            else None
          else if Ascii.eqb c "[" then
            if (depth + 1 <=? maxNestingDepth)%Z then
              match skipSpace r with
              | String c' r' =>
                  if Ascii.eqb c' "]" then Some (Array [], r')
                  else '(vs, r'') ← scanElementsAt fuel' (depth + 1)%Z r;
                       Some (Array vs, r'')
              | EmptyString => None
              end
            else None
          else if Ascii.eqb c dquote then
            '(str, r') ← stringLit r; Some (Str str, r')
          else if Ascii.eqb c "t" then
            r' ← strings.cutPrefix r "rue"; Some (Bool true, r')
          else if Ascii.eqb c "f" then
            r' ← strings.cutPrefix r "alse"; Some (Bool false, r')
          else if Ascii.eqb c "n" then
            r' ← strings.cutPrefix r "ull"; Some (Null, r')
          else if Ascii.eqb c "-" || strconv.isDigit c then
            '(lit, r') ← scanNumber (String c r); Some (Number lit, r')
          else None
      end
  end
with scanElementsAt (fuel : nat) (depth : Z) (s : string)
    : option (list value * string) :=
  match fuel with
  | O => None
  | S fuel' =>
      '(v, r) ← scanValueAt fuel' depth s;
      match skipSpace r with
      | String c r' =>
          if Ascii.eqb c "," then
            '(vs, r'') ← scanElementsAt fuel' depth r'; Some (v :: vs, r'')
          else if Ascii.eqb c "]" then Some ([v], r')
          else None
      | EmptyString => None
      end
  end
with scanMembersAt (fuel : nat) (depth : Z) (s : string)
    : option (list (string * value) * string) :=
  match fuel with
  | O => None
  | S fuel' =>
      match skipSpace s with
      | String q r =>
          if Ascii.eqb q dquote then
            '(k, r1) ← stringLit r;
            match skipSpace r1 with
            | String c r2 =>
                if Ascii.eqb c ":" then
                  '(v, r3) ← scanValueAt fuel' depth r2;
                  match skipSpace r3 with
                  | String c' r4 =>
                      if Ascii.eqb c' "," then
                        '(ms, r5) ← scanMembersAt fuel' depth r4;
                        Some ((k, v) :: ms, r5)
                      else if Ascii.eqb c' "}" then Some ([(k, v)], r4)
                      else None
                  | EmptyString => None
                  end
                else None
            | EmptyString => None
            end
          else None
      | EmptyString => None
      end
  end.

(** A value at the top of the input: nothing is open yet. *)
Definition scanValue (fuel : nat) (s : string) : option (value * string) :=
  scanValueAt fuel 0 s.

(** *** Decoding into a struct with one string field *)

Definition toUpper (c : ascii) : ascii :=
  let n := codeOf c in
  if (97 <=? n)%Z && (n <=? 122)%Z then byteOf (n - 32) else c.

(** [foldName]: ASCII letters in upper case; the two letters outside ASCII
    that fold to an ASCII one, U+017F (long s) and U+212A (Kelvin sign),
    become [S] and [K]. *)
Fixpoint foldName (s : string) : string :=
  match s with
  | EmptyString => ""
  | String c s' =>
      match s' with
      | String c2 r =>
          if Ascii.eqb c "197" && Ascii.eqb c2 "191" then String "S" (foldName r)
          else
            match r with
            | String c3 r' =>
                if Ascii.eqb c "226" && Ascii.eqb c2 "132" && Ascii.eqb c3 "170"
                then String "K" (foldName r')
                else String (toUpper c) (foldName s')
            | EmptyString => String (toUpper c) (foldName s')
            end
      | EmptyString => String (toUpper c) ""
      end
  end.

(** An object key selects the field called [name] when it is that name, or
    is it up to case folding. *)
Definition fieldMatches (name key : string) : bool :=
  String.eqb key name || String.eqb (foldName key) (foldName name).

Definition kindOf (v : value) : string :=
  match v with
  | Null => "null" | Bool _ => "bool" | Number _ => "number"
  | Str _ => "string" | Array _ => "array" | Object _ => "object"
  end.

(** The text of an [UnmarshalTypeError], shortened. *)
Definition typeError (v : value) (target : string) : error :=
  errors_New ("json: cannot unmarshal " ++ kindOf v ++ " into Go " ++ target).

(** The members of an object, in order, stored into a struct whose only
    field is the string field [name], which holds [cur]: a matching key
    with a string stores it, with [null] leaves the field alone, with
    anything else is a type error (the first one is kept and decoding goes
    on); other keys are skipped. *)
Fixpoint setMembers (name : string) (ms : list (string * value))
    (cur : string) (err : option error) : string * option error :=
  match ms with
  | [] => (cur, err)
  | (k, v) :: rest =>
      if fieldMatches name k then
        match v with
        | Str x => setMembers name rest x err
        | Null => setMembers name rest cur err
        | _ =>
            setMembers name rest cur
              (match err with
               | Some e => Some e
               | None => Some (typeError v ("struct field " ++ name ++ " of type string"))
               end)
        end
      else setMembers name rest cur err
  end.

Definition unmarshal (name : string) (v : value) (cur : string)
    : string * option error :=
  match v with
  | Null => (cur, None)
  | Object ms => setMembers name ms cur None
  | _ => (cur, Some (typeError v "value of struct type"))
  end.

(** [json.NewDecoder(body).Decode(&v)] for such a struct: the first JSON
    value of the stream is read and stored; what follows it in the stream
    is left unread.  The result is the field after the call and the error.
    (Error texts are shortened.) *)
Definition Decode (name : string) (body : string) (cur : string)
    : string * option error :=
  match skipSpace body with
  | EmptyString => (cur, Some (errors_New "EOF"))
  | _ =>
      match scanValue (S (String.length body)) body with
      | None => (cur, Some (errors_New "json: syntax error"))
      | Some (v, _) => unmarshal name v cur
      end
  end.

(** [json.Valid(body)]: the whole of [body] is one JSON value, with
    nothing but white space around it. *)
Definition Valid (body : string) : bool :=
  match scanValue (S (String.length body)) body with
  | Some (_, rest) => String.eqb (skipSpace rest) ""
  | None => false
  end.

(** *** Encoding *)

(** A string as the encoder writes it with [SetEscapeHTML(false)]: the
    quote, the backslash and the control characters are escaped.  (Bytes
    above 127 are written as they are.) *)
Fixpoint quoteBody (s : string) : string :=
  match s with
  | EmptyString => ""
  | String c r =>
      (if Ascii.eqb c dquote then String "\" (String dquote "")
       else if Ascii.eqb c "\" then "\\"
       else if Ascii.eqb c "008" then "\b"
       else if Ascii.eqb c "012" then "\f"
       else if Ascii.eqb c "010" then "\n"
       else if Ascii.eqb c "013" then "\r"
       else if Ascii.eqb c "009" then "\t"
       else if (codeOf c <? 32)%Z then
         "\u00" ++ String (hexDigit (Z.shiftr (codeOf c) 4))
                     (String (hexDigit (Z.land (codeOf c) 15)) "")
       else String c "") ++ quoteBody r
  end.

Definition quote (s : string) : string := quoted (quoteBody s).

(** [Encode] of a struct of string fields, given as (key, value) pairs in
    declaration order: one line of JSON. *)
Definition Encode (fields : list (string * string)) : string :=
  "{" ++ strings.Join (map (fun kv => quote (fst kv) ++ ":" ++ quote (snd kv)) fields) ","
      ++ "}" ++ String "010" "".

End json.

(** ** net/http *)

Module http.

Definition MethodGet : string := "GET".
Definition MethodPost : string := "POST".
Definition MethodPut : string := "PUT".

Definition StatusOK : Z := 200.
Definition StatusAccepted : Z := 202.
Definition StatusBadRequest : Z := 400.
Definition StatusNotFound : Z := 404.
Definition StatusMethodNotAllowed : Z := 405.
Definition StatusInternalServerError : Z := 500.
Definition StatusServiceUnavailable : Z := 503.

(** [http.Header] is a [map[string][]string]. *)
Abbreviation Header := (gmap string (list string)).

(** The parts of [*http.Request] the handlers read.  [Body] is the whole
    content of the body stream. *)
Record Request := mkRequest { Method : string; URL : url.URL; Body : string }.

(** [h.Set(key, value)], for a key in canonical form. *)
Definition Set_ (h : Header) (key value : string) : Header := <[key := [value]]> h.

(** [h.Get(key)], for a key in canonical form. *)
Definition Get (h : Header) (key : string) : string :=
  match h !! key with
  | Some (x :: _) => x
  | _ => ""
  end.

End http.

(** ** net/http/httptest: the response writer *)

Module httptest.

(** [httptest.ResponseRecorder], the [http.ResponseWriter] of the tests.
    [snapHeader] is the header as it stood when the status line was
    written. *)
Record ResponseRecorder := mkRecorder {
  Code : Z;
  HeaderMap : http.Header;
  Body : string;
  wroteHeader : bool;
  snapHeader : http.Header
}.

Definition NewRecorder : ResponseRecorder := mkRecorder 200 ∅ "" false ∅.

(** [w.Header().Set(key, value)]. *)
Definition SetHeader (w : ResponseRecorder) (key value : string) : ResponseRecorder :=
  mkRecorder (Code w) (http.Set_ (HeaderMap w) key value) (Body w)
             (wroteHeader w) (snapHeader w).

(** [w.WriteHeader(code)]: only the first call counts. *)
Definition WriteHeader (w : ResponseRecorder) (code : Z) : ResponseRecorder :=
  if wroteHeader w then w
  else mkRecorder code (HeaderMap w) (Body w) true (HeaderMap w).

(** [w.Write(data)]: writes status 200 first when no status was written. *)
Definition Write (w : ResponseRecorder) (data : string) : ResponseRecorder :=
  let w1 := WriteHeader w 200 in
  mkRecorder (Code w1) (HeaderMap w1) (Body w1 ++ data) (wroteHeader w1) (snapHeader w1).

(** What the client receives, as [w.Result()] reports it: the status is 200
    when the handler wrote none. *)
Record Response := mkResponse {
  StatusCode : Z;
  Header : http.Header;
  ResponseBody : string
}.

Definition Result (w : ResponseRecorder) : Response :=
  mkResponse (if wroteHeader w then Code w else 200)
    (if wroteHeader w then snapHeader w else HeaderMap w) (Body w).

End httptest.


(** [http.Error(w, error, code)]. *)
Definition http_Error (w : httptest.ResponseRecorder) (error : string) (code : Z)
      : httptest.ResponseRecorder :=
    let w1 := httptest.SetHeader w "Content-Type" "text/plain; charset=utf-8" in
    let w2 := httptest.SetHeader w1 "X-Content-Type-Options" "nosniff" in
    let w3 := httptest.WriteHeader w2 code in
    httptest.Write w3 (error ++ String "010" "").


(** ** aws-sdk-go: dynamodb, s3, request *)

Module dynamodb.

Definition ErrCodeConditionalCheckFailedException : string :=
  "ConditionalCheckFailedException".

(** [dynamodb.AttributeValue]; the program only uses its string member
    [S], a pointer that is nil for an attribute of another type. *)
Record AttributeValue := mkAttributeValue { S : option string }.

Abbreviation Attributes := (gmap string AttributeValue).

Module PutItemInput.
Record t := mk {
  Item : Attributes;
  TableName : option string;
  ConditionExpression : option string
}.
End PutItemInput.

Module GetItemInput.
Record t := mk {
  Key : Attributes;
  TableName : option string;
  ConsistentRead : option bool
}.
End GetItemInput.

Module GetItemOutput.
Record t := mk { Item : Attributes }.
End GetItemOutput.

(** The two methods of [dynamodbiface.DynamoDBAPI] the program calls, over
    a client (and the table behind it) of type [D].  [PutItem] gives its
    error, nil when the write was done; [GetItem] its output or its error. *)
Class DynamoDBAPI (D : Type) := {
  PutItem : PutItemInput.t -> D -> option error * D;
  GetItem : GetItemInput.t -> D -> (GetItemOutput.t + error) * D
}.

End dynamodb.

Module request.

(** [*request.Request], of which the program calls [Presign(expire)]: the
    signed URL, or an error. *)
Record Request := mk { Presign : time.Duration -> string + error }.

End request.

Module s3.

Module GetObjectInput.
Record t := mk { Bucket : option string; Key : option string }.
End GetObjectInput.

Module PutObjectInput.
Record t := mk { Bucket : option string; Key : option string }.
End PutObjectInput.

(** The two methods of [s3iface.S3API] the program calls. *)
Class S3API (C : Type) := {
  GetObjectRequest : GetObjectInput.t -> C -> request.Request;
  PutObjectRequest : PutObjectInput.t -> C -> request.Request
}.

End s3.

(** ** main.go *)

(** What the process does to the outside, in order: lines it logs and calls
    it makes on the two service handles. *)
Inductive Event : Type :=
| Logged (line : string)
| CalledPutItem (q : dynamodb.PutItemInput.t)
| CalledGetItem (q : dynamodb.GetItemInput.t)
| CalledGetObjectRequest (q : s3.GetObjectInput.t)
| CalledPutObjectRequest (q : s3.PutObjectInput.t)
| CalledPresign (expire : time.Duration).

Definition assetStatusUploaded : string := "uploaded".
Definition defaultDownloadTimeout : time.Duration := time.Minute.
Definition maxDownloadTimeout : time.Duration := (time.Hour * 24)%Z.
Definition uploadTimeout : time.Duration := (time.Hour * 24)%Z.

Record initAssetResponse := { UploadURL : string; ID : string }.
Record assetURLResponse := { DownloadURL : string }.
Record markUploadedRequest := { Status : string }.

(** The JSON of the two responses, with the keys of their field tags. *)
Definition encode_initAssetResponse (v : initAssetResponse) : string :=
  json.Encode [("upload_url", UploadURL v); ("id", ID v)].
Definition encode_assetURLResponse (v : assetURLResponse) : string :=
  json.Encode [("Download_url", DownloadURL v)].

(** [json.NewDecoder(body).Decode(&reqBody)] on a zero [markUploadedRequest]. *)
Definition decode_markUploadedRequest (body : string)
    : markUploadedRequest * option error :=
  let (status, err) := json.Decode "Status" body "" in
  ({| Status := status |}, err).

(** [{S: aws.String(s)}]. *)
Definition attrS (s : string) : dynamodb.AttributeValue :=
  dynamodb.mkAttributeValue (Some s).

Section Main.

Context {D C R : Type}.
Context `{dynamodb.DynamoDBAPI D} `{s3.S3API C} `{rand.Source R}.

(** The package-level variables of main.go, the state of the global random
    source, and the trace of what has happened. *)
Record Globals := mkGlobals {
  bucketName : string;
  tableName : string;
  dbSvc : D;
  s3Svc : C;
  globalRand : rand.Rand R;
  trace : list Event
}.

Definition emit (e : Event) (g : Globals) : Globals :=
  mkGlobals (bucketName g) (tableName g) (dbSvc g) (s3Svc g) (globalRand g)
            (trace g ++ [e])%list.
Definition set_dbSvc (d : D) (g : Globals) : Globals :=
  mkGlobals (bucketName g) (tableName g) d (s3Svc g) (globalRand g) (trace g).
Definition set_globalRand (r : rand.Rand R) (g : Globals) : Globals :=
  mkGlobals (bucketName g) (tableName g) (dbSvc g) (s3Svc g) r (trace g).

Local Open Scope go_scope.

(** [log.Println(line)]. *)
Definition log_Println (line : string) : M Globals unit :=
  modify (emit (Logged line)).

(** [rand.Read(randBytes)] on a slice of [n] bytes. *)
Definition rand_Read (n : nat) : M Globals (list Z) :=
  fun g => let (bs, r') := rand.Read n (globalRand g) in
           Done bs (set_globalRand r' g).

(** [dbSvc.PutItem(query)]. *)
Definition dbSvc_PutItem (query : dynamodb.PutItemInput.t) : M Globals (option error) :=
  fun g => let (err, d') := dynamodb.PutItem query (dbSvc g) in
           Done err (set_dbSvc d' (emit (CalledPutItem query) g)).

(** [dbSvc.GetItem(query)]. *)
Definition dbSvc_GetItem (query : dynamodb.GetItemInput.t)
    : M Globals (dynamodb.GetItemOutput.t + error) :=
  fun g => let (res, d') := dynamodb.GetItem query (dbSvc g) in
           Done res (set_dbSvc d' (emit (CalledGetItem query) g)).

(** [s3Svc.GetObjectRequest(input)] and [s3Svc.PutObjectRequest(input)]. *)
Definition s3Svc_GetObjectRequest (input : s3.GetObjectInput.t) : M Globals request.Request :=
  fun g => Done (s3.GetObjectRequest input (s3Svc g)) (emit (CalledGetObjectRequest input) g).
Definition s3Svc_PutObjectRequest (input : s3.PutObjectInput.t) : M Globals request.Request :=
  fun g => Done (s3.PutObjectRequest input (s3Svc g)) (emit (CalledPutObjectRequest input) g).

(** [req.Presign(expire)]. *)
Definition req_Presign (req : request.Request) (expire : time.Duration)
    : M Globals (string + error) :=
  fun g => Done (request.Presign req expire) (emit (CalledPresign expire) g).

(** The logging idiom of main.go:
    [if aerr, ok := err.(awserr.Error); ok { log.Println(aerr.Error()) }
     else { log.Println(err.Error()) }]. *)
Definition logError (err : error) : M Globals unit :=
  match asAwsErr err with
  | Some _ => log_Println (Error err)
  | None => log_Println (Error err)
  end.

(** *** reserveUniqueID *)

(** The iterations of [for i := 0; i <= 10; i++] that remain, [n] of them
    ([n] is [11 - i]), with the value of [lastError]. *)
Fixpoint reserveLoop (n : nat) (lastError : option error)
    : M Globals (string * option error) :=
  match n with
  | O => ret ("", lastError)
  | S n' =>
      let! randBytes := rand_Read 12 in
      let id := base64.EncodeToString randBytes in
      let! table := gets tableName in
      let query := dynamodb.PutItemInput.mk
                     {[ "id" := attrS id ]}
                     (Some table)
                     (Some "attribute_not_exists(id)") in
      let! err := dbSvc_PutItem query in
      match err with
      | Some e =>
          do! logError e in
          reserveLoop n' (Some e)
      | None => ret (id, None)
      end
  end.

Definition reserveUniqueID : M Globals (string * option error) :=
  reserveLoop 11 None.

(** *** checkMethod *)

Definition checkMethod (w : httptest.ResponseRecorder) (r : http.Request)
    (methods : list string) : httptest.ResponseRecorder * bool :=
  if existsb (fun method => String.eqb method (http.Method r)) methods
  then (w, true)
  else
    let w1 := httptest.SetHeader w "Allow" (strings.Join methods ", ") in
    (httptest.WriteHeader w1 http.StatusMethodNotAllowed, false).

(** *** initAsset *)

Definition initAsset (w : httptest.ResponseRecorder) (r : http.Request)
    : M Globals httptest.ResponseRecorder :=
  let (w, ok) := checkMethod w r [http.MethodPost] in
  if negb ok then ret w
  else
    let! reserved := reserveUniqueID in
    let (assetID, err) := reserved : string * option error in
    match err with
    | Some _ => ret (httptest.WriteHeader w http.StatusServiceUnavailable)
    | None =>
        let! bucket := gets bucketName in
        let! req := s3Svc_PutObjectRequest
                      (s3.PutObjectInput.mk (Some bucket) (Some assetID)) in
        let! signed := req_Presign req uploadTimeout in
        match signed with
        | inr err =>
            let w := httptest.WriteHeader w http.StatusInternalServerError in
            do! log_Println (Error err) in
            ret w
        | inl url =>
            ret (httptest.Write w
                   (encode_initAssetResponse {| UploadURL := url; ID := assetID |}))
        end
    end.

(** *** handleAssetURLRequest *)

(** The block that parses and validates the timeout parameter: the
    validity to sign with, or the text of the 400 response. *)
Definition downloadTimeout (timeoutStr : string) : time.Duration + string :=
  if String.eqb timeoutStr "" then inl defaultDownloadTimeout
  else
    match strconv.Atoi timeoutStr with
    | inr _ => inr "Invalid argument for timeout, must be integer."
    | inl timeoutSec =>
        let timeout := time.mul timeoutSec time.Second in
        if (timeout <? time.Second)%Z || (timeout >? maxDownloadTimeout)%Z
        then inr "Please use a more reasonable timeout."
        else inl timeout
    end.

Definition handleAssetURLRequest (w : httptest.ResponseRecorder)
    (r : http.Request) (assetID : string) : M Globals httptest.ResponseRecorder :=
  (* fetch the asset record from db *)
  let! table := gets tableName in
  let query := dynamodb.GetItemInput.mk
                 {[ "id" := attrS assetID ]}
                 (Some table)
                 (Some true) in
  let! got := dbSvc_GetItem query in
  match got with
  | inr err =>
      do! logError err in
      ret (http_Error w "Unexpected internal error." http.StatusInternalServerError)
  | inl result =>
      (* error if not found *)
      match dynamodb.GetItemOutput.Item result !! "id" with
      | None =>
          ret (http_Error w ("Asset id '" ++ assetID ++ "' not found.")
                 http.StatusNotFound)
      | Some _ =>
          (* error if found but not yet uploaded:
             [!ok || *status.S != assetStatusUploaded] *)
          let! notUploaded :=
            match dynamodb.GetItemOutput.Item result !! "status" with
            | None => ret true
            | Some status =>
                match dynamodb.S status with
                | None => panic "invalid memory address or nil pointer dereference"
                | Some s => ret (negb (String.eqb s assetStatusUploaded))
                end
            end in
          if notUploaded : bool then
            ret (http_Error w
                   ("Asset id '" ++ assetID ++ "' found but upload is not complete.")
                   http.StatusAccepted)
          else
            (* parse and validate the timeout parameter *)
            let timeoutStr := url.Get (url.Query (http.URL r)) "timeout" in
            match downloadTimeout timeoutStr with
            | inr msg => ret (http_Error w msg http.StatusBadRequest)
            | inl timeout =>
                (* sign and return a download url *)
                let! bucket := gets bucketName in
                let! req := s3Svc_GetObjectRequest
                              (s3.GetObjectInput.mk (Some bucket) (Some assetID)) in
                let! signed := req_Presign req timeout in
                match signed with
                | inr err =>
                    let w := httptest.WriteHeader w http.StatusInternalServerError in
                    do! log_Println (Error err) in
                    ret w
                | inl url =>
                    ret (httptest.Write w
                           (encode_assetURLResponse {| DownloadURL := url |}))
                end
            end
      end
  end.

(** *** handleMarkUploadedRequest *)

Definition handleMarkUploadedRequest (w : httptest.ResponseRecorder)
    (r : http.Request) (assetID : string) : M Globals httptest.ResponseRecorder :=
  (* validate request body *)
  let (reqBody, err) := decode_markUploadedRequest (http.Body r) in
  match err with
  | Some e =>
      ret (http_Error w ("Invalid JSON payload: " ++ Error e) http.StatusBadRequest)
  | None =>
      if negb (String.eqb (Status reqBody) assetStatusUploaded) then
        ret (http_Error w
               ("Invalid value for key Status. Expecting '" ++ assetStatusUploaded
                ++ "', got: '" ++ Status reqBody ++ "'")
               http.StatusBadRequest)
      else
        (* mark asset uploaded in DB and error if asset not found *)
        let! table := gets tableName in
        let query := dynamodb.PutItemInput.mk
                       (<[ "status" := attrS assetStatusUploaded ]>
                          {[ "id" := attrS assetID ]})
                       (Some table)
                       (Some "attribute_exists(id)") in
        let! err := dbSvc_PutItem query in
        match err with
        | Some e =>
            match asAwsErr e with
            | Some code =>
                if String.eqb code dynamodb.ErrCodeConditionalCheckFailedException then
                  ret (http_Error w ("Asset id '" ++ assetID ++ "' not found.")
                         http.StatusNotFound)
                else
                  do! log_Println (Error e) in
                  ret (http_Error w "Unexpected internal error."
                         http.StatusInternalServerError)
            | None =>
                do! log_Println (Error e) in
                ret (http_Error w "Unexpected internal error."
                       http.StatusInternalServerError)
            end
        | None => ret w
        end
  end.

(** *** manageAsset *)

Definition manageAsset (w : httptest.ResponseRecorder) (r : http.Request)
    : M Globals httptest.ResponseRecorder :=
  let (w, ok) := checkMethod w r [http.MethodGet; http.MethodPut] in
  if negb ok then ret w
  else
    let assetID := strings.TrimPrefix (url.Path (http.URL r)) "/asset/" in
    if String.eqb (http.Method r) http.MethodGet then
      handleAssetURLRequest w r assetID
    else if String.eqb (http.Method r) http.MethodPut then
      handleMarkUploadedRequest w r assetID
    else ret w.

End Main.

Arguments Globals D C R : clear implicits.

(** ** Observations and vocabulary of the specification *)

(** The response of a handler run, when it did not panic. *)
Definition response {St} (o : outcome St httptest.ResponseRecorder)
    : option httptest.Response :=
  match o with
  | Done w _ => Some (httptest.Result w)
  | Panicked _ _ => None
  end.

Definition statusOf {St} (o : outcome St httptest.ResponseRecorder) : option Z :=
  httptest.StatusCode <$> response o.

Definition bodyOf {St} (o : outcome St httptest.ResponseRecorder) : option string :=
  httptest.ResponseBody <$> response o.

Definition finalState {St A} (o : outcome St A) : St :=
  match o with
  | Done _ s => s
  | Panicked _ s => s
  end.

(** How many [PutItem] calls, and how many log lines, a trace holds. *)
Fixpoint countPuts (tr : list Event) : nat :=
  match tr with
  | [] => 0
  | CalledPutItem _ :: rest => S (countPuts rest)
  | _ :: rest => countPuts rest
  end.

Fixpoint countLogs (tr : list Event) : nat :=
  match tr with
  | [] => 0
  | Logged _ :: rest => S (countLogs rest)
  | _ :: rest => countLogs rest
  end.

(** A store failure is a collision (for an insert) or a failed existence
    check (for the transition) when it carries the code of a failed
    condition. *)
Definition isConditionFailure (e : error) : bool :=
  match asAwsErr e with
  | Some code => String.eqb code dynamodb.ErrCodeConditionalCheckFailedException
  | None => false
  end.

(** The three states of section 4.2 of the specification, as a read
    classifies them: no record; a record without the marker; a record with
    it. *)
Inductive AssetState := NotFound | Reserved | Uploaded.

Definition hasUploadedMarker (item : dynamodb.Attributes) : bool :=
  match item !! "status" with
  | Some status =>
      match dynamodb.S status with
      | Some s => String.eqb s assetStatusUploaded
      | None => false
      end
  | None => false
  end.

Definition classify (item : dynamodb.Attributes) : AssetState :=
  match item !! "id" with
  | None => NotFound
  | Some _ => if hasUploadedMarker item then Uploaded else Reserved
  end.

(** The status attribute of the item, where there is one, is a string. *)
Definition statusIsString (item : dynamodb.Attributes) : Prop :=
  forall status, item !! "status" = Some status -> is_Some (dynamodb.S status).

(** The characters of the URL-safe alphabet. *)
Definition urlSafe (c : ascii) : bool :=
  let n := codeOf c in
  ((65 <=? n)%Z && (n <=? 90)%Z) || ((97 <=? n)%Z && (n <=? 122)%Z)
  || ((48 <=? n)%Z && (n <=? 57)%Z) || (n =? 45)%Z || (n =? 95)%Z.

Fixpoint allURLSafe (s : string) : bool :=
  match s with
  | EmptyString => true
  | String c r => urlSafe c && allURLSafe r
  end.

(** Strings all of whose bytes are below 128. *)
Fixpoint isASCII (s : string) : bool :=
  match s with
  | EmptyString => true
  | String c r => (codeOf c <? 128)%Z && isASCII r
  end.

(** Fields whose keys and values are ASCII strings. *)
Definition fieldsASCII (fields : list (string * string)) : Prop :=
  Forall (fun kv => isASCII (fst kv) = true /\ isASCII (snd kv) = true) fields.

(** The requests the handlers build. *)
Definition reserveQuery (table id : string) : dynamodb.PutItemInput.t :=
  dynamodb.PutItemInput.mk {[ "id" := attrS id ]} (Some table)
    (Some "attribute_not_exists(id)").

Definition markQuery (table id : string) : dynamodb.PutItemInput.t :=
  dynamodb.PutItemInput.mk
    (<[ "status" := attrS assetStatusUploaded ]> {[ "id" := attrS id ]})
    (Some table) (Some "attribute_exists(id)").

Definition stateQuery (table id : string) : dynamodb.GetItemInput.t :=
  dynamodb.GetItemInput.mk {[ "id" := attrS id ]} (Some table) (Some true).

(** The value of [lastError] after the failures [es], having started with
    [last]. *)
Definition lastOf (es : list error) (last : option error) : option error :=
  fold_left (fun _ e => Some e) es last.

(** What failed insert attempts leave in the trace: for each of them the
    [PutItem] call that tried to claim its id, then the log line of its
    error. *)
Fixpoint failureEvents (table : string) (ids : list string) (es : list error)
    : list Event :=
  match ids, es with
  | id :: ids', e :: es' =>
      CalledPutItem (reserveQuery table id) :: Logged (Error e)
        :: failureEvents table ids' es'
  | _, _ => []
  end.

(** The events that are calls on the record store. *)
Definition isStoreCall (e : Event) : bool :=
  match e with
  | CalledPutItem _ | CalledGetItem _ => true
  | _ => false
  end.

(** An event a reservation may leave: a log line, or a conditional insert of
    an item that holds nothing but an id, into the given table. *)
Definition isReserveEvent (table : string) (e : Event) : Prop :=
  match e with
  | Logged _ => True
  | CalledPutItem q => exists id, q = reserveQuery table id
  | _ => False
  end.

Section Vocabulary.

Context {D C R : Type}.
Context `{dynamodb.DynamoDBAPI D} `{s3.S3API C} `{rand.Source R}.

Local Open Scope go_scope.

(** One conditional insert attempt of the reservation loop: a fresh token
    and the [PutItem] that tries to claim it. *)
Definition insertAttempt : M (Globals D C R) (string * option error) :=
  let! randBytes := rand_Read 12 in
  let id := base64.EncodeToString randBytes in
  let! table := gets tableName in
  let! err := dbSvc_PutItem (reserveQuery table id) in
  ret (id, err).

(** [failedAttempts g es g']: starting in [g], as many insert attempts as
    [es] has errors are made one after the other, each fails with the next
    error of [es] and is logged, and the process is then in [g']. *)
Inductive failedAttempts : Globals D C R -> list error -> Globals D C R -> Prop :=
| failed_none g : failedAttempts g [] g
| failed_more g id e g1 es g' :
    insertAttempt g = Done (id, Some e) g1 ->
    failedAttempts (emit (Logged (Error e)) g1) es g' ->
    failedAttempts g (e :: es) g'.

(** The candidate ids of [n] draws of twelve bytes made one after the other
    from the random source [r]. *)
Fixpoint tokens (n : nat) (r : rand.Rand R) : list string :=
  match n with
  | O => []
  | S n' =>
      base64.EncodeToString (fst (rand.Read 12 r))
        :: tokens n' (snd (rand.Read 12 r))
  end.

(** The state of the process once the record has been read. *)
Definition afterRead (g : Globals D C R) (assetID : string) (d' : D) : Globals D C R :=
  set_dbSvc d' (emit (CalledGetItem (stateQuery (tableName g) assetID)) g).

(** The state of the process once a URL has been signed for [timeout]. *)
Definition afterSign (g : Globals D C R) (assetID : string) (d' : D) (timeout : time.Duration)
    : Globals D C R :=
  emit (CalledPresign timeout)
    (emit (CalledGetObjectRequest
             (s3.GetObjectInput.mk (Some (bucketName g)) (Some assetID)))
       (afterRead g assetID d')).

(** The state of the process once the transition has been attempted. *)
Definition afterPut (g : Globals D C R) (assetID : string) (d' : D) : Globals D C R :=
  set_dbSvc d' (emit (CalledPutItem (markQuery (tableName g) assetID)) g).

(** The state of the process once an upload URL has been asked for [id]. *)
Definition afterUploadSign (g : Globals D C R) (id : string) : Globals D C R :=
  emit (CalledPresign uploadTimeout)
    (emit (CalledPutObjectRequest
             (s3.PutObjectInput.mk (Some (bucketName g)) (Some id)))
       g).

End Vocabulary.

(** ** Test doubles

    An in-memory record store with fault injection, which covers the mock
    clients of main_test.go and follows the store the handlers expect (get by
    key, put by key under a condition on the key); a signer whose URL shows
    the validity it was asked for; and a small deterministic random source. *)

Module fake.

Import dynamodb.

(** The table maps a key (the string of the [id] attribute) to its item.
    [faults] is consumed one entry per call: [Some e] makes that call fail
    with [e] and leaves the table as it is; [None], or an empty list, lets
    the call through. *)
Record MemDB := mkMemDB {
  table : gmap string Attributes;
  faults : list (option error)
}.

Definition keyOf (item : Attributes) : option string := item !! "id" ≫= S.

Definition conditionHolds (cond : option string) (present : bool) : option bool :=
  match cond with
  | None => Some true
  | Some c =>
      if String.eqb c "attribute_not_exists(id)" then Some (negb present)
      else if String.eqb c "attribute_exists(id)" then Some present
      else None
  end.

Definition validationError : error :=
  awserr_New "ValidationException" "The request is not valid".
Definition conditionalCheckFailed : error :=
  awserr_New ErrCodeConditionalCheckFailedException "The conditional request failed".

(** A put replaces the whole item under its key when the condition holds. *)
Definition putTable (q : PutItemInput.t) (t : gmap string Attributes)
    : option error * gmap string Attributes :=
  match keyOf (PutItemInput.Item q) with
  | None => (Some validationError, t)
  | Some k =>
      match conditionHolds (PutItemInput.ConditionExpression q)
              (bool_decide (is_Some (t !! k))) with
      | None => (Some validationError, t)
      | Some true => (None, <[k := PutItemInput.Item q]> t)
      | Some false => (Some conditionalCheckFailed, t)
      end
  end.

(** A get gives the item under the key, or no attributes at all. *)
Definition getTable (q : GetItemInput.t) (t : gmap string Attributes)
    : GetItemOutput.t + error :=
  match keyOf (GetItemInput.Key q) with
  | None => inr validationError
  | Some k => inl (GetItemOutput.mk (default ∅ (t !! k)))
  end.

#[global] Instance MemDB_API : DynamoDBAPI MemDB := {
  PutItem q d :=
    match faults d with
    | Some e :: rest => (Some e, mkMemDB (table d) rest)
    | None :: rest =>
        let (err, t') := putTable q (table d) in (err, mkMemDB t' rest)
    | [] =>
        let (err, t') := putTable q (table d) in (err, mkMemDB t' [])
    end;
  GetItem q d :=
    match faults d with
    | Some e :: rest => (inr e, mkMemDB (table d) rest)
    | None :: rest => (getTable q (table d), mkMemDB (table d) rest)
    | [] => (getTable q (table d), d)
    end
}.

(** [strconv.FormatInt(n, 10)]. *)
Definition FormatInt (n : Z) : string :=
  DecimalString.NilZero.string_of_int (Z.to_int n).

(** A signer: the URL names the bucket, the key and, as the SDK's version 4
    signer does, the validity in whole seconds; [broken] makes it fail. *)
Record Signer := mkSigner { broken : bool }.

Definition presign (c : Signer) (verb : string) (bucket key : option string)
    : request.Request :=
  request.mk (fun expire =>
    if broken c then inr (errors_New "signing failed")
    else inl ("https://" ++ default "" bucket ++ ".s3.amazonaws.com/"
              ++ default "" key ++ "?X-Amz-Expires="
              ++ FormatInt (expire / time.Second) ++ "&verb=" ++ verb)).

#[global] Instance Signer_API : s3.S3API Signer := {
  GetObjectRequest q c :=
    presign c "GET" (s3.GetObjectInput.Bucket q) (s3.GetObjectInput.Key q);
  PutObjectRequest q c :=
    presign c "PUT" (s3.PutObjectInput.Bucket q) (s3.PutObjectInput.Key q)
}.

(** A linear congruential generator as the random source. *)
Record Lcg := mkLcg { seed : Z }.

#[global] Instance Lcg_Source : rand.Source Lcg := {
  Int63 s :=
    let x := ((seed s * 6364136223846793005 + 1442695040888963407) mod 2 ^ 63)%Z in
    (x, mkLcg x)
}.

(** The process as [main] leaves it with its default flags, over a table
    [t] and a fault schedule [fs]. *)
Definition world (t : gmap string Attributes) (fs : list (option error))
    : Globals MemDB Signer Lcg :=
  mkGlobals "1brown2green" "assets" (mkMemDB t fs) (mkSigner false)
            (rand.New (mkLcg 42)) [].

(** The same process with another signer. *)
Definition worldWith (signer : Signer) (t : gmap string Attributes)
    (fs : list (option error)) : Globals MemDB Signer Lcg :=
  mkGlobals "1brown2green" "assets" (mkMemDB t fs) signer (rand.New (mkLcg 42)) [].

(** A record whose status attribute is not a string attribute. *)
Definition oddStatus (id : string) : Attributes :=
  <[ "status" := mkAttributeValue None ]> {[ "id" := attrS id ]}.

(** A record as [reserveUniqueID] writes it, and as
    [handleMarkUploadedRequest] rewrites it. *)
Definition reserved (id : string) : Attributes := {[ "id" := attrS id ]}.
Definition uploaded (id : string) : Attributes :=
  <[ "status" := attrS assetStatusUploaded ]> {[ "id" := attrS id ]}.

(** Two store failures that are no collisions, and a schedule of eleven
    failures. *)
Definition throttled : error :=
  awserr_New "ProvisionedThroughputExceededException" "Rate exceeded".
Definition unreachable : error := errors_New "dial tcp: connection refused".
Definition elevenFaults : list error := repeat throttled 10 ++ [unreachable].

(** The body of a transition request that asks for the status [v]. *)
Definition statusBody (v : string) : string :=
  "{" ++ quoted "Status" ++ ":" ++ quoted v ++ "}".

Definition get (path query : string) : http.Request :=
  http.mkRequest http.MethodGet (url.mkURL path query) "".
Definition put (path body : string) : http.Request :=
  http.mkRequest http.MethodPut (url.mkURL path "") body.
Definition post (path : string) : http.Request :=
  http.mkRequest http.MethodPost (url.mkURL path "") "".

End fake.

(** * Properties *)

(** ** Counting events *)

Lemma countPuts_app (tr1 tr2 : list Event) :
  countPuts (tr1 ++ tr2)%list = countPuts tr1 + countPuts tr2.
Proof.
  induction tr1 as [|e tr1 IH]; simpl; [reflexivity|].
  destruct e; simpl; rewrite IH; reflexivity.
Qed.

Lemma countLogs_app (tr1 tr2 : list Event) :
  countLogs (tr1 ++ tr2)%list = countLogs tr1 + countLogs tr2.
Proof.
  induction tr1 as [|e tr1 IH]; simpl; [reflexivity|].
  destruct e; simpl; rewrite IH; reflexivity.
Qed.

(** ** Identifier reservation *)

Section Reservation.

Context {D C R : Type}.
Context `{dynamodb.DynamoDBAPI D} `{s3.S3API C} `{rand.Source R}.

Implicit Types g : Globals D C R.

(** An attempt always comes back, has made exactly one [PutItem] call and
    has logged nothing. *)
Lemma insertAttempt_total g :
  exists id err g1,
    insertAttempt g = Done (id, err) g1
    /\ countPuts (trace g1) = S (countPuts (trace g))
    /\ countLogs (trace g1) = countLogs (trace g).
Proof.
  unfold insertAttempt, bind, rand_Read, gets, dbSvc_PutItem, ret.
  destruct (rand.Read 12 (globalRand g)) as [bs r'] eqn:Hr. simpl.
  destruct (dynamodb.PutItem _ _) as [err d'] eqn:Hp.
  eexists _, err, _. split; [reflexivity|]. simpl.
  rewrite countPuts_app, countLogs_app. simpl. split; lia.
Qed.

(** One turn of the loop, in terms of one attempt. *)
Lemma reserveLoop_step n last g :
  reserveLoop (S n) last g =
  match insertAttempt g with
  | Done (id, Some e) g1 => reserveLoop n (Some e) (emit (Logged (Error e)) g1)
  | Done (id, None) g1 => Done (id, None) g1
  | Panicked msg g1 => Panicked msg g1
  end.
Proof.
  cbn [reserveLoop]. unfold insertAttempt, bind, rand_Read, gets, dbSvc_PutItem, ret.
  destruct (rand.Read 12 (globalRand g)) as [bs r'].
  destruct (dynamodb.PutItem _ _) as [[e|] d']; [|reflexivity].
  unfold logError, log_Println, modify. destruct (asAwsErr e); reflexivity.
Qed.

(** After failed attempts the loop goes on with what remains of its bound. *)
Lemma reserveLoop_after_failures g es g' :
  failedAttempts g es g' ->
  forall n last,
    reserveLoop (length es + n) last g = reserveLoop n (lastOf es last) g'.
Proof.
  induction 1 as [g|g id e g1 es g' Hatt Hrest IH]; intros n last.
  - reflexivity.
  - cbn [length Nat.add]. rewrite reserveLoop_step, Hatt. apply IH.
Qed.

(** The loop always returns; the number of [PutItem] calls it has made is
    at most its bound; it returns an error only with the bound used up, and
    an id only from an attempt that succeeded, every earlier attempt having
    failed and been logged. *)
Lemma reserveLoop_attempts n : forall last g,
  exists id err g',
    reserveLoop n last g = Done (id, err) g'
    /\ exists k,
         countPuts (trace g') = countPuts (trace g) + k
         /\ k <= n
         /\ ((err = None /\ 1 <= k /\ countLogs (trace g') = countLogs (trace g) + (k - 1))
             \/ (k = n /\ id = "" /\ countLogs (trace g') = countLogs (trace g) + n
                 /\ err = (if n is O then last else err) /\ (n <> 0 -> err <> None))).
Proof.
  induction n as [|n IH]; intros last g.
  - exists "", last, g. split; [reflexivity|]. exists 0.
    split; [lia|]. split; [lia|]. right.
    split; [reflexivity|]. split; [reflexivity|]. split; [lia|].
    split; [reflexivity|]. intros Hc. exfalso. apply Hc. reflexivity.
  - rewrite reserveLoop_step.
    destruct (insertAttempt_total g) as (id & err & g1 & Hatt & Hputs & Hlogs).
    rewrite Hatt. destruct err as [e|].
    + destruct (IH (Some e) (emit (Logged (Error e)) g1))
        as (id' & err' & g' & Hrun & k & Hk & Hle & Hcases).
      exists id', err', g'. split; [exact Hrun|]. exists (S k).
      simpl in Hk. rewrite countPuts_app in Hk. simpl in Hk.
      split; [lia|]. split; [lia|].
      simpl in Hcases. rewrite countLogs_app in Hcases. simpl in Hcases.
      destruct Hcases as [(He & Hk1 & Hl)|(Hkn & Hid & Hl & Herr & Hne)].
      * left. split; [exact He|]. split; lia.
      * right. split; [lia|]. split; [exact Hid|]. split; [lia|].
        split; [reflexivity|]. intros _.
        destruct n as [|n']; [rewrite Herr; discriminate|].
        apply Hne. lia.
    + exists id, None, g1. split; [reflexivity|]. exists 1.
      split; [lia|]. split; [lia|]. left. split; [reflexivity|]. split; lia.
Qed.

Lemma lastOf_last (es : list error) (x : option error) :
  lastOf es x = match last es with Some e => Some e | None => x end.
Proof.
  revert x. induction es as [|e es IH]; intros x; [reflexivity|].
  unfold lastOf in *. cbn [fold_left]. rewrite IH.
  destruct es as [|e0 es']; [reflexivity|].
  change (last (e :: e0 :: es')) with (last (e0 :: es')).
  destruct (last (e0 :: es')) eqn:Hlast; [reflexivity|].
  apply last_None in Hlast. discriminate Hlast.
Qed.

(** What an attempt does: it draws twelve bytes from the random source,
    which it leaves advanced, and makes one [PutItem] call for the id they
    encode. *)
Lemma insertAttempt_draws g id err g1 :
  insertAttempt g = Done (id, err) g1 ->
  id = base64.EncodeToString (fst (rand.Read 12 (globalRand g)))
  /\ globalRand g1 = snd (rand.Read 12 (globalRand g))
  /\ trace g1 = (trace g ++ [CalledPutItem (reserveQuery (tableName g) id)])%list
  /\ tableName g1 = tableName g.
Proof.
  unfold insertAttempt, bind, rand_Read, gets, dbSvc_PutItem, ret.
  destruct (rand.Read 12 (globalRand g)) as [bs r'].
  cbn [tableName set_globalRand dbSvc emit fst snd].
  destruct (dynamodb.PutItem _ (dbSvc g)) as [e d'].
  intros Heq. injection Heq as <- _ <-. repeat split.
Qed.

(** What failed attempts leave behind: their calls and log lines in the
    trace, and the random source advanced by one draw for each of them. *)
Lemma failedAttempts_leave g es g' :
  failedAttempts g es g' ->
  exists ids,
    length ids = length es
    /\ trace g' = (trace g ++ failureEvents (tableName g) ids es)%list
    /\ tableName g' = tableName g
    /\ forall n, tokens (length es + n) (globalRand g)
                 = (ids ++ tokens n (globalRand g'))%list.
Proof.
  induction 1 as [g|g id e g1 es g' Hatt Hrest IH].
  - exists []. rewrite app_nil_r. repeat split.
  - destruct (insertAttempt_draws g id (Some e) g1 Hatt) as (Hid & Hrand & Htr & Htab).
    destruct IH as (ids & Hlen & Htrace & Htable & Htok).
    cbn [trace tableName globalRand emit] in Htrace, Htable, Htok.
    exists (id :: ids). split; [cbn [length]; congruence|].
    split; [|split; [congruence|]].
    + rewrite Htrace, Htr, Htab. cbn [failureEvents].
      rewrite <- !app_assoc. reflexivity.
    + intros n. cbn [length Nat.add tokens]. rewrite <- Hid, <- Hrand, Htok.
      reflexivity.
Qed.

(** The loop only adds to the trace. *)
Lemma reserveLoop_extends n : forall last g,
  exists rest, trace (finalState (reserveLoop n last g)) = (trace g ++ rest)%list.
Proof.
  induction n as [|n IH]; intros last g.
  - exists []. rewrite app_nil_r. reflexivity.
  - rewrite reserveLoop_step.
    destruct (insertAttempt_total g) as (id & err & g1 & Hatt & _ & _).
    rewrite Hatt.
    destruct (insertAttempt_draws g id err g1 Hatt) as (_ & _ & Htr & _).
    destruct err as [e|].
    + destruct (IH (Some e) (emit (Logged (Error e)) g1)) as [rest Hrest].
      rewrite Hrest. cbn [trace emit]. rewrite Htr, <- !app_assoc.
      eexists. reflexivity.
    + cbn [finalState]. rewrite Htr. eexists. reflexivity.
Qed.

(** C1 (as amended).  During identifier reservation a failed insert attempt,
    whatever the failure is (the client and its errors are arbitrary here,
    collisions or not), is logged and, unless it was the eleventh, followed
    by a further attempt with a token drawn anew.  First, reservation always
    returns, after at least one and at most eleven [PutItem] calls, and
    with an error only when eleven attempts have been made and have all
    failed.  Second, after any [length es <= 10] failed attempts with the
    errors [es], the run of reservation holds, after what the process had
    done before, the [PutItem] call and then the log line of each failed
    attempt, and then the [PutItem] call of a further attempt; the ids of
    all these attempts are successive draws from the random source; when the
    further attempt succeeds its id is returned without error, never the id
    of a failed one; when it fails, it is logged in turn and reservation
    goes on with the attempts left, which is to return the empty id and
    that error when none is left. *)
Theorem reserve_retries_every_failure g :
  (exists id err g',
     reserveUniqueID g = Done (id, err) g'
     /\ exists k,
          countPuts (trace g') = countPuts (trace g) + k
          /\ 1 <= k <= 11
          /\ (err = None -> countLogs (trace g') = countLogs (trace g) + (k - 1))
          /\ (err <> None ->
              k = 11 /\ id = "" /\ countLogs (trace g') = countLogs (trace g) + 11))
  /\ (forall es g',
        failedAttempts g es g' -> length es <= 10 ->
        exists ids id err g'',
          insertAttempt g' = Done (id, err) g''
          /\ length ids = length es
          /\ (ids ++ [id])%list = tokens (S (length es)) (globalRand g)
          /\ (exists rest,
                trace (finalState (reserveUniqueID g))
                = (trace g ++ failureEvents (tableName g) ids es
                     ++ [CalledPutItem (reserveQuery (tableName g) id)] ++ rest)%list)
          /\ (err = None -> reserveUniqueID g = Done (id, None) g'')
          /\ (forall e, err = Some e ->
                reserveUniqueID g
                = reserveLoop (10 - length es) (Some e) (emit (Logged (Error e)) g'')
                /\ (exists rest,
                      trace (finalState (reserveUniqueID g))
                      = (trace g'' ++ [Logged (Error e)] ++ rest)%list)
                /\ (length es = 10 ->
                    reserveUniqueID g
                    = Done ("", Some e) (emit (Logged (Error e)) g'')))).
Proof.
  split.
  { destruct (reserveLoop_attempts 11 None g)
      as (id & err & g' & Hrun & k & Hk & Hle & Hcases).
    exists id, err, g'. split; [exact Hrun|]. exists k.
    split; [exact Hk|].
    destruct Hcases as [(He & Hk1 & Hl)|(Hkn & Hid & Hl & _ & Hne)].
    - split; [lia|]. split; [intros _; exact Hl|]. intros Hc. contradiction.
    - split; [lia|]. split.
      + intros He. exfalso. apply Hne; [lia|exact He].
      + intros _. split; [exact Hkn|]. split; assumption. }
  intros es g' Hfail Hlen.
  destruct (insertAttempt_total g') as (id & err & g'' & Hatt & _ & _).
  destruct (insertAttempt_draws g' id err g'' Hatt) as (Hid & _ & Htr & _).
  destruct (failedAttempts_leave g es g' Hfail) as (ids & Hlenids & Htrace & Htable & Htok).
  assert (Hrun : reserveUniqueID g
                 = match err with
                   | Some e => reserveLoop (10 - length es) (Some e)
                                 (emit (Logged (Error e)) g'')
                   | None => Done (id, None) g''
                   end).
  { unfold reserveUniqueID.
    replace 11 with (length es + S (10 - length es)) by lia.
    rewrite (reserveLoop_after_failures g es g' Hfail).
    rewrite reserveLoop_step, Hatt. destruct err; reflexivity. }
  assert (Hext : forall e, err = Some e ->
                 exists rest, trace (finalState (reserveUniqueID g))
                              = (trace g'' ++ [Logged (Error e)] ++ rest)%list).
  { intros e He. rewrite Hrun, He.
    destruct (reserveLoop_extends (10 - length es) (Some e) (emit (Logged (Error e)) g''))
      as [rest Hrest].
    exists rest. rewrite Hrest. cbn [trace emit]. rewrite <- app_assoc. reflexivity. }
  exists ids, id, err, g''.
  split; [exact Hatt|]. split; [exact Hlenids|].
  split.
  { replace (S (length es)) with (length es + 1) by lia.
    rewrite Htok. cbn [tokens]. rewrite <- Hid. reflexivity. }
  split.
  { destruct err as [e|].
    - destruct (Hext e eq_refl) as [rest Hrest].
      exists (Logged (Error e) :: rest). rewrite Hrest, Htr, Htrace, Htable.
      rewrite <- !app_assoc. reflexivity.
    - exists []. rewrite Hrun. cbn [finalState].
      rewrite Htr, Htrace, Htable, <- !app_assoc. reflexivity. }
  split.
  { intros He. rewrite Hrun, He. reflexivity. }
  intros e He. split; [rewrite Hrun, He; reflexivity|].
  split; [exact (Hext e He)|].
  intros H10. rewrite Hrun, He, H10. reflexivity.
Qed.

(** C2.  Reservation makes a bounded number of insert attempts: when eleven
    attempts in a row fail, it returns the empty id and the error of the
    last of them; when an attempt succeeds after at most ten failed ones, it
    returns the id that attempt claimed and no error. *)
Theorem reserve_bounded_attempts g es g' :
  failedAttempts g es g' ->
  (length es = 11 ->
     exists e, last es = Some e /\ reserveUniqueID g = Done ("", Some e) g')
  /\ (length es <= 10 ->
      forall id g'', insertAttempt g' = Done (id, None) g'' ->
                     reserveUniqueID g = Done (id, None) g'').
Proof.
  intros Hfail. split.
  - intros Hlen.
    destruct (last es) as [e|] eqn:Hlast.
    + exists e. split; [reflexivity|].
      unfold reserveUniqueID.
      pose proof (reserveLoop_after_failures g es g' Hfail 0 None) as Hrun.
      rewrite Nat.add_0_r, Hlen in Hrun. rewrite Hrun.
      cbn [reserveLoop]. unfold ret. rewrite lastOf_last, Hlast. reflexivity.
    + destruct es; [discriminate Hlen|].
      apply last_None in Hlast. discriminate Hlast.
  - intros Hlen id g'' Hok.
    unfold reserveUniqueID.
    replace 11 with (length es + S (10 - length es)) by lia.
    rewrite (reserveLoop_after_failures g es g' Hfail).
    rewrite reserveLoop_step, Hok. reflexivity.
Qed.

End Reservation.

(** A reservation that meets a store failure which is no collision goes on:
    here the first insert is throttled, and reservation still makes a second
    insert and returns the id claimed by it, without any error. *)
Lemma reserve_continues_after_throttling :
  isConditionFailure fake.throttled = false
  /\ (exists id g1,
        insertAttempt (fake.world ∅ [Some fake.throttled])
        = Done (id, Some fake.throttled) g1)
  /\ match reserveUniqueID (fake.world ∅ [Some fake.throttled]) with
     | Done (id, err) g' =>
         id = "-LdLOYvopcWvfsjz" /\ err = None /\ countPuts (trace g') = 2
     | Panicked _ _ => False
     end.
Proof.
  split; [reflexivity|]. split.
  - eexists _, _. vm_compute. reflexivity.
  - vm_compute. repeat split.
Qed.

Lemma reserve_bounded_attempts_witness :
  (exists g', reserveUniqueID (fake.world ∅ (map Some fake.elevenFaults))
              = Done ("", Some fake.unreachable) g')
  /\ (exists g', reserveUniqueID (fake.world ∅ [Some fake.throttled; Some fake.unreachable])
                 = Done ("hT_EYXVBDo2sKh7g", None) g').
Proof.
  split.
  - eassert (Hfail : failedAttempts (fake.world ∅ (map Some fake.elevenFaults))
                       fake.elevenFaults _).
    { repeat (eapply failed_more; [vm_compute; reflexivity|]). apply failed_none. }
    destruct (proj1 (reserve_bounded_attempts _ _ _ Hfail) eq_refl) as (e & Hlast & Hrun).
    injection Hlast as <-. eexists. exact Hrun.
  - eassert (Hfail : failedAttempts (fake.world ∅ [Some fake.throttled; Some fake.unreachable])
                       [fake.throttled; fake.unreachable] _).
    { repeat (eapply failed_more; [vm_compute; reflexivity|]). apply failed_none. }
    eexists.
    refine (proj2 (reserve_bounded_attempts _ _ _ Hfail) _ _ _ _).
    + simpl. lia.
    + vm_compute. reflexivity.
Defined.

(** ** The response writer *)

(** What [http.Error] leaves in a writer that had not written its status. *)
Lemma Result_http_Error (w : httptest.ResponseRecorder) (msg : string) (code : Z) :
  httptest.wroteHeader w = false ->
  httptest.StatusCode (httptest.Result (http_Error w msg code)) = code
  /\ httptest.ResponseBody (httptest.Result (http_Error w msg code))
     = httptest.Body w ++ msg ++ String "010" "".
Proof.
  intros Hw. unfold http_Error, httptest.Write, httptest.WriteHeader, httptest.SetHeader.
  simpl. rewrite Hw. simpl. split; reflexivity.
Qed.

Lemma Result_WriteHeader (w : httptest.ResponseRecorder) (code : Z) :
  httptest.wroteHeader w = false ->
  httptest.Result (httptest.WriteHeader w code)
  = httptest.mkResponse code (httptest.HeaderMap w) (httptest.Body w).
Proof.
  intros Hw. unfold httptest.WriteHeader. rewrite Hw. reflexivity.
Qed.

Lemma Result_Write (w : httptest.ResponseRecorder) (data : string) :
  httptest.wroteHeader w = false ->
  httptest.Result (httptest.Write w data)
  = httptest.mkResponse 200 (httptest.HeaderMap w) (httptest.Body w ++ data).
Proof.
  intros Hw. unfold httptest.Write, httptest.WriteHeader. rewrite Hw. reflexivity.
Qed.

(** ** Method check *)

Section Methods.

Context {D C R : Type}.
Context `{dynamodb.DynamoDBAPI D} `{s3.S3API C} `{rand.Source R}.

Implicit Types g : Globals D C R.

Lemma checkMethod_refused (w : httptest.ResponseRecorder) (r : http.Request)
    (methods : list string) :
  httptest.wroteHeader w = false ->
  existsb (fun method => String.eqb method (http.Method r)) methods = false ->
  let w' := fst (checkMethod w r methods) in
  snd (checkMethod w r methods) = false
  /\ httptest.Result w'
     = httptest.mkResponse http.StatusMethodNotAllowed
         (<["Allow" := [strings.Join methods ", "]]> (httptest.HeaderMap w))
         (httptest.Body w).
Proof.
  intros Hw Hex. unfold checkMethod. rewrite Hex. simpl.
  split; [reflexivity|].
  rewrite Result_WriteHeader by exact Hw. reflexivity.
Qed.

(** C9.  A request whose method is not allowed for its path (anything but
    POST for [initAsset], anything but GET and PUT for [manageAsset]) gets
    status 405 with an [Allow] header that lists exactly the allowed
    methods, and nothing else happens: the body is untouched, no service is
    called, nothing is logged, no random bytes are drawn. *)
Theorem method_not_allowed_carries_allow (w : httptest.ResponseRecorder)
    (r : http.Request) g :
  httptest.wroteHeader w = false ->
  (http.Method r <> "POST" ->
     exists w', initAsset w r g = Done w' g
       /\ httptest.StatusCode (httptest.Result w') = 405%Z
       /\ httptest.Header (httptest.Result w')
          = <["Allow" := ["POST"]]> (httptest.HeaderMap w)
       /\ httptest.ResponseBody (httptest.Result w') = httptest.Body w)
  /\ (http.Method r <> "GET" -> http.Method r <> "PUT" ->
     exists w', manageAsset w r g = Done w' g
       /\ httptest.StatusCode (httptest.Result w') = 405%Z
       /\ httptest.Header (httptest.Result w')
          = <["Allow" := ["GET, PUT"]]> (httptest.HeaderMap w)
       /\ httptest.ResponseBody (httptest.Result w') = httptest.Body w).
Proof.
  intros Hw. split.
  - intros Hpost.
    assert (Hex : existsb (fun method => String.eqb method (http.Method r))
                    [http.MethodPost] = false).
    { cbn [existsb]. rewrite orb_false_r. apply String.eqb_neq.
      intros Heq. apply Hpost. symmetry. exact Heq. }
    destruct (checkMethod_refused w r _ Hw Hex) as [Hok Hres].
    unfold initAsset. destruct (checkMethod w r [http.MethodPost]) as [w' ok].
    cbn [fst snd] in Hok, Hres. subst ok. cbn [negb]. exists w'. unfold ret.
    split; [reflexivity|]. rewrite Hres. repeat split.
  - intros Hget Hput.
    assert (Hex : existsb (fun method => String.eqb method (http.Method r))
                    [http.MethodGet; http.MethodPut] = false).
    { cbn [existsb]. rewrite orb_false_r. apply orb_false_iff.
      split; apply String.eqb_neq; intros Heq; [apply Hget|apply Hput];
        symmetry; exact Heq. }
    destruct (checkMethod_refused w r _ Hw Hex) as [Hok Hres].
    unfold manageAsset. destruct (checkMethod w r [http.MethodGet; http.MethodPut]) as [w' ok].
    cbn [fst snd] in Hok, Hres. subst ok. cbn [negb]. exists w'. unfold ret.
    split; [reflexivity|]. rewrite Hres. repeat split.
Qed.

End Methods.

Lemma method_not_allowed_carries_allow_witness :
  (exists w', initAsset httptest.NewRecorder (fake.get "/asset" "") (fake.world ∅ [])
              = Done w' (fake.world ∅ [])
     /\ httptest.StatusCode (httptest.Result w') = 405%Z
     /\ httptest.Header (httptest.Result w') = <["Allow" := ["POST"]]> ∅
     /\ httptest.ResponseBody (httptest.Result w') = "")
  /\ (exists w', manageAsset httptest.NewRecorder (fake.post "/asset/abc") (fake.world ∅ [])
              = Done w' (fake.world ∅ [])
     /\ httptest.StatusCode (httptest.Result w') = 405%Z
     /\ httptest.Header (httptest.Result w') = <["Allow" := ["GET, PUT"]]> ∅
     /\ httptest.ResponseBody (httptest.Result w') = "").
Proof.
  split.
  - apply (proj1 (method_not_allowed_carries_allow httptest.NewRecorder
                    (fake.get "/asset" "") (fake.world ∅ []) eq_refl)).
    discriminate.
  - apply (proj2 (method_not_allowed_carries_allow httptest.NewRecorder
                    (fake.post "/asset/abc") (fake.world ∅ []) eq_refl));
      discriminate.
Defined.

(** ** Download *)

Section Download.

Context {D C R : Type}.
Context `{dynamodb.DynamoDBAPI D} `{s3.S3API C} `{rand.Source R}.

Implicit Types g : Globals D C R.

Lemma trace_emit e g : trace (emit e g) = (trace g ++ [e])%list.
Proof. reflexivity. Qed.

Lemma trace_afterRead g assetID d' :
  trace (afterRead g assetID d')
  = (trace g ++ [CalledGetItem (stateQuery (tableName g) assetID)])%list.
Proof. reflexivity. Qed.

Lemma trace_afterSign g assetID d' timeout :
  trace (afterSign g assetID d' timeout)
  = (trace g ++ [CalledGetItem (stateQuery (tableName g) assetID);
                 CalledGetObjectRequest
                   (s3.GetObjectInput.mk (Some (bucketName g)) (Some assetID));
                 CalledPresign timeout])%list.
Proof.
  unfold afterSign, afterRead. cbn. repeat rewrite <- app_assoc. reflexivity.
Qed.

Lemma classify_NotFound (item : dynamodb.Attributes) :
  classify item = NotFound <-> item !! "id" = None.
Proof.
  unfold classify. destruct (item !! "id").
  - destruct (hasUploadedMarker item); split; discriminate.
  - split; reflexivity.
Qed.

Lemma download_store_failure w r assetID g err d' :
  dynamodb.GetItem (stateQuery (tableName g) assetID) (dbSvc g) = (inr err, d') ->
  handleAssetURLRequest w r assetID g
  = Done (http_Error w "Unexpected internal error." http.StatusInternalServerError)
         (emit (Logged (Error err)) (afterRead g assetID d')).
Proof.
  intros Hget. unfold handleAssetURLRequest, bind, gets, dbSvc_GetItem.
  fold (stateQuery (tableName g) assetID). rewrite Hget.
  unfold logError, log_Println, modify, ret. destruct (asAwsErr err); reflexivity.
Qed.

Lemma download_not_found w r assetID g result d' :
  dynamodb.GetItem (stateQuery (tableName g) assetID) (dbSvc g) = (inl result, d') ->
  classify (dynamodb.GetItemOutput.Item result) = NotFound ->
  handleAssetURLRequest w r assetID g
  = Done (http_Error w ("Asset id '" ++ assetID ++ "' not found.") http.StatusNotFound)
         (afterRead g assetID d').
Proof.
  intros Hget Hcl. apply classify_NotFound in Hcl.
  unfold handleAssetURLRequest, bind, gets, dbSvc_GetItem.
  fold (stateQuery (tableName g) assetID). rewrite Hget, Hcl. reflexivity.
Qed.

Lemma download_not_ready w r assetID g result d' :
  dynamodb.GetItem (stateQuery (tableName g) assetID) (dbSvc g) = (inl result, d') ->
  classify (dynamodb.GetItemOutput.Item result) = Reserved ->
  statusIsString (dynamodb.GetItemOutput.Item result) ->
  handleAssetURLRequest w r assetID g
  = Done (http_Error w ("Asset id '" ++ assetID ++ "' found but upload is not complete.")
            http.StatusAccepted)
         (afterRead g assetID d').
Proof.
  intros Hget Hcl Hstr.
  unfold handleAssetURLRequest, bind, gets, dbSvc_GetItem.
  fold (stateQuery (tableName g) assetID). rewrite Hget.
  unfold classify, hasUploadedMarker in Hcl. unfold statusIsString in Hstr.
  destruct (dynamodb.GetItemOutput.Item result !! "id"); [|discriminate Hcl].
  destruct (dynamodb.GetItemOutput.Item result !! "status") as [status|] eqn:Hst.
  - destruct (Hstr status eq_refl) as [s Hs]. rewrite Hs in Hcl |- *.
    destruct (String.eqb s assetStatusUploaded); [discriminate Hcl|reflexivity].
  - reflexivity.
Qed.

Lemma download_uploaded w r assetID g result d' :
  dynamodb.GetItem (stateQuery (tableName g) assetID) (dbSvc g) = (inl result, d') ->
  classify (dynamodb.GetItemOutput.Item result) = Uploaded ->
  handleAssetURLRequest w r assetID g
  = match downloadTimeout (url.Get (url.Query (http.URL r)) "timeout") with
    | inr msg => Done (http_Error w msg http.StatusBadRequest) (afterRead g assetID d')
    | inl timeout =>
        match request.Presign
                (s3.GetObjectRequest
                   (s3.GetObjectInput.mk (Some (bucketName g)) (Some assetID)) (s3Svc g))
                timeout with
        | inl url =>
            Done (httptest.Write w (encode_assetURLResponse {| DownloadURL := url |}))
                 (afterSign g assetID d' timeout)
        | inr err =>
            Done (httptest.WriteHeader w http.StatusInternalServerError)
                 (emit (Logged (Error err)) (afterSign g assetID d' timeout))
        end
    end.
Proof.
  intros Hget Hcl.
  unfold handleAssetURLRequest, bind, gets, dbSvc_GetItem.
  fold (stateQuery (tableName g) assetID). rewrite Hget.
  unfold classify, hasUploadedMarker in Hcl.
  destruct (dynamodb.GetItemOutput.Item result !! "id"); [|discriminate Hcl].
  destruct (dynamodb.GetItemOutput.Item result !! "status") as [status|]; [|discriminate Hcl].
  destruct (dynamodb.S status) as [s|]; [|discriminate Hcl].
  destruct (String.eqb s assetStatusUploaded); [|discriminate Hcl].
  unfold panic, ret. cbn [negb].
  destruct (downloadTimeout _) as [timeout|msg]; [|reflexivity].
  unfold s3Svc_GetObjectRequest, req_Presign, log_Println, modify. cbn -[emit].
  destruct (request.Presign _ timeout); reflexivity.
Qed.


(** C4.  The download handler reads the record with a strongly consistent
    [GetItem] and answers by the state it finds: no record, 404; a record
    without the uploaded marker, 202; a record with the marker, never 404 or
    202, and 200 with the signed URL in the body once the timeout is accepted
    and the signer has produced the URL. *)
Theorem download_maps_state_to_outcome w r assetID g result d' :
  httptest.wroteHeader w = false ->
  dynamodb.GetItem (stateQuery (tableName g) assetID) (dbSvc g) = (inl result, d') ->
  statusIsString (dynamodb.GetItemOutput.Item result) ->
  dynamodb.GetItemInput.ConsistentRead (stateQuery (tableName g) assetID) = Some true
  /\ (exists rest,
        trace (finalState (handleAssetURLRequest w r assetID g))
        = (trace g ++ CalledGetItem (stateQuery (tableName g) assetID) :: rest)%list)
  /\ match classify (dynamodb.GetItemOutput.Item result) with
     | NotFound => statusOf (handleAssetURLRequest w r assetID g) = Some 404%Z
     | Reserved => statusOf (handleAssetURLRequest w r assetID g) = Some 202%Z
     | Uploaded =>
         statusOf (handleAssetURLRequest w r assetID g) <> Some 404%Z
         /\ statusOf (handleAssetURLRequest w r assetID g) <> Some 202%Z
         /\ forall timeout url,
              downloadTimeout (url.Get (url.Query (http.URL r)) "timeout") = inl timeout ->
              request.Presign
                (s3.GetObjectRequest
                   (s3.GetObjectInput.mk (Some (bucketName g)) (Some assetID)) (s3Svc g))
                timeout = inl url ->
              statusOf (handleAssetURLRequest w r assetID g) = Some 200%Z
              /\ bodyOf (handleAssetURLRequest w r assetID g)
                 = Some (httptest.Body w ++ encode_assetURLResponse {| DownloadURL := url |})
     end.
Proof.
  intros Hw Hget Hstr. split; [reflexivity|].
  destruct (classify (dynamodb.GetItemOutput.Item result)) eqn:Hcl.
  - rewrite (download_not_found w r assetID g result d' Hget Hcl).
    split; [eexists; cbn [finalState]; rewrite trace_afterRead; reflexivity|].
    unfold statusOf, response. cbn [fmap option_fmap option_map].
    rewrite (proj1 (Result_http_Error w _ _ Hw)). reflexivity.
  - rewrite (download_not_ready w r assetID g result d' Hget Hcl Hstr).
    split; [eexists; cbn [finalState]; rewrite trace_afterRead; reflexivity|].
    unfold statusOf, response. cbn [fmap option_fmap option_map].
    rewrite (proj1 (Result_http_Error w _ _ Hw)). reflexivity.
  - rewrite (download_uploaded w r assetID g result d' Hget Hcl).
    destruct (downloadTimeout _) as [timeout|msg].
    + destruct (request.Presign _ timeout) as [url|err] eqn:Hp.
      * split; [eexists; cbn [finalState]; rewrite trace_afterSign; reflexivity|].
        unfold statusOf, bodyOf, response. cbn [fmap option_fmap option_map].
        rewrite (Result_Write w _ Hw). cbn.
        split; [discriminate|]. split; [discriminate|].
        intros timeout' url' Ht Hu. injection Ht as <-.
        rewrite Hp in Hu. injection Hu as <-.
        split; reflexivity.
      * split; [eexists; cbn [finalState emit trace]; rewrite trace_afterSign, <- app_assoc; reflexivity|].
        unfold statusOf, bodyOf, response. cbn [fmap option_fmap option_map].
        rewrite (Result_WriteHeader w _ Hw). cbn.
        split; [discriminate|]. split; [discriminate|].
        intros timeout' url' Ht Hu. injection Ht as <-.
        rewrite Hp in Hu. discriminate Hu.
    + split; [eexists; cbn [finalState]; rewrite trace_afterRead; reflexivity|].
      unfold statusOf, bodyOf, response. cbn [fmap option_fmap option_map].
      rewrite (proj1 (Result_http_Error w _ _ Hw)).
      split; [discriminate|]. split; [discriminate|].
      intros timeout' url' Ht. discriminate Ht.
Qed.


Lemma Get_absent (v : url.Values) (key : string) :
  url.Has v key = false -> url.Get v key = "".
Proof.
  unfold url.Has, url.Get. intros Hhas.
  apply bool_decide_eq_false in Hhas.
  destruct (v !! key) as [vs|]; [|reflexivity].
  exfalso. apply Hhas. eexists. reflexivity.
Qed.

(** C8.  For an uploaded asset and a request without a [timeout] query
    parameter, the URL is signed with the default validity of 60 seconds:
    the signer is called once, with that validity, and the response carries
    the URL it returns. *)
Theorem download_default_validity w r assetID g result d' :
  httptest.wroteHeader w = false ->
  dynamodb.GetItem (stateQuery (tableName g) assetID) (dbSvc g) = (inl result, d') ->
  classify (dynamodb.GetItemOutput.Item result) = Uploaded ->
  url.Has (url.Query (http.URL r)) "timeout" = false ->
  defaultDownloadTimeout = (60 * time.Second)%Z
  /\ (exists rest,
        trace (finalState (handleAssetURLRequest w r assetID g))
        = (trace g ++ [CalledGetItem (stateQuery (tableName g) assetID);
                       CalledGetObjectRequest
                         (s3.GetObjectInput.mk (Some (bucketName g)) (Some assetID));
                       CalledPresign (60 * time.Second)%Z] ++ rest)%list
        /\ forall e, In e rest -> exists line, e = Logged line)
  /\ forall url,
       request.Presign
         (s3.GetObjectRequest
            (s3.GetObjectInput.mk (Some (bucketName g)) (Some assetID)) (s3Svc g))
         (60 * time.Second)%Z = inl url ->
       statusOf (handleAssetURLRequest w r assetID g) = Some 200%Z
       /\ bodyOf (handleAssetURLRequest w r assetID g)
          = Some (httptest.Body w ++ encode_assetURLResponse {| DownloadURL := url |}).
Proof.
  intros Hw Hget Hcl Hhas. split; [reflexivity|].
  rewrite (download_uploaded w r assetID g result d' Hget Hcl).
  rewrite (Get_absent _ _ Hhas).
  change (downloadTimeout "") with (@inl time.Duration string (60 * time.Second)%Z).
  destruct (request.Presign _ _) as [url|err] eqn:Hp; try rewrite Hp.
  - split.
    + exists []. cbn [finalState]. rewrite trace_afterSign, app_nil_r.
      split; [reflexivity|]. intros e [].
    + intros url' Hu. injection Hu as <-.
      unfold statusOf, bodyOf, response. cbn [fmap option_fmap option_map].
      rewrite (Result_Write w _ Hw). split; reflexivity.
  - split.
    + exists [Logged (Error err)]. cbn [finalState].
      rewrite trace_emit, trace_afterSign, <- app_assoc. split; [reflexivity|].
      intros e [<-|[]]. eexists. reflexivity.
    + intros url' Hu. discriminate Hu.
Qed.

(** C10.  The timeout is looked at only after the state check has passed:
    for an id without a record, or with a record that is not yet uploaded,
    a request whose timeout value is invalid is answered 404, respectively
    202, and not 400; the signer is not called, and the answer is the one
    any other query string would have got. *)
Theorem state_check_precedes_timeout w r assetID g result d' msg :
  httptest.wroteHeader w = false ->
  dynamodb.GetItem (stateQuery (tableName g) assetID) (dbSvc g) = (inl result, d') ->
  statusIsString (dynamodb.GetItemOutput.Item result) ->
  downloadTimeout (url.Get (url.Query (http.URL r)) "timeout") = inr msg ->
  classify (dynamodb.GetItemOutput.Item result) <> Uploaded ->
  statusOf (handleAssetURLRequest w r assetID g)
  = Some (match classify (dynamodb.GetItemOutput.Item result) with
          | NotFound => 404%Z
          | _ => 202%Z
          end)
  /\ statusOf (handleAssetURLRequest w r assetID g) <> Some 400%Z
  /\ trace (finalState (handleAssetURLRequest w r assetID g))
     = (trace g ++ [CalledGetItem (stateQuery (tableName g) assetID)])%list
  /\ forall r', handleAssetURLRequest w r' assetID g = handleAssetURLRequest w r assetID g.
Proof.
  intros Hw Hget Hstr _ Hcl.
  destruct (classify (dynamodb.GetItemOutput.Item result)) eqn:Hst.
  - rewrite (download_not_found w r assetID g result d' Hget Hst).
    unfold statusOf, response. cbn [fmap option_fmap option_map finalState].
    rewrite (proj1 (Result_http_Error w _ _ Hw)), trace_afterRead.
    split; [reflexivity|]. split; [discriminate|]. split; [reflexivity|].
    intros r'. apply (download_not_found w r' assetID g result d' Hget Hst).
  - rewrite (download_not_ready w r assetID g result d' Hget Hst Hstr).
    unfold statusOf, response. cbn [fmap option_fmap option_map finalState].
    rewrite (proj1 (Result_http_Error w _ _ Hw)), trace_afterRead.
    split; [reflexivity|]. split; [discriminate|]. split; [reflexivity|].
    intros r'. apply (download_not_ready w r' assetID g result d' Hget Hst Hstr).
  - contradiction.
Qed.

End Download.

(** ** The timeout parameter *)

Lemma wrap64_small (z : Z) :
  (minInt64 <= z <= maxInt64)%Z -> wrap64 z = z.
Proof.
  unfold wrap64, minInt64, maxInt64. intros Hz.
  rewrite Z.mod_small by lia. lia.
Qed.

(** A value that is no integer is refused. *)
Lemma downloadTimeout_not_integer (s : string) (e : strconv.NumError) :
  s <> "" -> strconv.Atoi s = inr e ->
  downloadTimeout s = inr "Invalid argument for timeout, must be integer.".
Proof.
  intros Hs He. unfold downloadTimeout.
  destruct (String.eqb_spec s ""); [contradiction|]. rewrite He. reflexivity.
Qed.

(** As long as the product with [time.Second] does not overflow, the check
    is exact: from one second to 24 hours the value is accepted and signed
    for as it is, and any other value is refused. *)
Lemma downloadTimeout_exact (s : string) (sec : Z) :
  s <> "" -> strconv.Atoi s = inl sec ->
  (-9223372036 <= sec <= 9223372036)%Z ->
  downloadTimeout s
  = if (1 <=? sec)%Z && (sec <=? 86400)%Z
    then inl (sec * time.Second)%Z
    else inr "Please use a more reasonable timeout.".
Proof.
  intros Hs He Hsec. unfold downloadTimeout.
  destruct (String.eqb_spec s ""); [contradiction|]. rewrite He.
  unfold time.mul. rewrite wrap64_small
    by (unfold minInt64, maxInt64, time.Second, time.Nanosecond; lia).
  unfold maxDownloadTimeout, time.Hour, time.Minute, time.Second, time.Nanosecond.
  destruct (1 <=? sec)%Z eqn:H1; destruct (sec <=? 86400)%Z eqn:H2; cbn [andb];
    destruct (sec * (1000000000 * 1) <? 1000000000 * 1)%Z eqn:H3;
    destruct (sec * (1000000000 * 1) >? 60 * (60 * (1000000000 * 1)) * 24)%Z eqn:H4;
    cbn [orb]; try reflexivity; exfalso; lia.
Qed.

(** The values section 8 of the specification lists. *)
Lemma downloadTimeout_listed_values :
  (exists msg, downloadTimeout "0" = inr msg)
  /\ (exists msg, downloadTimeout "-5" = inr msg)
  /\ (exists msg, downloadTimeout "86401" = inr msg)
  /\ (exists msg, downloadTimeout "abc" = inr msg)
  /\ downloadTimeout "1" = inl time.Second
  /\ downloadTimeout "86400" = inl (24 * time.Hour)%Z.
Proof.
  repeat split; try (eexists; vm_compute; reflexivity); vm_compute; reflexivity.
Qed.

(** ** The transition to uploaded *)

Section MarkUploaded.

Context {D C R : Type}.
Context `{dynamodb.DynamoDBAPI D} `{s3.S3API C} `{rand.Source R}.

Implicit Types g : Globals D C R.

Lemma trace_afterPut g assetID d' :
  trace (afterPut g assetID d')
  = (trace g ++ [CalledPutItem (markQuery (tableName g) assetID)])%list.
Proof. reflexivity. Qed.

(** A body that does not decode, or decodes to another status, is answered
    400 and nothing else is done. *)
Lemma mark_rejected w r assetID g :
  snd (decode_markUploadedRequest (http.Body r)) <> None
  \/ Status (fst (decode_markUploadedRequest (http.Body r))) <> assetStatusUploaded ->
  exists msg,
    handleMarkUploadedRequest w r assetID g
    = Done (http_Error w msg http.StatusBadRequest) g.
Proof.
  intros Hbad. unfold handleMarkUploadedRequest.
  destruct (decode_markUploadedRequest (http.Body r)) as [reqBody [e|]];
    cbn [fst snd] in Hbad.
  - eexists. reflexivity.
  - destruct (String.eqb_spec (Status reqBody) assetStatusUploaded) as [Heq|Hne].
    + destruct Hbad as [Hbad|Hbad]; [exfalso; apply Hbad; reflexivity|contradiction].
    + cbn [negb]. eexists. reflexivity.
Qed.

(** A body that decodes to the status [uploaded] leads to exactly one
    [PutItem], whose result decides the answer. *)
Lemma mark_proceeds w r assetID g err d' :
  snd (decode_markUploadedRequest (http.Body r)) = None ->
  Status (fst (decode_markUploadedRequest (http.Body r))) = assetStatusUploaded ->
  dynamodb.PutItem (markQuery (tableName g) assetID) (dbSvc g) = (err, d') ->
  handleMarkUploadedRequest w r assetID g
  = match err with
    | None => Done w (afterPut g assetID d')
    | Some e =>
        if isConditionFailure e
        then Done (http_Error w ("Asset id '" ++ assetID ++ "' not found.")
                     http.StatusNotFound)
                  (afterPut g assetID d')
        else Done (http_Error w "Unexpected internal error."
                     http.StatusInternalServerError)
                  (emit (Logged (Error e)) (afterPut g assetID d'))
    end.
Proof.
  intros Herr Hst Hput. unfold handleMarkUploadedRequest.
  destruct (decode_markUploadedRequest (http.Body r)) as [reqBody e].
  cbn [fst snd] in Herr, Hst. subst e. rewrite Hst.
  change (negb (String.eqb assetStatusUploaded assetStatusUploaded)) with false.
  cbv iota. unfold bind, gets, dbSvc_PutItem.
  fold (markQuery (tableName g) assetID). rewrite Hput.
  destruct err as [e|]; [|reflexivity].
  unfold isConditionFailure. destruct (asAwsErr e) as [code|]; [|reflexivity].
  destruct (String.eqb code dynamodb.ErrCodeConditionalCheckFailedException); reflexivity.
Qed.

(** C5.  [handleMarkUploadedRequest] writes the status [uploaded] under the
    condition that a record with the key exists; the answer is 404 exactly
    when the store reports that this condition failed, 500 exactly when the
    store reports any other failure, and 200 exactly when the write was
    done. *)
Theorem markUploaded_failure_mapping w r assetID g err d' :
  httptest.wroteHeader w = false ->
  decode_markUploadedRequest (http.Body r) = ({| Status := assetStatusUploaded |}, None) ->
  dynamodb.PutItem (markQuery (tableName g) assetID) (dbSvc g) = (err, d') ->
  dynamodb.PutItemInput.ConditionExpression (markQuery (tableName g) assetID)
  = Some "attribute_exists(id)"
  /\ dynamodb.PutItemInput.Item (markQuery (tableName g) assetID) !! "id"
     = Some (attrS assetID)
  /\ dynamodb.PutItemInput.Item (markQuery (tableName g) assetID) !! "status"
     = Some (attrS "uploaded")
  /\ (exists rest,
        trace (finalState (handleMarkUploadedRequest w r assetID g))
        = (trace g ++ CalledPutItem (markQuery (tableName g) assetID) :: rest)%list
        /\ countPuts rest = 0)
  /\ (statusOf (handleMarkUploadedRequest w r assetID g) = Some 404%Z
      <-> exists e, err = Some e /\ isConditionFailure e = true)
  /\ (statusOf (handleMarkUploadedRequest w r assetID g) = Some 500%Z
      <-> exists e, err = Some e /\ isConditionFailure e = false)
  /\ (statusOf (handleMarkUploadedRequest w r assetID g) = Some 200%Z
      <-> err = None).
Proof.
  intros Hw Hdec Hput.
  split; [reflexivity|]. split; [reflexivity|]. split; [reflexivity|].
  rewrite (mark_proceeds w r assetID g err d'); [|rewrite Hdec; reflexivity..|exact Hput].
  destruct err as [e|].
  - destruct (isConditionFailure e) eqn:Hc.
    + unfold statusOf, response. cbn [fmap option_fmap option_map finalState].
      rewrite (proj1 (Result_http_Error w _ _ Hw)), trace_afterPut.
      split; [exists []; split; reflexivity|].
      split; [split; [intros _; exists e; split; [reflexivity|exact Hc]|reflexivity]|].
      split; split; try discriminate.
      intros (e' & He' & Hc'). injection He' as <-. congruence.
    + unfold statusOf, response. cbn [fmap option_fmap option_map finalState].
      rewrite (proj1 (Result_http_Error w _ _ Hw)), trace_emit, trace_afterPut, <- app_assoc.
      split; [eexists; split; reflexivity|].
      split; [split; [discriminate|]|].
      { intros (e' & He' & Hc'). injection He' as <-. congruence. }
      split; split; try discriminate; try reflexivity.
      intros _. exists e. split; [reflexivity|exact Hc].
  - unfold statusOf, response, httptest.Result.
    cbn [fmap option_fmap option_map finalState]. rewrite Hw, trace_afterPut.
    cbn [httptest.StatusCode].
    split; [exists []; split; reflexivity|].
    split; [split; [discriminate|intros (e' & He' & _); discriminate He']|].
    split; [split; [discriminate|intros (e' & He' & _); discriminate He']|].
    split; reflexivity.
Qed.

(** C7 (as amended).  A body with no complete JSON value at its head, or
    whose first value does not decode into the request, or whose decoded
    [Status] is not [uploaded], is answered 400 before any store write and
    nothing else is done; a store write is made only for a body whose
    decoded [Status] is exactly [uploaded]; what follows the first JSON value
    in the body is not looked at. *)
Theorem markUploaded_rejects_bad_body w r assetID g :
  httptest.wroteHeader w = false ->
  (snd (decode_markUploadedRequest (http.Body r)) <> None
   \/ Status (fst (decode_markUploadedRequest (http.Body r))) <> "uploaded" ->
   statusOf (handleMarkUploadedRequest w r assetID g) = Some 400%Z
   /\ finalState (handleMarkUploadedRequest w r assetID g) = g)
  /\ (json.scanValue (S (String.length (http.Body r))) (http.Body r) = None ->
      snd (decode_markUploadedRequest (http.Body r)) <> None)
  /\ (countPuts (trace (finalState (handleMarkUploadedRequest w r assetID g)))
      <> countPuts (trace g) ->
      snd (decode_markUploadedRequest (http.Body r)) = None
      /\ Status (fst (decode_markUploadedRequest (http.Body r))) = "uploaded")
  /\ (snd (decode_markUploadedRequest (http.Body r)) = None ->
      Status (fst (decode_markUploadedRequest (http.Body r))) = "uploaded" ->
      countPuts (trace (finalState (handleMarkUploadedRequest w r assetID g)))
      = S (countPuts (trace g)))
  /\ (forall v rest,
        json.scanValue (S (String.length (http.Body r))) (http.Body r) = Some (v, rest) ->
        decode_markUploadedRequest (http.Body r)
        = ({| Status := fst (json.unmarshal "Status" v "") |},
           snd (json.unmarshal "Status" v ""))).
Proof.
  intros Hw.
  assert (Hrej : snd (decode_markUploadedRequest (http.Body r)) <> None
            \/ Status (fst (decode_markUploadedRequest (http.Body r))) <> "uploaded" ->
            statusOf (handleMarkUploadedRequest w r assetID g) = Some 400%Z
            /\ finalState (handleMarkUploadedRequest w r assetID g) = g).
  { intros Hbad. destruct (mark_rejected w r assetID g Hbad) as [msg Hrun].
    rewrite Hrun. unfold statusOf, response. cbn [fmap option_fmap option_map finalState].
    rewrite (proj1 (Result_http_Error w _ _ Hw)). split; reflexivity. }
  split; [exact Hrej|]. split; [|split; [|split]].
  - intros Hscan. unfold decode_markUploadedRequest, json.Decode. rewrite Hscan.
    destruct (json.skipSpace (http.Body r)); cbn; discriminate.
  - intros Hputs.
    destruct (snd (decode_markUploadedRequest (http.Body r))) as [e|] eqn:Herr.
    + exfalso. apply Hputs.
      assert (Hbad : Some e <> @None error) by (intros Hc; inversion Hc).
      rewrite (proj2 (Hrej (or_introl Hbad))). reflexivity.
    + split; [reflexivity|].
      destruct (String.eqb_spec (Status (fst (decode_markUploadedRequest (http.Body r))))
                  "uploaded") as [Heq|Hne]; [exact Heq|].
      exfalso. apply Hputs. rewrite (proj2 (Hrej (or_intror Hne))). reflexivity.
  - intros Herr Hst.
    destruct (dynamodb.PutItem (markQuery (tableName g) assetID) (dbSvc g))
      as [err d'] eqn:Hput.
    rewrite (mark_proceeds w r assetID g err d' Herr Hst Hput).
    destruct err as [e|]; [destruct (isConditionFailure e)|];
      cbn [finalState]; rewrite ?trace_emit, trace_afterPut, ?countPuts_app;
      cbn [countPuts]; lia.
  - intros v rest Hscan. unfold decode_markUploadedRequest, json.Decode. rewrite Hscan.
    destruct (json.skipSpace (http.Body r)) eqn:Hsp.
    + exfalso. revert Hscan. unfold json.scanValue. cbn [json.scanValueAt].
      rewrite Hsp. discriminate.
    + destruct (json.unmarshal "Status" v ""). reflexivity.
Qed.

End MarkUploaded.

(** ** The transition on the in-memory store *)

Section Idempotence.

Context {C R : Type}.
Context `{s3.S3API C} `{rand.Source R}.

Implicit Types g : Globals fake.MemDB C R.

Lemma markQuery_key (table id : string) :
  fake.keyOf (dynamodb.PutItemInput.Item (markQuery table id)) = Some id.
Proof.
  unfold fake.keyOf, markQuery. cbn [dynamodb.PutItemInput.Item].
  rewrite lookup_insert_ne by discriminate. rewrite lookup_singleton_eq. reflexivity.
Qed.

(** The transition on a store without scheduled faults: the condition holds
    exactly when there is a record under the key, and the record is then
    replaced by the uploaded one. *)
Lemma memdb_mark_put (d : fake.MemDB) (table id : string) :
  fake.faults d = [] ->
  dynamodb.PutItem (markQuery table id) d
  = if bool_decide (is_Some (fake.table d !! id))
    then (None, fake.mkMemDB (<[id := fake.uploaded id]> (fake.table d)) [])
    else (Some fake.conditionalCheckFailed, fake.mkMemDB (fake.table d) []).
Proof.
  intros Hf. cbn [dynamodb.PutItem fake.MemDB_API]. rewrite Hf.
  unfold fake.putTable. rewrite markQuery_key.
  change (dynamodb.PutItemInput.ConditionExpression (markQuery table id))
    with (Some "attribute_exists(id)").
  change (fake.conditionHolds (Some "attribute_exists(id)")
            (bool_decide (is_Some (fake.table d !! id))))
    with (Some (bool_decide (is_Some (fake.table d !! id)))).
  destruct (bool_decide (is_Some (fake.table d !! id))); reflexivity.
Qed.

Lemma uploaded_has_marker (id : string) : hasUploadedMarker (fake.uploaded id) = true.
Proof.
  unfold hasUploadedMarker, fake.uploaded. rewrite lookup_insert_eq. reflexivity.
Qed.

(** C6.  Marking an id whose record already carries the uploaded status
    succeeds silently: the writer is left as it was (status 200, nothing
    written), nothing is logged, and the record carries the uploaded status
    afterwards as it did before; a record that is exactly the uploaded one
    leaves the table unchanged.  The write is conditioned on the record being
    there, and on nothing else. *)
Theorem markUploaded_idempotent w r assetID g item :
  httptest.wroteHeader w = false ->
  decode_markUploadedRequest (http.Body r) = ({| Status := assetStatusUploaded |}, None) ->
  fake.faults (dbSvc g) = [] ->
  fake.table (dbSvc g) !! assetID = Some item ->
  hasUploadedMarker item = true ->
  exists g',
    handleMarkUploadedRequest w r assetID g = Done w g'
    /\ statusOf (handleMarkUploadedRequest w r assetID g) = Some 200%Z
    /\ bodyOf (handleMarkUploadedRequest w r assetID g) = Some (httptest.Body w)
    /\ trace g' = (trace g ++ [CalledPutItem (markQuery (tableName g) assetID)])%list
    /\ dynamodb.PutItemInput.ConditionExpression (markQuery (tableName g) assetID)
       = Some "attribute_exists(id)"
    /\ (exists item', fake.table (dbSvc g') !! assetID = Some item'
                      /\ hasUploadedMarker item' = true)
    /\ (forall k, k <> assetID -> fake.table (dbSvc g') !! k = fake.table (dbSvc g) !! k)
    /\ (item = fake.uploaded assetID -> fake.table (dbSvc g') = fake.table (dbSvc g)).
Proof.
  intros Hw Hdec Hf Hitem _.
  pose proof (memdb_mark_put (dbSvc g) (tableName g) assetID Hf) as Hput.
  rewrite Hitem in Hput.
  rewrite bool_decide_eq_true_2 in Hput by (eexists; reflexivity).
  rewrite (mark_proceeds w r assetID g _ _
             ltac:(rewrite Hdec; reflexivity) ltac:(rewrite Hdec; reflexivity) Hput).
  eexists. split; [reflexivity|].
  unfold statusOf, bodyOf, response, httptest.Result.
  cbn [fmap option_fmap option_map]. rewrite Hw.
  split; [reflexivity|]. split; [reflexivity|]. split; [reflexivity|].
  split; [reflexivity|].
  cbn [afterPut set_dbSvc dbSvc fake.table].
  split; [|split].
  - exists (fake.uploaded assetID). rewrite lookup_insert_eq.
    split; [reflexivity|apply uploaded_has_marker].
  - intros k Hk. rewrite lookup_insert_ne by congruence. reflexivity.
  - intros ->. apply insert_id. exact Hitem.
Qed.

End Idempotence.

(** ** Runs on the test doubles *)

(** C3 (the code departs from it).  A timeout of 18446744075 seconds parses
    as an integer and denotes far more than 24 hours, yet its product with
    [time.Second] wraps around to 1290448384 nanoseconds, which lies between
    one second and 24 hours: the request is answered 200 and the URL is
    signed for that validity.  A negative value can pass in the same way. *)
Theorem download_timeout_overflow_accepted :
  strconv.Atoi "18446744075" = inl 18446744075%Z
  /\ (86400 < 18446744075)%Z
  /\ downloadTimeout "18446744075" = inl 1290448384%Z
  /\ statusOf (manageAsset httptest.NewRecorder
                 (fake.get "/asset/abc" "timeout=18446744075")
                 (fake.world {[ "abc" := fake.uploaded "abc" ]} []))
     = Some 200%Z
  /\ last (trace (finalState (manageAsset httptest.NewRecorder
                    (fake.get "/asset/abc" "timeout=18446744075")
                    (fake.world {[ "abc" := fake.uploaded "abc" ]} []))))
     = Some (CalledPresign 1290448384%Z)
  /\ downloadTimeout "-18446744072" = inl 1709551616%Z.
Proof.
  split; [vm_compute; reflexivity|]. split; [reflexivity|].
  split; [vm_compute; reflexivity|]. split; [vm_compute; reflexivity|].
  split; vm_compute; reflexivity.
Qed.

(** A body that is no JSON text, because a brace follows its first value, is
    not answered 400: the handler goes on to the store, the record becomes
    uploaded and the answer is 200. *)
Lemma markUploaded_accepts_trailing_bytes :
  json.Valid (fake.statusBody "uploaded" ++ "}") = false
  /\ statusOf (manageAsset httptest.NewRecorder
                 (fake.put "/asset/abc" (fake.statusBody "uploaded" ++ "}"))
                 (fake.world {[ "abc" := fake.reserved "abc" ]} []))
     = Some 200%Z
  /\ countPuts (trace (finalState (manageAsset httptest.NewRecorder
                  (fake.put "/asset/abc" (fake.statusBody "uploaded" ++ "}"))
                  (fake.world {[ "abc" := fake.reserved "abc" ]} []))))
     = 1
  /\ fake.table (dbSvc (finalState (manageAsset httptest.NewRecorder
                  (fake.put "/asset/abc" (fake.statusBody "uploaded" ++ "}"))
                  (fake.world {[ "abc" := fake.reserved "abc" ]} []))))
     = {[ "abc" := fake.uploaded "abc" ]}.
Proof.
  split; [vm_compute; reflexivity|]. split; [vm_compute; reflexivity|].
  split; vm_compute; reflexivity.
Qed.

Lemma statusIsString_reserved (id : string) : statusIsString (fake.reserved id).
Proof.
  intros status Hs. unfold fake.reserved in Hs.
  rewrite lookup_singleton_ne in Hs by discriminate. discriminate Hs.
Qed.

Lemma statusIsString_uploaded (id : string) : statusIsString (fake.uploaded id).
Proof.
  intros status Hs. unfold fake.uploaded in Hs.
  rewrite lookup_insert_eq in Hs. injection Hs as <-. eexists. reflexivity.
Qed.

Lemma statusIsString_empty : statusIsString ∅.
Proof. intros status Hs. rewrite lookup_empty in Hs. discriminate Hs. Qed.

Lemma download_maps_state_to_outcome_witness :
  statusOf (handleAssetURLRequest httptest.NewRecorder (fake.get "/asset/abc" "timeout=300")
              "abc" (fake.world {[ "abc" := fake.uploaded "abc" ]} []))
  = Some 200%Z
  /\ statusOf (handleAssetURLRequest httptest.NewRecorder (fake.get "/asset/abc" "")
                 "abc" (fake.world {[ "abc" := fake.reserved "abc" ]} []))
     = Some 202%Z
  /\ statusOf (handleAssetURLRequest httptest.NewRecorder (fake.get "/asset/abc" "")
                 "abc" (fake.world ∅ []))
     = Some 404%Z.
Proof.
  split; [|split].
  - assert (Hget : dynamodb.GetItem
                     (stateQuery (tableName (fake.world {[ "abc" := fake.uploaded "abc" ]} [])) "abc")
                     (dbSvc (fake.world {[ "abc" := fake.uploaded "abc" ]} []))
                   = (inl (dynamodb.GetItemOutput.mk (fake.uploaded "abc")),
                      fake.mkMemDB {[ "abc" := fake.uploaded "abc" ]} []))
      by (vm_compute; reflexivity).
    pose proof (download_maps_state_to_outcome httptest.NewRecorder
                  (fake.get "/asset/abc" "timeout=300") "abc" _ _ _
                  eq_refl Hget (statusIsString_uploaded "abc")) as (_ & _ & Hcase).
    assert (Hcl : classify (dynamodb.GetItemOutput.Item
                              (dynamodb.GetItemOutput.mk (fake.uploaded "abc"))) = Uploaded)
      by (vm_compute; reflexivity).
    rewrite Hcl in Hcase. destruct Hcase as (_ & _ & Hok).
    apply (Hok (300 * time.Second)%Z
             "https://1brown2green.s3.amazonaws.com/abc?X-Amz-Expires=300&verb=GET");
      vm_compute; reflexivity.
  - assert (Hget : dynamodb.GetItem
                     (stateQuery (tableName (fake.world {[ "abc" := fake.reserved "abc" ]} [])) "abc")
                     (dbSvc (fake.world {[ "abc" := fake.reserved "abc" ]} []))
                   = (inl (dynamodb.GetItemOutput.mk (fake.reserved "abc")),
                      fake.mkMemDB {[ "abc" := fake.reserved "abc" ]} []))
      by (vm_compute; reflexivity).
    pose proof (download_maps_state_to_outcome httptest.NewRecorder
                  (fake.get "/asset/abc" "") "abc" _ _ _
                  eq_refl Hget (statusIsString_reserved "abc")) as (_ & _ & Hcase).
    assert (Hcl : classify (dynamodb.GetItemOutput.Item
                              (dynamodb.GetItemOutput.mk (fake.reserved "abc"))) = Reserved)
      by (vm_compute; reflexivity).
    rewrite Hcl in Hcase. exact Hcase.
  - assert (Hget : dynamodb.GetItem
                     (stateQuery (tableName (fake.world ∅ [])) "abc")
                     (dbSvc (fake.world ∅ []))
                   = (inl (dynamodb.GetItemOutput.mk ∅), fake.mkMemDB ∅ []))
      by (vm_compute; reflexivity).
    pose proof (download_maps_state_to_outcome httptest.NewRecorder
                  (fake.get "/asset/abc" "") "abc" _ _ _
                  eq_refl Hget statusIsString_empty) as (_ & _ & Hcase).
    assert (Hcl : classify (dynamodb.GetItemOutput.Item (dynamodb.GetItemOutput.mk ∅))
                  = NotFound)
      by (vm_compute; reflexivity).
    rewrite Hcl in Hcase. exact Hcase.
Defined.

Lemma download_default_validity_witness :
  statusOf (handleAssetURLRequest httptest.NewRecorder (fake.get "/asset/abc" "")
              "abc" (fake.world {[ "abc" := fake.uploaded "abc" ]} []))
  = Some 200%Z
  /\ bodyOf (handleAssetURLRequest httptest.NewRecorder (fake.get "/asset/abc" "")
               "abc" (fake.world {[ "abc" := fake.uploaded "abc" ]} []))
     = Some ("" ++ encode_assetURLResponse
               {| DownloadURL :=
                    "https://1brown2green.s3.amazonaws.com/abc?X-Amz-Expires=60&verb=GET" |}).
Proof.
  assert (Hget : dynamodb.GetItem
                   (stateQuery (tableName (fake.world {[ "abc" := fake.uploaded "abc" ]} [])) "abc")
                   (dbSvc (fake.world {[ "abc" := fake.uploaded "abc" ]} []))
                 = (inl (dynamodb.GetItemOutput.mk (fake.uploaded "abc")),
                    fake.mkMemDB {[ "abc" := fake.uploaded "abc" ]} []))
    by (vm_compute; reflexivity).
  assert (Hcl : classify (dynamodb.GetItemOutput.Item
                            (dynamodb.GetItemOutput.mk (fake.uploaded "abc"))) = Uploaded)
    by (vm_compute; reflexivity).
  assert (Hhas : url.Has (url.Query (http.URL (fake.get "/asset/abc" ""))) "timeout" = false)
    by (vm_compute; reflexivity).
  apply (proj2 (proj2 (download_default_validity httptest.NewRecorder
           (fake.get "/asset/abc" "") "abc" _ _ _ eq_refl Hget Hcl Hhas))).
  vm_compute; reflexivity.
Defined.

Lemma state_check_precedes_timeout_witness :
  statusOf (handleAssetURLRequest httptest.NewRecorder (fake.get "/asset/abc" "timeout=0")
              "abc" (fake.world {[ "abc" := fake.reserved "abc" ]} []))
  = Some 202%Z
  /\ statusOf (handleAssetURLRequest httptest.NewRecorder (fake.get "/asset/abd" "timeout=abc")
                 "abd" (fake.world {[ "abc" := fake.reserved "abc" ]} []))
     = Some 404%Z.
Proof.
  split.
  - assert (Hget : dynamodb.GetItem
                     (stateQuery (tableName (fake.world {[ "abc" := fake.reserved "abc" ]} [])) "abc")
                     (dbSvc (fake.world {[ "abc" := fake.reserved "abc" ]} []))
                   = (inl (dynamodb.GetItemOutput.mk (fake.reserved "abc")),
                      fake.mkMemDB {[ "abc" := fake.reserved "abc" ]} []))
      by (vm_compute; reflexivity).
    assert (Hbad : downloadTimeout
                     (url.Get (url.Query (http.URL (fake.get "/asset/abc" "timeout=0"))) "timeout")
                   = inr "Please use a more reasonable timeout.")
      by (vm_compute; reflexivity).
    assert (Hcl : classify (dynamodb.GetItemOutput.Item
                              (dynamodb.GetItemOutput.mk (fake.reserved "abc"))) = Reserved)
      by (vm_compute; reflexivity).
    pose proof (state_check_precedes_timeout httptest.NewRecorder
                  (fake.get "/asset/abc" "timeout=0") "abc" _ _ _ _
                  eq_refl Hget (statusIsString_reserved "abc") Hbad
                  ltac:(rewrite Hcl; discriminate)) as (Hst & _).
    rewrite Hcl in Hst. exact Hst.
  - assert (Hget : dynamodb.GetItem
                     (stateQuery (tableName (fake.world {[ "abc" := fake.reserved "abc" ]} [])) "abd")
                     (dbSvc (fake.world {[ "abc" := fake.reserved "abc" ]} []))
                   = (inl (dynamodb.GetItemOutput.mk ∅),
                      fake.mkMemDB {[ "abc" := fake.reserved "abc" ]} []))
      by (vm_compute; reflexivity).
    assert (Hbad : downloadTimeout
                     (url.Get (url.Query (http.URL (fake.get "/asset/abd" "timeout=abc"))) "timeout")
                   = inr "Invalid argument for timeout, must be integer.")
      by (vm_compute; reflexivity).
    assert (Hcl : classify (dynamodb.GetItemOutput.Item (dynamodb.GetItemOutput.mk ∅))
                  = NotFound)
      by (vm_compute; reflexivity).
    pose proof (state_check_precedes_timeout httptest.NewRecorder
                  (fake.get "/asset/abd" "timeout=abc") "abd" _ _ _ _
                  eq_refl Hget statusIsString_empty Hbad
                  ltac:(rewrite Hcl; discriminate)) as (Hst & _).
    rewrite Hcl in Hst. exact Hst.
Defined.

Lemma markUploaded_failure_mapping_witness :
  statusOf (handleMarkUploadedRequest httptest.NewRecorder
              (fake.put "/asset/abd" (fake.statusBody "uploaded")) "abd"
              (fake.world {[ "abc" := fake.reserved "abc" ]} []))
  = Some 404%Z
  /\ statusOf (handleMarkUploadedRequest httptest.NewRecorder
                 (fake.put "/asset/abc" (fake.statusBody "uploaded")) "abc"
                 (fake.world {[ "abc" := fake.reserved "abc" ]} [Some fake.throttled]))
     = Some 500%Z
  /\ statusOf (handleMarkUploadedRequest httptest.NewRecorder
                 (fake.put "/asset/abc" (fake.statusBody "uploaded")) "abc"
                 (fake.world {[ "abc" := fake.reserved "abc" ]} []))
     = Some 200%Z.
Proof.
  assert (Hdec : forall path,
             decode_markUploadedRequest
               (http.Body (fake.put path (fake.statusBody "uploaded")))
             = ({| Status := assetStatusUploaded |}, None))
    by (intros path; vm_compute; reflexivity).
  split; [|split].
  - assert (Hput : dynamodb.PutItem
                     (markQuery (tableName (fake.world {[ "abc" := fake.reserved "abc" ]} [])) "abd")
                     (dbSvc (fake.world {[ "abc" := fake.reserved "abc" ]} []))
                   = (Some fake.conditionalCheckFailed,
                      fake.mkMemDB {[ "abc" := fake.reserved "abc" ]} []))
      by (vm_compute; reflexivity).
    apply (proj1 (proj2 (proj2 (proj2 (proj2
             (markUploaded_failure_mapping httptest.NewRecorder _ "abd" _ _ _
                eq_refl (Hdec "/asset/abd") Hput)))))).
    eexists. split; reflexivity.
  - assert (Hput : dynamodb.PutItem
                     (markQuery (tableName (fake.world {[ "abc" := fake.reserved "abc" ]}
                                              [Some fake.throttled])) "abc")
                     (dbSvc (fake.world {[ "abc" := fake.reserved "abc" ]} [Some fake.throttled]))
                   = (Some fake.throttled,
                      fake.mkMemDB {[ "abc" := fake.reserved "abc" ]} []))
      by (vm_compute; reflexivity).
    apply (proj1 (proj2 (proj2 (proj2 (proj2 (proj2
             (markUploaded_failure_mapping httptest.NewRecorder _ "abc" _ _ _
                eq_refl (Hdec "/asset/abc") Hput))))))).
    eexists. split; reflexivity.
  - assert (Hput : dynamodb.PutItem
                     (markQuery (tableName (fake.world {[ "abc" := fake.reserved "abc" ]} [])) "abc")
                     (dbSvc (fake.world {[ "abc" := fake.reserved "abc" ]} []))
                   = (None, fake.mkMemDB {[ "abc" := fake.uploaded "abc" ]} []))
      by (vm_compute; reflexivity).
    apply (proj2 (proj2 (proj2 (proj2 (proj2 (proj2
             (markUploaded_failure_mapping httptest.NewRecorder _ "abc" _ _ _
                eq_refl (Hdec "/asset/abc") Hput))))))).
    reflexivity.
Defined.

Lemma markUploaded_idempotent_witness :
  exists g',
    handleMarkUploadedRequest httptest.NewRecorder
      (fake.put "/asset/abc" (fake.statusBody "uploaded")) "abc"
      (fake.world {[ "abc" := fake.uploaded "abc" ]} [])
    = Done httptest.NewRecorder g'
    /\ fake.table (dbSvc g') = {[ "abc" := fake.uploaded "abc" ]}.
Proof.
  assert (Hdec : decode_markUploadedRequest
                   (http.Body (fake.put "/asset/abc" (fake.statusBody "uploaded")))
                 = ({| Status := assetStatusUploaded |}, None))
    by (vm_compute; reflexivity).
  assert (Hitem : fake.table (dbSvc (fake.world {[ "abc" := fake.uploaded "abc" ]} []))
                    !! "abc" = Some (fake.uploaded "abc"))
    by apply lookup_singleton_eq.
  destruct (markUploaded_idempotent httptest.NewRecorder _ "abc"
              (fake.world {[ "abc" := fake.uploaded "abc" ]} []) _
              eq_refl Hdec eq_refl Hitem (uploaded_has_marker "abc"))
    as (g' & Hrun & _ & _ & _ & _ & _ & _ & Hsame).
  exists g'. split; [exact Hrun|]. apply Hsame. reflexivity.
Defined.

Lemma markUploaded_rejects_bad_body_witness :
  statusOf (handleMarkUploadedRequest httptest.NewRecorder
              (fake.put "/asset/abc" (fake.statusBody "other")) "abc"
              (fake.world {[ "abc" := fake.reserved "abc" ]} []))
  = Some 400%Z
  /\ statusOf (handleMarkUploadedRequest httptest.NewRecorder
                 (fake.put "/asset/abc" ("invalidjson" ++ fake.statusBody "other")) "abc"
                 (fake.world {[ "abc" := fake.reserved "abc" ]} []))
     = Some 400%Z.
Proof.
  split.
  - assert (Hbad : Status (fst (decode_markUploadedRequest
                      (http.Body (fake.put "/asset/abc" (fake.statusBody "other")))))
                   <> "uploaded")
      by (vm_compute; discriminate).
    apply (proj1 (markUploaded_rejects_bad_body httptest.NewRecorder _ "abc"
                    (fake.world {[ "abc" := fake.reserved "abc" ]} []) eq_refl)).
    right. exact Hbad.
  - assert (Hbad : snd (decode_markUploadedRequest
                      (http.Body (fake.put "/asset/abc" ("invalidjson" ++ fake.statusBody "other"))))
                   <> None)
      by (vm_compute; discriminate).
    apply (proj1 (markUploaded_rejects_bad_body httptest.NewRecorder _ "abc"
                    (fake.world {[ "abc" := fake.reserved "abc" ]} []) eq_refl)).
    left. exact Hbad.
Defined.

(** ** More on the method check and the dispatch *)

Section Dispatch.

Context {D C R : Type}.
Context `{dynamodb.DynamoDBAPI D} `{s3.S3API C} `{rand.Source R}.

Implicit Types g : Globals D C R.

Lemma existsb_method (m : string) (methods : list string) :
  existsb (fun method => String.eqb method m) methods = true <-> In m methods.
Proof.
  rewrite existsb_exists. split.
  - intros (x & Hin & Heq). apply String.eqb_eq in Heq. subst x. exact Hin.
  - intros Hin. exists m. split; [exact Hin|apply String.eqb_refl].
Qed.

(** X1.  [checkMethod] lets a request through exactly when its method is,
    letter for letter, one of the allowed ones, and then leaves the writer
    untouched; otherwise the writer has had its status written. *)
Theorem checkMethod_allows_listed (w : httptest.ResponseRecorder) (r : http.Request)
    (methods : list string) :
  (snd (checkMethod w r methods) = true <-> In (http.Method r) methods)
  /\ (snd (checkMethod w r methods) = true -> fst (checkMethod w r methods) = w)
  /\ (snd (checkMethod w r methods) = false ->
      httptest.wroteHeader (fst (checkMethod w r methods)) = true).
Proof.
  unfold checkMethod.
  destruct (existsb (fun method => String.eqb method (http.Method r)) methods) eqn:Hex.
  - split; [|split].
    + split; [intros _; apply existsb_method; exact Hex|reflexivity].
    + reflexivity.
    + discriminate.
  - split; [|split].
    + split; [discriminate|].
      intros Hin. apply existsb_method in Hin. congruence.
    + discriminate.
    + intros _. cbn [fst]. unfold httptest.WriteHeader, httptest.SetHeader.
      cbn [httptest.wroteHeader].
      destruct (httptest.wroteHeader w) eqn:Hw; cbn [httptest.wroteHeader];
        first [reflexivity|exact Hw].
Qed.

Lemma cutPrefix_app (p s : string) : strings.cutPrefix (p ++ s) p = Some s.
Proof.
  induction p as [|c p IH]; simpl; [destruct s; reflexivity|].
  rewrite Ascii.eqb_refl. exact IH.
Qed.

(** X2.  [manageAsset] takes as asset id everything that follows [/asset/]
    in the path, as it stands, and hands a GET to the download handler and a
    PUT to the transition handler with that id and the untouched writer. *)
Theorem manageAsset_dispatch (w : httptest.ResponseRecorder) (r : http.Request)
    (assetID : string) g :
  url.Path (http.URL r) = "/asset/" ++ assetID ->
  (http.Method r = "GET" ->
     manageAsset w r g = handleAssetURLRequest w r assetID g)
  /\ (http.Method r = "PUT" ->
     manageAsset w r g = handleMarkUploadedRequest w r assetID g).
Proof.
  intros Hpath. unfold manageAsset, checkMethod, strings.TrimPrefix.
  rewrite Hpath, cutPrefix_app. split; intros Hm; rewrite Hm; reflexivity.
Qed.

End Dispatch.

Lemma manageAsset_dispatch_witness :
  manageAsset httptest.NewRecorder (fake.get "/asset/a/b" "") (fake.world ∅ [])
  = handleAssetURLRequest httptest.NewRecorder (fake.get "/asset/a/b" "") "a/b"
      (fake.world ∅ [])
  /\ manageAsset httptest.NewRecorder (fake.put "/asset/" "") (fake.world ∅ [])
     = handleMarkUploadedRequest httptest.NewRecorder (fake.put "/asset/" "") ""
         (fake.world ∅ []).
Proof.
  split.
  - apply (proj1 (manageAsset_dispatch httptest.NewRecorder (fake.get "/asset/a/b" "")
                    "a/b" (fake.world ∅ []) eq_refl)). reflexivity.
  - apply (proj2 (manageAsset_dispatch httptest.NewRecorder (fake.put "/asset/" "")
                    "" (fake.world ∅ []) eq_refl)). reflexivity.
Defined.

(** ** initAsset *)

Section InitAsset.

Context {D C R : Type}.
Context `{dynamodb.DynamoDBAPI D} `{s3.S3API C} `{rand.Source R}.

Implicit Types g : Globals D C R.

(** What [initAsset] does once the method check has passed and the
    reservation has come back. *)
Lemma initAsset_after_reserve w r g id err g1 :
  http.Method r = "POST" ->
  reserveUniqueID g = Done (id, err) g1 ->
  initAsset w r g
  = match err with
    | Some _ => Done (httptest.WriteHeader w http.StatusServiceUnavailable) g1
    | None =>
        match request.Presign
                (s3.PutObjectRequest
                   (s3.PutObjectInput.mk (Some (bucketName g1)) (Some id)) (s3Svc g1))
                uploadTimeout with
        | inl url =>
            Done (httptest.Write w
                    (encode_initAssetResponse {| UploadURL := url; ID := id |}))
                 (afterUploadSign g1 id)
        | inr e =>
            Done (httptest.WriteHeader w http.StatusInternalServerError)
                 (emit (Logged (Error e)) (afterUploadSign g1 id))
        end
    end.
Proof.
  intros Hm Hres. unfold initAsset, checkMethod. rewrite Hm.
  change (existsb (fun method => String.eqb method "POST") [http.MethodPost]) with true.
  cbv iota. cbn [negb]. unfold bind at 1. rewrite Hres.
  destruct err as [e|]; [reflexivity|].
  unfold bind, gets, s3Svc_PutObjectRequest, req_Presign, log_Println, modify, ret.
  cbn -[emit uploadTimeout]. unfold afterUploadSign.
  destruct (request.Presign _ uploadTimeout); reflexivity.
Qed.

(** X3.  A POST whose reservation succeeds and whose upload URL is signed is
    answered 200 with the JSON of the upload URL and the id: the URL is the
    one the signer gives for a put of the object whose key is the reserved
    id, asked with a validity of 24 hours. *)
Theorem initAsset_success w r g id g1 url :
  httptest.wroteHeader w = false ->
  http.Method r = "POST" ->
  reserveUniqueID g = Done (id, None) g1 ->
  request.Presign
    (s3.PutObjectRequest (s3.PutObjectInput.mk (Some (bucketName g1)) (Some id)) (s3Svc g1))
    (24 * time.Hour)%Z = inl url ->
  statusOf (initAsset w r g) = Some 200%Z
  /\ bodyOf (initAsset w r g)
     = Some (httptest.Body w
             ++ json.Encode [("upload_url", url); ("id", id)])
  /\ trace (finalState (initAsset w r g))
     = (trace g1 ++ [CalledPutObjectRequest
                       (s3.PutObjectInput.mk (Some (bucketName g1)) (Some id));
                     CalledPresign (24 * time.Hour)%Z])%list.
Proof.
  intros Hw Hm Hres Hsign.
  rewrite (initAsset_after_reserve w r g id None g1 Hm Hres).
  change uploadTimeout with (24 * time.Hour)%Z. rewrite Hsign.
  unfold statusOf, bodyOf, response. cbn [fmap option_fmap option_map finalState].
  rewrite (Result_Write w _ Hw). split; [reflexivity|]. split; [reflexivity|].
  unfold afterUploadSign. cbn. rewrite <- app_assoc. reflexivity.
Qed.

(** X4.  A POST whose reservation fails is answered 503 with nothing
    written to the body; no URL is asked of the signer and nothing is done
    after the reservation has returned. *)
Theorem initAsset_reservation_failed w r g id e g1 :
  httptest.wroteHeader w = false ->
  http.Method r = "POST" ->
  reserveUniqueID g = Done (id, Some e) g1 ->
  initAsset w r g = Done (httptest.WriteHeader w 503) g1
  /\ statusOf (initAsset w r g) = Some 503%Z
  /\ bodyOf (initAsset w r g) = Some (httptest.Body w).
Proof.
  intros Hw Hm Hres.
  rewrite (initAsset_after_reserve w r g id (Some e) g1 Hm Hres).
  split; [reflexivity|].
  unfold statusOf, bodyOf, response. cbn [fmap option_fmap option_map].
  rewrite (Result_WriteHeader w _ Hw). split; reflexivity.
Qed.

(** X5.  A POST whose reservation succeeds but whose URL cannot be signed is
    answered 500 with nothing written to the body and the signer's error
    logged; the store is left as the reservation left it, so the record that
    was just reserved stays. *)
Theorem initAsset_signing_failed w r g id g1 e :
  httptest.wroteHeader w = false ->
  http.Method r = "POST" ->
  reserveUniqueID g = Done (id, None) g1 ->
  request.Presign
    (s3.PutObjectRequest (s3.PutObjectInput.mk (Some (bucketName g1)) (Some id)) (s3Svc g1))
    (24 * time.Hour)%Z = inr e ->
  statusOf (initAsset w r g) = Some 500%Z
  /\ bodyOf (initAsset w r g) = Some (httptest.Body w)
  /\ last (trace (finalState (initAsset w r g))) = Some (Logged (Error e))
  /\ countPuts (trace (finalState (initAsset w r g))) = countPuts (trace g1)
  /\ dbSvc (finalState (initAsset w r g)) = dbSvc g1.
Proof.
  intros Hw Hm Hres Hsign.
  rewrite (initAsset_after_reserve w r g id None g1 Hm Hres).
  change uploadTimeout with (24 * time.Hour)%Z. rewrite Hsign.
  unfold statusOf, bodyOf, response. cbn [fmap option_fmap option_map finalState].
  rewrite (Result_WriteHeader w _ Hw). split; [reflexivity|]. split; [reflexivity|].
  split; [rewrite trace_emit; apply last_snoc|].
  split; [|reflexivity].
  unfold afterUploadSign. cbn. rewrite !countPuts_app. cbn. lia.
Qed.

End InitAsset.

Lemma initAsset_success_witness :
  statusOf (initAsset httptest.NewRecorder (fake.post "/asset") (fake.world ∅ []))
  = Some 200%Z
  /\ bodyOf (initAsset httptest.NewRecorder (fake.post "/asset") (fake.world ∅ []))
     = Some ("" ++ json.Encode
               [("upload_url",
                 "https://1brown2green.s3.amazonaws.com/sV7uh-2Kd2z1TMal?X-Amz-Expires=86400&verb=PUT");
                ("id", "sV7uh-2Kd2z1TMal")]).
Proof.
  eassert (Hres : reserveUniqueID (fake.world ∅ []) = Done ("sV7uh-2Kd2z1TMal", None) _)
    by (vm_compute; reflexivity).
  eassert (Hsign : request.Presign (s3.PutObjectRequest _ _) (24 * time.Hour)%Z = inl _);
    [|destruct (initAsset_success httptest.NewRecorder (fake.post "/asset") _ _ _ _
                  eq_refl eq_refl Hres Hsign) as (Hst & Hbody & _);
      split; [exact Hst|exact Hbody]].
  vm_compute. reflexivity.
Defined.

Lemma initAsset_reservation_failed_witness :
  statusOf (initAsset httptest.NewRecorder (fake.post "/asset")
              (fake.world ∅ (map Some fake.elevenFaults)))
  = Some 503%Z.
Proof.
  eassert (Hres : reserveUniqueID (fake.world ∅ (map Some fake.elevenFaults))
                  = Done ("", Some fake.unreachable) _)
    by (vm_compute; reflexivity).
  apply (initAsset_reservation_failed httptest.NewRecorder (fake.post "/asset") _ _ _ _
           eq_refl eq_refl Hres).
Defined.

Lemma initAsset_signing_failed_witness :
  statusOf (initAsset httptest.NewRecorder (fake.post "/asset")
              (mkGlobals "1brown2green" "assets" (fake.mkMemDB ∅ []) (fake.mkSigner true)
                 (rand.New (fake.mkLcg 42)) []))
  = Some 500%Z
  /\ fake.table (dbSvc (finalState
       (initAsset httptest.NewRecorder (fake.post "/asset")
          (mkGlobals "1brown2green" "assets" (fake.mkMemDB ∅ []) (fake.mkSigner true)
             (rand.New (fake.mkLcg 42)) []))))
     = {[ "sV7uh-2Kd2z1TMal" := fake.reserved "sV7uh-2Kd2z1TMal" ]}.
Proof.
  eassert (Hres : reserveUniqueID
                    (mkGlobals "1brown2green" "assets" (fake.mkMemDB ∅ []) (fake.mkSigner true)
                       (rand.New (fake.mkLcg 42)) [])
                  = Done ("sV7uh-2Kd2z1TMal", None) _)
    by (vm_compute; reflexivity).
  eassert (Hsign : request.Presign (s3.PutObjectRequest _ _) (24 * time.Hour)%Z
                   = inr (errors_New "signing failed"));
    [|destruct (initAsset_signing_failed httptest.NewRecorder (fake.post "/asset") _ _ _ _
                  eq_refl eq_refl Hres Hsign) as (Hst & _ & _ & _ & Hdb);
      split; [exact Hst|rewrite Hdb; vm_compute; reflexivity]].
  vm_compute. reflexivity.
Defined.

(** ** More on the download handler *)

Section DownloadEdges.

Context {D C R : Type}.
Context `{dynamodb.DynamoDBAPI D} `{s3.S3API C} `{rand.Source R}.

Implicit Types g : Globals D C R.

(** X6.  When the read of the record fails, the download handler answers
    500 with a fixed text that does not show the store's error, logs that
    error, and asks nothing of the signer. *)
Theorem download_store_failure_is_internal w r assetID g err d' :
  httptest.wroteHeader w = false ->
  dynamodb.GetItem (stateQuery (tableName g) assetID) (dbSvc g) = (inr err, d') ->
  statusOf (handleAssetURLRequest w r assetID g) = Some 500%Z
  /\ bodyOf (handleAssetURLRequest w r assetID g)
     = Some (httptest.Body w ++ "Unexpected internal error." ++ String "010" "")
  /\ trace (finalState (handleAssetURLRequest w r assetID g))
     = (trace g ++ [CalledGetItem (stateQuery (tableName g) assetID);
                    Logged (Error err)])%list.
Proof.
  intros Hw Hget. rewrite (download_store_failure w r assetID g err d' Hget).
  unfold statusOf, bodyOf, response. cbn [fmap option_fmap option_map finalState].
  destruct (Result_http_Error w "Unexpected internal error." 500%Z Hw) as [Hc Hb].
  unfold http.StatusInternalServerError. rewrite Hc, Hb.
  split; [reflexivity|]. split; [reflexivity|].
  rewrite trace_emit, trace_afterRead, <- app_assoc. reflexivity.
Qed.

(** X7.  When the asset is uploaded and the timeout is accepted but the
    signer fails, the download handler answers 500 with nothing written to
    the body, and the signer's error is the last thing logged. *)
Theorem download_signing_failed w r assetID g result d' timeout err :
  httptest.wroteHeader w = false ->
  dynamodb.GetItem (stateQuery (tableName g) assetID) (dbSvc g) = (inl result, d') ->
  classify (dynamodb.GetItemOutput.Item result) = Uploaded ->
  downloadTimeout (url.Get (url.Query (http.URL r)) "timeout") = inl timeout ->
  request.Presign
    (s3.GetObjectRequest (s3.GetObjectInput.mk (Some (bucketName g)) (Some assetID)) (s3Svc g))
    timeout = inr err ->
  statusOf (handleAssetURLRequest w r assetID g) = Some 500%Z
  /\ bodyOf (handleAssetURLRequest w r assetID g) = Some (httptest.Body w)
  /\ last (trace (finalState (handleAssetURLRequest w r assetID g)))
     = Some (Logged (Error err)).
Proof.
  intros Hw Hget Hcl Ht Hsign.
  rewrite (download_uploaded w r assetID g result d' Hget Hcl), Ht, Hsign.
  unfold statusOf, bodyOf, response. cbn [fmap option_fmap option_map finalState].
  rewrite (Result_WriteHeader w _ Hw). split; [reflexivity|]. split; [reflexivity|].
  rewrite trace_emit. apply last_snoc.
Qed.

(** X8.  A record that has a [status] attribute which is no string attribute
    (its [S] member is nil) makes the download handler panic on the
    dereference: no response is written and the signer is not called. *)
Theorem download_panics_on_non_string_status w r assetID g result d' idAttr status :
  dynamodb.GetItem (stateQuery (tableName g) assetID) (dbSvc g) = (inl result, d') ->
  dynamodb.GetItemOutput.Item result !! "id" = Some idAttr ->
  dynamodb.GetItemOutput.Item result !! "status" = Some status ->
  dynamodb.S status = None ->
  exists msg,
    handleAssetURLRequest w r assetID g = Panicked msg (afterRead g assetID d')
    /\ response (handleAssetURLRequest w r assetID g) = None.
Proof.
  intros Hget Hid Hst Hs.
  unfold handleAssetURLRequest, bind, gets, dbSvc_GetItem.
  fold (stateQuery (tableName g) assetID). rewrite Hget, Hid, Hst, Hs.
  eexists. split; reflexivity.
Qed.

(** Whatever the handler does, the validity it asks of the signer lies
    between one second and 24 hours. *)
Lemma downloadTimeout_range (s : string) (timeout : time.Duration) :
  downloadTimeout s = inl timeout ->
  (time.Second <= timeout <= 24 * time.Hour)%Z.
Proof.
  unfold downloadTimeout. destruct (String.eqb s "").
  - intros Heq. injection Heq as <-. vm_compute. split; discriminate.
  - destruct (strconv.Atoi s) as [sec|e]; [|discriminate].
    destruct (time.mul sec time.Second <? time.Second)%Z eqn:Hlo;
      destruct (time.mul sec time.Second >? maxDownloadTimeout)%Z eqn:Hhi;
      cbn [orb]; try discriminate.
    intros Heq. injection Heq as <-.
    apply Z.ltb_ge in Hlo. rewrite Z.gtb_ltb in Hhi. apply Z.ltb_ge in Hhi.
    unfold maxDownloadTimeout in Hhi. lia.
Qed.

(** X9.  Every validity the download handler asks of the signer lies between
    one second and 24 hours, whatever the request, the record and the
    clients are (the overflow of the product lets wrong values in, but none
    leaves this range). *)
Theorem download_signs_within_bounds w r assetID g :
  exists new,
    trace (finalState (handleAssetURLRequest w r assetID g)) = (trace g ++ new)%list
    /\ forall timeout, In (CalledPresign timeout) new ->
                       (time.Second <= timeout <= 24 * time.Hour)%Z.
Proof.
  destruct (dynamodb.GetItem (stateQuery (tableName g) assetID) (dbSvc g))
    as [[result|err] d'] eqn:Hget.
  - unfold handleAssetURLRequest, bind, gets, dbSvc_GetItem.
    fold (stateQuery (tableName g) assetID). rewrite Hget.
    destruct (dynamodb.GetItemOutput.Item result !! "id");
      [|eexists; split; [apply trace_afterRead|];
        intros t [Hin|[]]; discriminate Hin].
    assert (Hread : exists new,
              trace (set_dbSvc d' (emit (CalledGetItem (stateQuery (tableName g) assetID)) g))
              = (trace g ++ new)%list
              /\ forall timeout, In (CalledPresign timeout) new ->
                                 (time.Second <= timeout <= 24 * time.Hour)%Z).
    { eexists. split; [apply trace_afterRead|]. intros t [Hin|[]]. discriminate Hin. }
    destruct (dynamodb.GetItemOutput.Item result !! "status") as [status|].
    + destruct (dynamodb.S status) as [s|]; [|exact Hread].
      unfold ret. destruct (String.eqb s assetStatusUploaded); cbn [negb]; [|exact Hread].
      destruct (downloadTimeout _) as [timeout|msg] eqn:Ht; [|exact Hread].
      apply downloadTimeout_range in Ht.
      unfold s3Svc_GetObjectRequest, req_Presign, log_Println, modify. cbn -[emit].
      destruct (request.Presign _ timeout); cbn [finalState].
      * eexists. split; [apply (trace_afterSign g assetID d' timeout)|].
        intros t [Hin|[Hin|[Hin|[]]]]; try discriminate Hin.
        injection Hin as <-. exact Ht.
      * exists [CalledGetItem (stateQuery (tableName g) assetID);
                CalledGetObjectRequest
                  (s3.GetObjectInput.mk (Some (bucketName g)) (Some assetID));
                CalledPresign timeout; Logged (Error e)].
        split; [cbn; repeat rewrite <- app_assoc; reflexivity|].
        intros t [Hin|[Hin|[Hin|[Hin|[]]]]]; try discriminate Hin.
        injection Hin as <-. exact Ht.
    + exact Hread.
  - rewrite (download_store_failure w r assetID g err d' Hget). cbn [finalState].
    eexists. split; [rewrite trace_emit, trace_afterRead, <- app_assoc; reflexivity|].
    intros t [Hin|[Hin|[]]]; discriminate Hin.
Qed.

(** X10.  A [timeout] parameter given with an empty value is treated like
    an absent one: the URL is signed for the default 60 seconds. *)
Theorem download_empty_timeout_is_default w r assetID g result d' url :
  httptest.wroteHeader w = false ->
  dynamodb.GetItem (stateQuery (tableName g) assetID) (dbSvc g) = (inl result, d') ->
  classify (dynamodb.GetItemOutput.Item result) = Uploaded ->
  url.Get (url.Query (http.URL r)) "timeout" = "" ->
  request.Presign
    (s3.GetObjectRequest (s3.GetObjectInput.mk (Some (bucketName g)) (Some assetID)) (s3Svc g))
    (60 * time.Second)%Z = inl url ->
  statusOf (handleAssetURLRequest w r assetID g) = Some 200%Z
  /\ bodyOf (handleAssetURLRequest w r assetID g)
     = Some (httptest.Body w ++ json.Encode [("Download_url", url)])
  /\ last (trace (finalState (handleAssetURLRequest w r assetID g)))
     = Some (CalledPresign (60 * time.Second)%Z).
Proof.
  intros Hw Hget Hcl Hempty Hsign.
  rewrite (download_uploaded w r assetID g result d' Hget Hcl), Hempty.
  change (downloadTimeout "") with (@inl time.Duration string (60 * time.Second)%Z).
  cbv iota. rewrite Hsign.
  unfold statusOf, bodyOf, response. cbn [fmap option_fmap option_map finalState].
  rewrite (Result_Write w _ Hw). split; [reflexivity|]. split; [reflexivity|].
  rewrite trace_afterSign.
  change [CalledGetItem (stateQuery (tableName g) assetID);
          CalledGetObjectRequest (s3.GetObjectInput.mk (Some (bucketName g)) (Some assetID));
          CalledPresign (60 * time.Second)%Z]
    with ([CalledGetItem (stateQuery (tableName g) assetID);
           CalledGetObjectRequest (s3.GetObjectInput.mk (Some (bucketName g)) (Some assetID))]
          ++ [CalledPresign (60 * time.Second)%Z])%list.
  rewrite app_assoc. apply last_snoc.
Qed.

End DownloadEdges.

(** X11.  A timeout that parses as an integer whose product with
    [time.Second] does not overflow is accepted exactly when it lies between
    1 and 86400, and is then signed for as it is; a text that is no integer
    is refused. *)
Theorem downloadTimeout_without_overflow (s : string) :
  s <> "" ->
  (forall sec, strconv.Atoi s = inl sec ->
     (-9223372036 <= sec <= 9223372036)%Z ->
     ((1 <= sec <= 86400)%Z -> downloadTimeout s = inl (sec * time.Second)%Z)
     /\ (~ (1 <= sec <= 86400)%Z -> exists msg, downloadTimeout s = inr msg))
  /\ (forall e, strconv.Atoi s = inr e -> exists msg, downloadTimeout s = inr msg).
Proof.
  intros Hs. split.
  - intros sec Hsec Hrange. rewrite (downloadTimeout_exact s sec Hs Hsec Hrange).
    split.
    + intros [Hlo Hhi]. apply Z.leb_le in Hlo, Hhi. rewrite Hlo, Hhi. reflexivity.
    + intros Hout. destruct (1 <=? sec)%Z eqn:Hlo; destruct (sec <=? 86400)%Z eqn:Hhi;
        cbn [andb]; try (eexists; reflexivity).
      exfalso. apply Hout. apply Z.leb_le in Hlo, Hhi. lia.
  - intros e He. eexists. apply (downloadTimeout_not_integer s e Hs He).
Qed.

(** ** The shape of reserved ids *)

Lemma string_length_append (a b : string) :
  String.length (a ++ b) = String.length a + String.length b.
Proof. induction a as [|c a IH]; simpl; [reflexivity|]. rewrite IH. reflexivity. Qed.

Lemma allURLSafe_append (a b : string) :
  allURLSafe (a ++ b) = allURLSafe a && allURLSafe b.
Proof.
  induction a as [|c a IH]; simpl; [reflexivity|].
  rewrite IH. apply andb_assoc.
Qed.

(** Six bits always select one character, and it is a URL-safe one. *)
Lemma enc_char (v : Z) :
  exists c, base64.enc v = String c "" /\ urlSafe c = true.
Proof.
  unfold base64.enc.
  assert (Hr : (0 <= Z.land v 63 < 64)%Z).
  { change 63%Z with (Z.ones 6). rewrite Z.land_ones by lia.
    apply Z.mod_pos_bound. reflexivity. }
  assert (Hn : Z.to_nat (Z.land v 63) < 64) by lia.
  generalize dependent (Z.to_nat (Z.land v 63)). intros n Hn.
  do 64 (destruct n as [|n]; [eexists; split; reflexivity|]). lia.
Qed.

Lemma enc_shape (v : Z) :
  String.length (base64.enc v) = 1 /\ allURLSafe (base64.enc v) = true.
Proof.
  destruct (enc_char v) as (c & -> & Hc). simpl. rewrite Hc. split; reflexivity.
Qed.

(** The Go formula for the length of the unpadded encoding, and the
    alphabet, for every input. *)
Lemma EncodeToString_shape (n : nat) : forall src : list Z,
  length src <= n ->
  String.length (base64.EncodeToString src) = (length src * 8 + 5) / 6
  /\ allURLSafe (base64.EncodeToString src) = true.
Proof.
  induction n as [|n IH]; intros src Hlen.
  - destruct src; [split; reflexivity|simpl in Hlen; lia].
  - destruct src as [|b0 [|b1 [|b2 rest]]].
    + split; reflexivity.
    + cbn [base64.EncodeToString].
      rewrite string_length_append, allURLSafe_append.
      rewrite !(proj1 (enc_shape _)), !(proj2 (enc_shape _)). split; reflexivity.
    + cbn [base64.EncodeToString].
      rewrite !string_length_append, !allURLSafe_append.
      rewrite !(proj1 (enc_shape _)), !(proj2 (enc_shape _)). split; reflexivity.
    + cbn [base64.EncodeToString].
      rewrite !string_length_append, !allURLSafe_append.
      rewrite !(proj1 (enc_shape _)), !(proj2 (enc_shape _)).
      destruct (IH rest) as [Hl Hs]; [simpl in Hlen; lia|].
      rewrite Hl, Hs. split; [|reflexivity].
      cbn [length].
      replace (S (S (S (length rest))) * 8 + 5) with (length rest * 8 + 5 + 4 * 6) by lia.
      rewrite Nat.div_add by lia. lia.
Qed.

Lemma rand_Read_length {R : Type} `{rand.Source R} (n : nat) : forall r : rand.Rand R,
  length (fst (rand.Read n r)) = n.
Proof.
  induction n as [|n IH]; intros r; [reflexivity|].
  cbn [rand.Read].
  destruct (rand.Read n _) as [bs r3] eqn:Hrest.
  cbn [fst length]. f_equal.
  specialize (IH (rand.mkRand
    (rand.src (if (rand.readPos r =? 0)%Z
               then let (v, s') := rand.Int63 (rand.src r) in rand.mkRand s' v 7 else r))
    (Z.shiftr (rand.readVal (if (rand.readPos r =? 0)%Z
               then let (v, s') := rand.Int63 (rand.src r) in rand.mkRand s' v 7 else r)) 8)
    (rand.readPos (if (rand.readPos r =? 0)%Z
               then let (v, s') := rand.Int63 (rand.src r) in rand.mkRand s' v 7 else r) - 1))).
  rewrite Hrest in IH. exact IH.
Qed.

Section IdShape.

Context {D C R : Type}.
Context `{dynamodb.DynamoDBAPI D} `{s3.S3API C} `{rand.Source R}.

Implicit Types g : Globals D C R.

Lemma reserveUniqueID_eq g : reserveUniqueID g = reserveLoop 11 None g.
Proof. unfold reserveUniqueID. reflexivity. Qed.

Lemma insertAttempt_id g id err g1 :
  insertAttempt g = Done (id, err) g1 ->
  String.length id = 16 /\ allURLSafe id = true.
Proof.
  unfold insertAttempt, bind, rand_Read, gets, dbSvc_PutItem, ret.
  pose proof (rand_Read_length 12 (globalRand g)) as Hlen.
  destruct (rand.Read 12 (globalRand g)) as [bs r'].
  cbn [fst] in Hlen.
  destruct (dynamodb.PutItem _ _) as [e d'].
  intros Heq. injection Heq as <- _ _.
  destruct (EncodeToString_shape 12 bs ltac:(lia)) as [Hl Hs].
  rewrite Hl, Hlen. split; [reflexivity|exact Hs].
Qed.

Lemma reserveLoop_id n : forall last g id err g',
  reserveLoop n last g = Done (id, err) g' ->
  (err = None /\ String.length id = 16 /\ allURLSafe id = true)
  \/ (id = "" /\ (n <> 0 -> err <> None)).
Proof.
  induction n as [|n IH]; intros last g id err g' Hrun.
  - cbn in Hrun. injection Hrun as <- _ _. right. split; [reflexivity|]. intros Hc. contradiction.
  - rewrite reserveLoop_step in Hrun.
    destruct (insertAttempt g) as [[id1 [e|]] g1|] eqn:Hatt; [| |discriminate Hrun].
    + destruct (IH _ _ _ _ _ Hrun) as [Hok|[Hid Herr]]; [left; exact Hok|].
      right. split; [exact Hid|]. intros _.
      destruct n as [|n']; [|apply Herr; lia].
      cbn in Hrun. injection Hrun as _ <- _. discriminate.
    + injection Hrun as <- <- _. left. split; [reflexivity|].
      apply (insertAttempt_id g id1 None g1 Hatt).
Qed.

(** X12.  The id a reservation returns without error has 16 characters, all
    of them letters, digits, [-] or [_]; the id is empty exactly when the
    reservation returns an error. *)
Theorem reserved_id_shape g id err g' :
  reserveUniqueID g = Done (id, err) g' ->
  (err = None -> String.length id = 16 /\ allURLSafe id = true)
  /\ (id = "" <-> err <> None).
Proof.
  intros Hrun. rewrite reserveUniqueID_eq in Hrun.
  pose proof (reserveLoop_id 11 None g id err g' Hrun) as Hcases. clear Hrun.
  destruct Hcases as [(He & Hl & Hs)|[Hid Herr]].
  - split; [intros _; split; assumption|].
    split; [|intros Hc; contradiction].
    intros ->. discriminate Hl.
  - assert (Herr' : err <> None) by (apply Herr; discriminate).
    split; [intros He; contradiction|].
    split; [intros _; exact Herr'|intros _; exact Hid].
Qed.

End IdShape.

Lemma reserved_id_shape_witness :
  String.length "sV7uh-2Kd2z1TMal" = 16 /\ allURLSafe "sV7uh-2Kd2z1TMal" = true.
Proof.
  eassert (Hres : reserveUniqueID (fake.world ∅ []) = Done ("sV7uh-2Kd2z1TMal", None) _)
    by (vm_compute; reflexivity).
  apply (proj1 (reserved_id_shape _ _ _ _ Hres)). reflexivity.
Defined.

(** ** The lifecycle on the in-memory store *)

Section StoreLifecycle.

Context {C R : Type}.
Context `{s3.S3API C} `{rand.Source R}.

Implicit Types g : Globals fake.MemDB C R.

Lemma reserveQuery_key (table id : string) :
  fake.keyOf (dynamodb.PutItemInput.Item (reserveQuery table id)) = Some id.
Proof.
  unfold fake.keyOf, reserveQuery. cbn [dynamodb.PutItemInput.Item].
  rewrite lookup_singleton_eq. reflexivity.
Qed.

(** A conditional insert on the store: it either fails and leaves the table
    as it is, or finds no record under the id and adds the reserved one. *)
Lemma memdb_reserve_put (d : fake.MemDB) (table id : string) :
  (fst (dynamodb.PutItem (reserveQuery table id) d) <> None
   /\ fake.table (snd (dynamodb.PutItem (reserveQuery table id) d)) = fake.table d)
  \/ (fst (dynamodb.PutItem (reserveQuery table id) d) = None
      /\ fake.table d !! id = None
      /\ fake.table (snd (dynamodb.PutItem (reserveQuery table id) d))
         = <[id := fake.reserved id]> (fake.table d)).
Proof.
  assert (Hput : (fst (fake.putTable (reserveQuery table id) (fake.table d)) <> None
                  /\ snd (fake.putTable (reserveQuery table id) (fake.table d)) = fake.table d)
                 \/ (fst (fake.putTable (reserveQuery table id) (fake.table d)) = None
                     /\ fake.table d !! id = None
                     /\ snd (fake.putTable (reserveQuery table id) (fake.table d))
                        = <[id := fake.reserved id]> (fake.table d))).
  { unfold fake.putTable. rewrite reserveQuery_key.
    change (dynamodb.PutItemInput.ConditionExpression (reserveQuery table id))
      with (Some "attribute_not_exists(id)").
    change (fake.conditionHolds (Some "attribute_not_exists(id)")
              (bool_decide (is_Some (fake.table d !! id))))
      with (Some (negb (bool_decide (is_Some (fake.table d !! id))))).
    destruct (fake.table d !! id) as [item|] eqn:Hitem.
    - rewrite bool_decide_eq_true_2 by (eexists; reflexivity). cbn [negb fst snd].
      left. split; [discriminate|reflexivity].
    - rewrite bool_decide_eq_false_2 by (intros [x Hx]; discriminate Hx). cbn [negb fst snd].
      right. split; [reflexivity|]. split; reflexivity. }
  cbn [dynamodb.PutItem fake.MemDB_API].
  destruct (fake.faults d) as [|[e|] rest].
  - destruct (fake.putTable (reserveQuery table id) (fake.table d)) as [err t'].
    cbn [fst snd fake.table] in *. exact Hput.
  - cbn [fst snd fake.table]. left. split; [discriminate|reflexivity].
  - destruct (fake.putTable (reserveQuery table id) (fake.table d)) as [err t'].
    cbn [fst snd fake.table] in *. exact Hput.
Qed.

Lemma insertAttempt_store g id err g1 :
  insertAttempt g = Done (id, err) g1 ->
  (err <> None /\ fake.table (dbSvc g1) = fake.table (dbSvc g))
  \/ (err = None /\ fake.table (dbSvc g) !! id = None
      /\ fake.table (dbSvc g1) = <[id := fake.reserved id]> (fake.table (dbSvc g))).
Proof.
  unfold insertAttempt, bind, rand_Read, gets, dbSvc_PutItem, ret.
  destruct (rand.Read 12 (globalRand g)) as [bs r'].
  cbn [tableName set_globalRand dbSvc emit].
  pose proof (memdb_reserve_put (dbSvc g) (tableName g) (base64.EncodeToString bs)) as Hput.
  destruct (dynamodb.PutItem _ (dbSvc g)) as [e d'].
  cbn [fst snd] in Hput. intros Heq. injection Heq as <- <- <-.
  cbn [dbSvc set_dbSvc]. exact Hput.
Qed.

Lemma reserveLoop_store n : forall last g id err g',
  reserveLoop n last g = Done (id, err) g' ->
  (err = None /\ fake.table (dbSvc g) !! id = None
   /\ fake.table (dbSvc g') = <[id := fake.reserved id]> (fake.table (dbSvc g)))
  \/ (fake.table (dbSvc g') = fake.table (dbSvc g) /\ (n <> 0 -> err <> None)).
Proof.
  induction n as [|n IH]; intros last g id err g' Hrun.
  - cbn in Hrun. injection Hrun as _ _ <-. right. split; [reflexivity|].
    intros Hc. contradiction.
  - rewrite reserveLoop_step in Hrun.
    destruct (insertAttempt g) as [[id1 [e|]] g1|] eqn:Hatt; [| |discriminate Hrun].
    + destruct (insertAttempt_store g id1 (Some e) g1 Hatt) as [[_ Hsame]|[Hc _]];
        [|discriminate Hc].
      destruct (IH _ _ _ _ _ Hrun) as [(He & Hfresh & Hnew)|[Hkeep Herr]].
      * left. cbn [dbSvc emit] in Hfresh, Hnew. rewrite Hsame in Hfresh, Hnew.
        split; [exact He|]. split; assumption.
      * right. cbn [dbSvc emit] in Hkeep. rewrite Hsame in Hkeep.
        split; [exact Hkeep|]. intros _.
        destruct n as [|n']; [|apply Herr; discriminate].
        cbn in Hrun. injection Hrun as _ <- _. discriminate.
    + injection Hrun as <- <- <-.
      destruct (insertAttempt_store g id1 None g1 Hatt) as [[Hc _]|Hok];
        [exfalso; apply Hc; reflexivity|].
      left. exact Hok.
Qed.

(** X13.  On the store, a reservation never overwrites or removes a record:
    when it returns an id, there was no record under that id, the table has
    gained exactly the record that holds nothing but the id, and every other
    record is as before; when it returns an error, the table is unchanged. *)
Theorem reserve_claims_fresh_key g id err g' :
  reserveUniqueID g = Done (id, err) g' ->
  (err = None ->
     fake.table (dbSvc g) !! id = None
     /\ fake.table (dbSvc g') = <[id := fake.reserved id]> (fake.table (dbSvc g))
     /\ classify (fake.reserved id) = Reserved
     /\ forall k item, fake.table (dbSvc g) !! k = Some item ->
                       fake.table (dbSvc g') !! k = Some item)
  /\ (err <> None -> fake.table (dbSvc g') = fake.table (dbSvc g)).
Proof.
  intros Hrun. rewrite reserveUniqueID_eq in Hrun.
  pose proof (reserveLoop_store 11 None g id err g' Hrun) as Hcases. clear Hrun.
  destruct Hcases as [(He & Hfresh & Hnew)|[Hkeep Herr]].
  - split; [|intros Hc; contradiction].
    intros _. split; [exact Hfresh|]. split; [exact Hnew|]. split.
    + unfold classify, hasUploadedMarker, fake.reserved.
      rewrite lookup_singleton_eq, lookup_singleton_ne by discriminate. reflexivity.
    + intros k item Hk. rewrite Hnew.
      rewrite lookup_insert_ne; [exact Hk|]. intros ->. congruence.
  - split; [|intros _; exact Hkeep].
    intros He. exfalso. apply Herr; [discriminate|exact He].
Qed.

(** The read of the state on a store without scheduled faults. *)
Lemma memdb_state_get (d : fake.MemDB) (table id : string) :
  fake.faults d = [] ->
  dynamodb.GetItem (stateQuery table id) d
  = (inl (dynamodb.GetItemOutput.mk (default ∅ (fake.table d !! id))), d).
Proof.
  intros Hf. cbn [dynamodb.GetItem fake.MemDB_API]. rewrite Hf.
  unfold fake.getTable, fake.keyOf, stateQuery. cbn [dynamodb.GetItemInput.Key].
  rewrite lookup_singleton_eq. reflexivity.
Qed.

Lemma classify_reserved (id : string) : classify (fake.reserved id) = Reserved.
Proof.
  unfold classify, hasUploadedMarker, fake.reserved.
  rewrite lookup_singleton_eq, lookup_singleton_ne by discriminate. reflexivity.
Qed.

Lemma classify_uploaded (id : string) : classify (fake.uploaded id) = Uploaded.
Proof.
  unfold classify. rewrite uploaded_has_marker. unfold fake.uploaded.
  rewrite lookup_insert_ne by discriminate. rewrite lookup_singleton_eq. reflexivity.
Qed.

(** X14.  On the store, a download request for an id that a reservation has
    just returned is answered 202: the record is there and is not yet
    uploaded. *)
Theorem download_after_reserve_is_not_ready g id g' w r :
  httptest.wroteHeader w = false ->
  reserveUniqueID g = Done (id, None) g' ->
  fake.faults (dbSvc g') = [] ->
  statusOf (handleAssetURLRequest w r id g') = Some 202%Z.
Proof.
  intros Hw Hrun Hf. rewrite reserveUniqueID_eq in Hrun.
  pose proof (reserveLoop_store 11 None g id None g' Hrun) as Hcases. clear Hrun.
  destruct Hcases as [(_ & _ & Hnew)|[_ Herr]];
    [|exfalso; apply Herr; [discriminate|reflexivity]].
  pose proof (memdb_state_get (dbSvc g') (tableName g') id Hf) as Hget.
  rewrite Hnew, lookup_insert_eq in Hget. cbn [default] in Hget.
  rewrite (download_not_ready w r id g' _ _ Hget (classify_reserved id)
             (statusIsString_reserved id)).
  unfold statusOf, response. cbn [fmap option_fmap option_map].
  rewrite (proj1 (Result_http_Error w _ _ Hw)). reflexivity.
Qed.

(** X15.  On the store, once the transition has succeeded for an id, a
    download request for that id is never answered 404 or 202 any more, and
    is answered 200 with the signed URL when its timeout is accepted and the
    signer succeeds. *)
Theorem download_after_mark_is_ready g assetID item w r w2 r2 :
  httptest.wroteHeader w2 = false ->
  decode_markUploadedRequest (http.Body r) = ({| Status := assetStatusUploaded |}, None) ->
  fake.faults (dbSvc g) = [] ->
  fake.table (dbSvc g) !! assetID = Some item ->
  exists g1,
    handleMarkUploadedRequest w r assetID g = Done w g1
    /\ fake.table (dbSvc g1) !! assetID = Some (fake.uploaded assetID)
    /\ statusOf (handleAssetURLRequest w2 r2 assetID g1) <> Some 404%Z
    /\ statusOf (handleAssetURLRequest w2 r2 assetID g1) <> Some 202%Z
    /\ forall timeout url,
         downloadTimeout (url.Get (url.Query (http.URL r2)) "timeout") = inl timeout ->
         request.Presign
           (s3.GetObjectRequest
              (s3.GetObjectInput.mk (Some (bucketName g1)) (Some assetID)) (s3Svc g1))
           timeout = inl url ->
         statusOf (handleAssetURLRequest w2 r2 assetID g1) = Some 200%Z
         /\ bodyOf (handleAssetURLRequest w2 r2 assetID g1)
            = Some (httptest.Body w2 ++ json.Encode [("Download_url", url)]).
Proof.
  intros Hw2 Hdec Hf Hitem.
  pose proof (memdb_mark_put (dbSvc g) (tableName g) assetID Hf) as Hput.
  rewrite Hitem in Hput.
  rewrite bool_decide_eq_true_2 in Hput by (eexists; reflexivity).
  assert (Herr : snd (decode_markUploadedRequest (http.Body r)) = None)
    by (rewrite Hdec; reflexivity).
  assert (Hst : Status (fst (decode_markUploadedRequest (http.Body r))) = assetStatusUploaded)
    by (rewrite Hdec; reflexivity).
  rewrite (mark_proceeds w r assetID g _ _ Herr Hst Hput).
  eexists. split; [reflexivity|].
  assert (Hnow : fake.table (dbSvc (afterPut g assetID
                   (fake.mkMemDB (<[assetID := fake.uploaded assetID]> (fake.table (dbSvc g))) [])))
                 !! assetID = Some (fake.uploaded assetID))
    by (cbn [afterPut set_dbSvc dbSvc fake.table]; apply lookup_insert_eq).
  split; [exact Hnow|].
  pose proof (memdb_state_get
                (dbSvc (afterPut g assetID
                   (fake.mkMemDB (<[assetID := fake.uploaded assetID]> (fake.table (dbSvc g))) [])))
                (tableName (afterPut g assetID
                   (fake.mkMemDB (<[assetID := fake.uploaded assetID]> (fake.table (dbSvc g))) [])))
                assetID eq_refl) as Hget.
  rewrite Hnow in Hget. cbn [default] in Hget.
  rewrite (download_uploaded w2 r2 assetID _ _ _ Hget (classify_uploaded assetID)).
  destruct (downloadTimeout _) as [timeout|msg].
  - destruct (request.Presign _ timeout) as [url|err] eqn:Hp.
    + unfold statusOf, bodyOf, response. cbn [fmap option_fmap option_map].
      rewrite (Result_Write w2 _ Hw2). cbn [httptest.StatusCode httptest.ResponseBody].
      split; [discriminate|]. split; [discriminate|].
      intros timeout' url' Ht Hu. injection Ht as <-. rewrite Hp in Hu.
      injection Hu as <-. split; reflexivity.
    + unfold statusOf, bodyOf, response. cbn [fmap option_fmap option_map].
      rewrite (Result_WriteHeader w2 _ Hw2). cbn [httptest.StatusCode httptest.ResponseBody].
      split; [discriminate|]. split; [discriminate|].
      intros timeout' url' Ht Hu. injection Ht as <-. rewrite Hp in Hu. discriminate Hu.
  - unfold statusOf, bodyOf, response. cbn [fmap option_fmap option_map].
    rewrite (proj1 (Result_http_Error w2 _ _ Hw2)).
    split; [discriminate|]. split; [discriminate|].
    intros timeout' url' Ht. discriminate Ht.
Qed.

(** X16.  On the store, the transition for an id that has no record is
    answered 404; it creates no record, changes nothing in the table and
    logs nothing. *)
Theorem markUploaded_unknown_id_creates_nothing g assetID w r :
  httptest.wroteHeader w = false ->
  decode_markUploadedRequest (http.Body r) = ({| Status := assetStatusUploaded |}, None) ->
  fake.faults (dbSvc g) = [] ->
  fake.table (dbSvc g) !! assetID = None ->
  statusOf (handleMarkUploadedRequest w r assetID g) = Some 404%Z
  /\ fake.table (dbSvc (finalState (handleMarkUploadedRequest w r assetID g)))
     = fake.table (dbSvc g)
  /\ countLogs (trace (finalState (handleMarkUploadedRequest w r assetID g)))
     = countLogs (trace g).
Proof.
  intros Hw Hdec Hf Hitem.
  pose proof (memdb_mark_put (dbSvc g) (tableName g) assetID Hf) as Hput.
  rewrite Hitem in Hput.
  rewrite bool_decide_eq_false_2 in Hput by (intros [x Hx]; discriminate Hx).
  assert (Herr : snd (decode_markUploadedRequest (http.Body r)) = None)
    by (rewrite Hdec; reflexivity).
  assert (Hst : Status (fst (decode_markUploadedRequest (http.Body r))) = assetStatusUploaded)
    by (rewrite Hdec; reflexivity).
  rewrite (mark_proceeds w r assetID g _ _ Herr Hst Hput).
  change (isConditionFailure fake.conditionalCheckFailed) with true. cbv iota.
  unfold statusOf, response. cbn [fmap option_fmap option_map finalState].
  rewrite (proj1 (Result_http_Error w _ _ Hw)).
  split; [reflexivity|]. split; [reflexivity|].
  rewrite trace_afterPut, countLogs_app. cbn. lia.
Qed.

End StoreLifecycle.

(** ** Runs of the further properties on the test doubles *)

Lemma download_store_failure_is_internal_witness :
  statusOf (handleAssetURLRequest httptest.NewRecorder (fake.get "/asset/abc" "") "abc"
              (fake.world {[ "abc" := fake.uploaded "abc" ]} [Some fake.throttled]))
  = Some 500%Z.
Proof.
  assert (Hget : dynamodb.GetItem
                   (stateQuery (tableName (fake.world {[ "abc" := fake.uploaded "abc" ]}
                                             [Some fake.throttled])) "abc")
                   (dbSvc (fake.world {[ "abc" := fake.uploaded "abc" ]} [Some fake.throttled]))
                 = (inr fake.throttled, fake.mkMemDB {[ "abc" := fake.uploaded "abc" ]} []))
    by (vm_compute; reflexivity).
  apply (download_store_failure_is_internal httptest.NewRecorder (fake.get "/asset/abc" "")
           "abc" _ _ _ eq_refl Hget).
Defined.

Lemma download_signing_failed_witness :
  statusOf (handleAssetURLRequest httptest.NewRecorder (fake.get "/asset/abc" "") "abc"
              (fake.worldWith (fake.mkSigner true) {[ "abc" := fake.uploaded "abc" ]} []))
  = Some 500%Z.
Proof.
  assert (Hget : dynamodb.GetItem
                   (stateQuery (tableName (fake.worldWith (fake.mkSigner true)
                                             {[ "abc" := fake.uploaded "abc" ]} [])) "abc")
                   (dbSvc (fake.worldWith (fake.mkSigner true)
                             {[ "abc" := fake.uploaded "abc" ]} []))
                 = (inl (dynamodb.GetItemOutput.mk (fake.uploaded "abc")),
                    fake.mkMemDB {[ "abc" := fake.uploaded "abc" ]} []))
    by (vm_compute; reflexivity).
  assert (Hcl : classify (dynamodb.GetItemOutput.Item
                            (dynamodb.GetItemOutput.mk (fake.uploaded "abc"))) = Uploaded)
    by (vm_compute; reflexivity).
  assert (Ht : downloadTimeout
                 (url.Get (url.Query (http.URL (fake.get "/asset/abc" ""))) "timeout")
               = inl (60 * time.Second)%Z)
    by (vm_compute; reflexivity).
  assert (Hsign : request.Presign
                    (s3.GetObjectRequest
                       (s3.GetObjectInput.mk
                          (Some (bucketName (fake.worldWith (fake.mkSigner true)
                                               {[ "abc" := fake.uploaded "abc" ]} [])))
                          (Some "abc"))
                       (s3Svc (fake.worldWith (fake.mkSigner true)
                                 {[ "abc" := fake.uploaded "abc" ]} [])))
                    (60 * time.Second)%Z
                  = inr (errors_New "signing failed"))
    by (vm_compute; reflexivity).
  apply (download_signing_failed httptest.NewRecorder (fake.get "/asset/abc" "")
           "abc" _ _ _ _ _ eq_refl Hget Hcl Ht Hsign).
Defined.

Lemma download_panics_on_non_string_status_witness :
  response (handleAssetURLRequest httptest.NewRecorder (fake.get "/asset/abc" "") "abc"
              (fake.world {[ "abc" := fake.oddStatus "abc" ]} []))
  = None.
Proof.
  assert (Hget : dynamodb.GetItem
                   (stateQuery (tableName (fake.world {[ "abc" := fake.oddStatus "abc" ]} [])) "abc")
                   (dbSvc (fake.world {[ "abc" := fake.oddStatus "abc" ]} []))
                 = (inl (dynamodb.GetItemOutput.mk (fake.oddStatus "abc")),
                    fake.mkMemDB {[ "abc" := fake.oddStatus "abc" ]} []))
    by (vm_compute; reflexivity).
  assert (Hid : dynamodb.GetItemOutput.Item (dynamodb.GetItemOutput.mk (fake.oddStatus "abc"))
                  !! "id" = Some (attrS "abc"))
    by (vm_compute; reflexivity).
  assert (Hst : dynamodb.GetItemOutput.Item (dynamodb.GetItemOutput.mk (fake.oddStatus "abc"))
                  !! "status" = Some (dynamodb.mkAttributeValue None))
    by (vm_compute; reflexivity).
  destruct (download_panics_on_non_string_status httptest.NewRecorder
              (fake.get "/asset/abc" "") "abc" _ _ _ _ _ Hget Hid Hst eq_refl)
    as (msg & _ & Hnone).
  exact Hnone.
Defined.

Lemma download_empty_timeout_is_default_witness :
  last (trace (finalState
         (handleAssetURLRequest httptest.NewRecorder (fake.get "/asset/abc" "timeout=") "abc"
            (fake.world {[ "abc" := fake.uploaded "abc" ]} []))))
  = Some (CalledPresign (60 * time.Second)%Z).
Proof.
  assert (Hget : dynamodb.GetItem
                   (stateQuery (tableName (fake.world {[ "abc" := fake.uploaded "abc" ]} [])) "abc")
                   (dbSvc (fake.world {[ "abc" := fake.uploaded "abc" ]} []))
                 = (inl (dynamodb.GetItemOutput.mk (fake.uploaded "abc")),
                    fake.mkMemDB {[ "abc" := fake.uploaded "abc" ]} []))
    by (vm_compute; reflexivity).
  assert (Hcl : classify (dynamodb.GetItemOutput.Item
                            (dynamodb.GetItemOutput.mk (fake.uploaded "abc"))) = Uploaded)
    by (vm_compute; reflexivity).
  assert (Hempty : url.Get (url.Query (http.URL (fake.get "/asset/abc" "timeout="))) "timeout"
                   = "")
    by (vm_compute; reflexivity).
  assert (Hsign : request.Presign
                    (s3.GetObjectRequest
                       (s3.GetObjectInput.mk
                          (Some (bucketName (fake.world {[ "abc" := fake.uploaded "abc" ]} [])))
                          (Some "abc"))
                       (s3Svc (fake.world {[ "abc" := fake.uploaded "abc" ]} [])))
                    (60 * time.Second)%Z
                  = inl "https://1brown2green.s3.amazonaws.com/abc?X-Amz-Expires=60&verb=GET")
    by (vm_compute; reflexivity).
  apply (download_empty_timeout_is_default httptest.NewRecorder
           (fake.get "/asset/abc" "timeout=") "abc" _ _ _ _ eq_refl Hget Hcl Hempty Hsign).
Defined.

Lemma downloadTimeout_without_overflow_witness :
  downloadTimeout "300" = inl (300 * time.Second)%Z.
Proof.
  assert (Hne : "300" <> "") by discriminate.
  assert (Hparse : strconv.Atoi "300" = inl 300%Z) by (vm_compute; reflexivity).
  apply (proj1 (downloadTimeout_without_overflow "300" Hne) 300%Z Hparse); lia.
Defined.

Lemma reserve_claims_fresh_key_witness :
  fake.table (dbSvc (finalState (reserveUniqueID
     (fake.world {[ "abc" := fake.uploaded "abc" ]} [Some fake.throttled]))))
  !! "abc" = Some (fake.uploaded "abc").
Proof.
  eassert (Hres : reserveUniqueID (fake.world {[ "abc" := fake.uploaded "abc" ]}
                                     [Some fake.throttled])
                  = Done ("-LdLOYvopcWvfsjz", None) _)
    by (vm_compute; reflexivity).
  rewrite Hres. cbn [finalState].
  apply (proj1 (reserve_claims_fresh_key _ _ _ _ Hres) eq_refl).
  vm_compute. reflexivity.
Defined.

Lemma download_after_reserve_is_not_ready_witness :
  exists id g',
    reserveUniqueID (fake.world ∅ []) = Done (id, None) g'
    /\ statusOf (handleAssetURLRequest httptest.NewRecorder (fake.get "/asset/x" "") id g')
       = Some 202%Z.
Proof.
  eassert (Hres : reserveUniqueID (fake.world ∅ []) = Done ("sV7uh-2Kd2z1TMal", None) _)
    by (vm_compute; reflexivity).
  eexists _, _. split; [exact Hres|].
  apply (download_after_reserve_is_not_ready _ _ _ httptest.NewRecorder
           (fake.get "/asset/x" "") eq_refl Hres). reflexivity.
Defined.

Lemma download_after_mark_is_ready_witness :
  exists g1,
    handleMarkUploadedRequest httptest.NewRecorder
      (fake.put "/asset/abc" (fake.statusBody "uploaded")) "abc"
      (fake.world {[ "abc" := fake.reserved "abc" ]} [])
    = Done httptest.NewRecorder g1
    /\ statusOf (handleAssetURLRequest httptest.NewRecorder (fake.get "/asset/abc" "") "abc" g1)
       <> Some 202%Z.
Proof.
  assert (Hdec : decode_markUploadedRequest
                   (http.Body (fake.put "/asset/abc" (fake.statusBody "uploaded")))
                 = ({| Status := assetStatusUploaded |}, None))
    by (vm_compute; reflexivity).
  assert (Hitem : fake.table (dbSvc (fake.world {[ "abc" := fake.reserved "abc" ]} []))
                    !! "abc" = Some (fake.reserved "abc"))
    by apply lookup_singleton_eq.
  destruct (download_after_mark_is_ready
              (fake.world {[ "abc" := fake.reserved "abc" ]} []) "abc" _
              httptest.NewRecorder (fake.put "/asset/abc" (fake.statusBody "uploaded"))
              httptest.NewRecorder (fake.get "/asset/abc" "")
              eq_refl Hdec eq_refl Hitem)
    as (g1 & Hrun & _ & _ & Hnot & _).
  exists g1. split; [exact Hrun|exact Hnot].
Defined.

Lemma markUploaded_unknown_id_creates_nothing_witness :
  statusOf (handleMarkUploadedRequest httptest.NewRecorder
              (fake.put "/asset/abd" (fake.statusBody "uploaded")) "abd"
              (fake.world {[ "abc" := fake.reserved "abc" ]} []))
  = Some 404%Z.
Proof.
  assert (Hdec : decode_markUploadedRequest
                   (http.Body (fake.put "/asset/abd" (fake.statusBody "uploaded")))
                 = ({| Status := assetStatusUploaded |}, None))
    by (vm_compute; reflexivity).
  assert (Hitem : fake.table (dbSvc (fake.world {[ "abc" := fake.reserved "abc" ]} []))
                    !! "abd" = None)
    by (vm_compute; reflexivity).
  apply (markUploaded_unknown_id_creates_nothing
           (fake.world {[ "abc" := fake.reserved "abc" ]} []) "abd"
           httptest.NewRecorder (fake.put "/asset/abd" (fake.statusBody "uploaded"))
           eq_refl Hdec eq_refl Hitem).
Defined.

(** ** The JSON of the responses reads back *)

#[local] Arguments String.append !s1 s2 : simpl nomatch.

Lemma string_app_nil_r (a : string) : a ++ "" = a.
Proof. induction a as [|c a IH]; simpl; [reflexivity|]. rewrite IH. reflexivity. Qed.

Lemma string_app_assoc (a b c : string) : (a ++ b) ++ c = a ++ (b ++ c).
Proof. induction a as [|x a IH]; simpl; [reflexivity|]. rewrite IH. reflexivity. Qed.

Lemma quoteBody_cons (c : ascii) (s : string) :
  json.quoteBody (String c s) = json.quoteBody (String c "") ++ json.quoteBody s.
Proof.
  cbn [json.quoteBody]. rewrite string_app_nil_r. reflexivity.
Qed.

(** The escape the encoder writes for one ASCII character is read back by
    the scanner as one unit, which unquotes to that character. *)
Lemma scan_escaped_char (c : ascii) (t : string) (us : list json.unit16) (r : string) :
  (codeOf c <? 128)%Z = true ->
  json.scanString t = Some (us, r) ->
  exists u,
    json.scanString (json.quoteBody (String c "") ++ t) = Some (u :: us, r)
    /\ forall us', json.unquote (u :: us') = String c (json.unquote us').
Proof.
  intros Hc Hscan.
  destruct c as [b0 b1 b2 b3 b4 b5 b6 b7].
  destruct b7; [destruct b0, b1, b2, b3, b4, b5, b6; discriminate Hc|].
  destruct b0, b1, b2, b3, b4, b5, b6;
    simpl; rewrite Hscan; eexists; (split; [reflexivity|intros us'; reflexivity]).
Qed.

Lemma scan_quoted (s rest : string) :
  isASCII s = true ->
  exists us,
    json.scanString (json.quoteBody s ++ String dquote rest) = Some (us, rest)
    /\ json.unquote us = s.
Proof.
  induction s as [|c s IH]; intros Hs.
  - exists []. split; reflexivity.
  - cbn [isASCII] in Hs. apply andb_prop in Hs. destruct Hs as [Hc Hs].
    destruct (IH Hs) as (us & Hscan & Hun).
    destruct (scan_escaped_char c _ us rest Hc Hscan) as (u & Hscan' & Hun').
    exists (u :: us). rewrite quoteBody_cons, string_app_assoc.
    split; [exact Hscan'|]. rewrite Hun', Hun. reflexivity.
Qed.

(** What the encoder writes for an ASCII string, the scanner reads back as
    that string. *)
Lemma stringLit_quote (s rest : string) :
  isASCII s = true ->
  json.stringLit (json.quoteBody s ++ String dquote rest) = Some (s, rest).
Proof.
  intros Hs. destruct (scan_quoted s rest Hs) as (us & Hscan & Hun).
  unfold json.stringLit. rewrite Hscan, Hun. reflexivity.
Qed.

Lemma skipSpace_nonspace (c : ascii) (r : string) :
  json.isSpace c = false -> json.skipSpace (String c r) = String c r.
Proof. intros Hc. cbn [json.skipSpace]. rewrite Hc. reflexivity. Qed.

Lemma quote_app (s rest : string) :
  json.quote s ++ rest = String dquote (json.quoteBody s ++ String dquote rest).
Proof.
  unfold json.quote, quoted.
  change (String dquote (json.quoteBody s ++ String dquote "") ++ rest)
    with (String dquote ((json.quoteBody s ++ String dquote "") ++ rest)).
  rewrite string_app_assoc. reflexivity.
Qed.

Lemma scanValue_eq_string (fuel : nat) (depth : Z) (body : string) :
  json.scanValueAt (S fuel) depth (String dquote body)
  = match json.stringLit body with
    | Some (str, r') => Some (json.Str str, r')
    | None => None
    end.
Proof. reflexivity. Qed.

Lemma scanValue_string (fuel : nat) (depth : Z) (s rest : string) :
  isASCII s = true ->
  json.scanValueAt (S fuel) depth (json.quote s ++ rest) = Some (json.Str s, rest).
Proof.
  intros Hs. rewrite quote_app, scanValue_eq_string, (stringLit_quote s rest Hs).
  reflexivity.
Qed.

Lemma scanMembers_eq_key (fuel : nat) (depth : Z) (body : string) :
  json.scanMembersAt (S fuel) depth (String dquote body)
  = match json.stringLit body with
    | Some (k, r1) =>
        match json.skipSpace r1 with
        | String c r2 =>
            if Ascii.eqb c ":" then
              match json.scanValueAt fuel depth r2 with
              | Some (v, r3) =>
                  match json.skipSpace r3 with
                  | String c' r4 =>
                      if Ascii.eqb c' "," then
                        match json.scanMembersAt fuel depth r4 with
                        | Some (ms, r5) => Some ((k, v) :: ms, r5)
                        | None => None
                        end
                      else if Ascii.eqb c' "}" then Some ([(k, v)], r4)
                      else None
                  | EmptyString => None
                  end
              | None => None
              end
            else None
        | EmptyString => None
        end
    | None => None
    end.
Proof. reflexivity. Qed.

(** One member written by the encoder, read by the scanner. *)
Lemma scanMembers_member (fuel : nat) (depth : Z) (k v t : string) :
  isASCII k = true -> isASCII v = true ->
  json.scanMembersAt (S (S fuel)) depth (json.quote k ++ ":" ++ json.quote v ++ t)
  = match json.skipSpace t with
    | String c' r4 =>
        if Ascii.eqb c' "," then
          match json.scanMembersAt (S fuel) depth r4 with
          | Some (ms, r5) => Some ((k, json.Str v) :: ms, r5)
          | None => None
          end
        else if Ascii.eqb c' "}" then Some ([(k, json.Str v)], r4)
        else None
    | EmptyString => None
    end.
Proof.
  intros Hk Hv.
  rewrite quote_app, scanMembers_eq_key, (stringLit_quote k _ Hk).
  change (":" ++ json.quote v ++ t) with (String ":" (json.quote v ++ t)).
  rewrite (skipSpace_nonspace ":" _ eq_refl).
  change (Ascii.eqb ":" ":") with true. cbv iota.
  rewrite (scanValue_string fuel depth v t Hv). reflexivity.
Qed.

Lemma scanMembers_fields (fields : list (string * string)) :
  fields <> [] -> fieldsASCII fields ->
  forall fuel depth rest,
    json.scanMembersAt (S (length fields) + fuel) depth
      (strings.Join (map (fun kv => json.quote (fst kv) ++ ":" ++ json.quote (snd kv)) fields) ","
       ++ "}" ++ rest)
    = Some (map (fun kv => (fst kv, json.Str (snd kv))) fields, rest).
Proof.
  induction fields as [|[k v] fields IH]; intros Hne Hascii fuel depth rest; [contradiction|].
  inversion Hascii as [|kv l [Hk Hv] Hrest]; subst. cbn [fst snd] in Hk, Hv.
  destruct fields as [|kv' fields'].
  - cbn [map strings.Join fst snd length Nat.add]. rewrite !string_app_assoc.
    rewrite (scanMembers_member fuel depth k v _ Hk Hv).
    change ("}" ++ rest) with (String "}" rest).
    rewrite (skipSpace_nonspace "}" _ eq_refl). reflexivity.
  - change (strings.Join (map (fun kv => json.quote (fst kv) ++ ":" ++ json.quote (snd kv))
                            ((k, v) :: kv' :: fields')) ",")
      with ((json.quote k ++ ":" ++ json.quote v) ++ ","
            ++ strings.Join (map (fun kv => json.quote (fst kv) ++ ":" ++ json.quote (snd kv))
                               (kv' :: fields')) ",").
    rewrite !string_app_assoc.
    change (S (length ((k, v) :: kv' :: fields')) + fuel)
      with (S (S (length (kv' :: fields') + fuel))).
    rewrite (scanMembers_member _ depth k v _ Hk Hv).
    change ("," ++ strings.Join (map (fun kv => json.quote (fst kv) ++ ":" ++ json.quote (snd kv))
                                   (kv' :: fields')) "," ++ "}" ++ rest)
      with (String "," (strings.Join (map (fun kv => json.quote (fst kv) ++ ":" ++ json.quote (snd kv))
                                   (kv' :: fields')) "," ++ "}" ++ rest)).
    rewrite (skipSpace_nonspace "," _ eq_refl).
    change (Ascii.eqb "," ",") with true. cbv iota.
    change (S (length (kv' :: fields') + fuel)) with (S (length (kv' :: fields')) + fuel).
    rewrite (IH ltac:(discriminate) Hrest fuel depth rest). reflexivity.
Qed.

Lemma scanValue_eq_object (fuel : nat) (body : string) :
  json.scanValue (S fuel) (String "{" (String dquote body))
  = match json.scanMembersAt fuel 1 (String dquote body) with
    | Some (ms, r) => Some (json.Object ms, r)
    | None => None
    end.
Proof. reflexivity. Qed.

Lemma Join_fields_head (fields : list (string * string)) :
  fields <> [] ->
  exists body,
    strings.Join (map (fun kv => json.quote (fst kv) ++ ":" ++ json.quote (snd kv)) fields) ","
    = String dquote body.
Proof.
  destruct fields as [|[k v] [|kv' fields']]; intros Hne; [contradiction| |].
  - cbn [map strings.Join fst snd]. rewrite quote_app. eexists. reflexivity.
  - change (strings.Join (map (fun kv => json.quote (fst kv) ++ ":" ++ json.quote (snd kv))
                            ((k, v) :: kv' :: fields')) ",")
      with ((json.quote k ++ ":" ++ json.quote v) ++ ","
            ++ strings.Join (map (fun kv => json.quote (fst kv) ++ ":" ++ json.quote (snd kv))
                               (kv' :: fields')) ",").
    rewrite string_app_assoc, quote_app. eexists. reflexivity.
Qed.

(** What [json.Encode] writes for fields with ASCII keys and values is read
    by the scanner as the object of these members, with the final newline
    left over. *)
Lemma scanValue_Encode (fields : list (string * string)) (fuel : nat) :
  fields <> [] -> fieldsASCII fields ->
  json.scanValue (S (S (length fields)) + fuel) (json.Encode fields)
  = Some (json.Object (map (fun kv => (fst kv, json.Str (snd kv))) fields), String "010" "").
Proof.
  intros Hne Hascii. unfold json.Encode.
  pose proof (scanMembers_fields fields Hne Hascii fuel 1%Z (String "010" "")) as Hms.
  destruct (Join_fields_head fields Hne) as [body Hbody].
  rewrite Hbody in Hms |- *.
  change ("{" ++ String dquote body ++ "}" ++ String "010" "")
    with (String "{" (String dquote (body ++ "}" ++ String "010" ""))).
  change (String dquote body ++ "}" ++ String "010" "")
    with (String dquote (body ++ "}" ++ String "010" "")) in Hms.
  change (S (S (length fields)) + fuel) with (S (S (length fields) + fuel)).
  rewrite scanValue_eq_object, Hms. reflexivity.
Qed.

Lemma Join_length (l : list string) (sep : string) :
  Forall (fun e => 1 <= String.length e) l ->
  length l <= String.length (strings.Join l sep).
Proof.
  induction l as [|e l IH]; intros Hl; [cbn; lia|].
  inversion Hl as [|e' l' He Hrest]; subst.
  destruct l as [|e2 l2]; [cbn [strings.Join length]; lia|].
  change (strings.Join (e :: e2 :: l2) sep) with (e ++ sep ++ strings.Join (e2 :: l2) sep).
  rewrite !string_length_append. specialize (IH Hrest). cbn [length] in *. lia.
Qed.

Lemma Encode_length (fields : list (string * string)) :
  exists n, String.length (json.Encode fields) = S (length fields) + n.
Proof.
  unfold json.Encode. rewrite !string_length_append.
  pose proof (Join_length
                (map (fun kv => json.quote (fst kv) ++ ":" ++ json.quote (snd kv)) fields) ",")
    as Hj.
  rewrite length_map in Hj.
  assert (Hall : Forall (fun e => 1 <= String.length e)
                   (map (fun kv => json.quote (fst kv) ++ ":" ++ json.quote (snd kv)) fields)).
  { clear Hj. induction fields as [|kv fields IHf]; cbn [map]; constructor;
      [rewrite quote_app; cbn [String.length]; lia|exact IHf]. }
  specialize (Hj Hall). cbn [String.length].
  exists (String.length (strings.Join
            (map (fun kv => json.quote (fst kv) ++ ":" ++ json.quote (snd kv)) fields) ",")
          - length fields + 2).
  lia.
Qed.

(** The scanner, with the fuel the decoder gives it, on what the encoder
    writes. *)
Lemma Encode_reads_back (fields : list (string * string)) :
  fields <> [] -> fieldsASCII fields ->
  json.scanValue (S (String.length (json.Encode fields))) (json.Encode fields)
  = Some (json.Object (map (fun kv => (fst kv, json.Str (snd kv))) fields), String "010" "").
Proof.
  intros Hne Hascii. destruct (Encode_length fields) as [n Hn]. rewrite Hn.
  change (S (S (length fields) + n)) with (S (S (length fields)) + n).
  apply (scanValue_Encode fields n Hne Hascii).
Qed.

(** X17.  The bodies of the two successful responses are JSON texts that
    read back as what was encoded: the download response as an object with
    the single member [Download_url] holding the URL, the initiate response
    as an object with the members [upload_url] and [id] in this order (for
    URLs and ids made of ASCII characters). *)
Theorem responses_read_back (url id : string) :
  isASCII url = true -> isASCII id = true ->
  (json.scanValue (S (String.length (encode_assetURLResponse {| DownloadURL := url |})))
     (encode_assetURLResponse {| DownloadURL := url |})
   = Some (json.Object [("Download_url", json.Str url)], String "010" "")
   /\ json.Valid (encode_assetURLResponse {| DownloadURL := url |}) = true)
  /\ (json.scanValue
        (S (String.length (encode_initAssetResponse {| UploadURL := url; ID := id |})))
        (encode_initAssetResponse {| UploadURL := url; ID := id |})
      = Some (json.Object [("upload_url", json.Str url); ("id", json.Str id)], String "010" "")
      /\ json.Valid (encode_initAssetResponse {| UploadURL := url; ID := id |}) = true).
Proof.
  intros Hurl Hid.
  assert (H1 : fieldsASCII [("Download_url", url)]).
  { constructor; [split; [reflexivity|exact Hurl]|constructor]. }
  assert (H2 : fieldsASCII [("upload_url", url); ("id", id)]).
  { constructor; [split; [reflexivity|exact Hurl]|].
    constructor; [split; [reflexivity|exact Hid]|constructor]. }
  unfold encode_assetURLResponse, encode_initAssetResponse, json.Valid.
  cbn [DownloadURL UploadURL ID].
  assert (N1 : [("Download_url", url)] <> []) by discriminate.
  assert (N2 : [("upload_url", url); ("id", id)] <> []) by discriminate.
  rewrite (Encode_reads_back _ N1 H1).
  rewrite (Encode_reads_back _ N2 H2).
  repeat split.
Qed.

(** X18.  A request body that is the JSON encoding of an object with a
    single member decodes without error: the member's value becomes the
    [Status] when its key is [Status] up to the case of its letters, and the
    [Status] stays empty for any other key (for an ASCII key and value). *)
Theorem status_body_decodes (k v : string) :
  isASCII k = true -> isASCII v = true ->
  decode_markUploadedRequest (json.Encode [(k, v)])
  = ({| Status := if json.fieldMatches "Status" k then v else "" |}, None).
Proof.
  intros Hk Hv.
  assert (Hf : fieldsASCII [(k, v)]).
  { constructor; [split; [exact Hk|exact Hv]|constructor]. }
  assert (Hne : [(k, v)] <> []) by discriminate.
  unfold decode_markUploadedRequest, json.Decode.
  rewrite (Encode_reads_back _ Hne Hf).
  unfold json.Encode at 1.
  change ("{" ++ strings.Join (map (fun kv => json.quote (fst kv) ++ ":" ++ json.quote (snd kv))
                                 [(k, v)]) "," ++ "}" ++ String "010" "")
    with (String "{" (strings.Join (map (fun kv => json.quote (fst kv) ++ ":" ++ json.quote (snd kv))
                                 [(k, v)]) "," ++ "}" ++ String "010" "")).
  rewrite (skipSpace_nonspace "{" _ eq_refl).
  cbv iota. unfold json.unmarshal. cbn [map fst snd json.setMembers].
  destruct (json.fieldMatches "Status" k); reflexivity.
Qed.

Lemma responses_read_back_witness :
  json.Valid (encode_assetURLResponse
                {| DownloadURL := "https://1brown2green.s3.amazonaws.com/abc?X-Amz-Expires=60&verb=GET" |})
  = true.
Proof.
  apply (responses_read_back
           "https://1brown2green.s3.amazonaws.com/abc?X-Amz-Expires=60&verb=GET" "abc"
           eq_refl eq_refl).
Defined.

Lemma status_body_decodes_witness :
  decode_markUploadedRequest (json.Encode [("status", "uploaded")])
  = ({| Status := "uploaded" |}, None).
Proof. exact (status_body_decodes "status" "uploaded" eq_refl eq_refl). Defined.

(** ** What the handlers ask of the store *)

Section StoreCalls.

Context {D C R : Type}.
Context `{dynamodb.DynamoDBAPI D} `{s3.S3API C} `{rand.Source R}.

Implicit Types g : Globals D C R.

Lemma insertAttempt_events g id err g1 :
  insertAttempt g = Done (id, err) g1 ->
  trace g1 = (trace g ++ [CalledPutItem (reserveQuery (tableName g) id)])%list
  /\ tableName g1 = tableName g.
Proof.
  unfold insertAttempt, bind, rand_Read, gets, dbSvc_PutItem, ret.
  destruct (rand.Read 12 (globalRand g)) as [bs r'].
  cbn [tableName set_globalRand dbSvc emit].
  destruct (dynamodb.PutItem _ (dbSvc g)) as [e d'].
  intros Heq. injection Heq as <- _ <-. split; reflexivity.
Qed.

Lemma reserveLoop_events n : forall last g id err g',
  reserveLoop n last g = Done (id, err) g' ->
  exists new,
    trace g' = (trace g ++ new)%list
    /\ Forall (isReserveEvent (tableName g)) new
    /\ tableName g' = tableName g.
Proof.
  induction n as [|n IH]; intros last g id err g' Hrun.
  - cbn in Hrun. injection Hrun as _ _ <-. exists [].
    rewrite app_nil_r. split; [reflexivity|]. split; [constructor|reflexivity].
  - rewrite reserveLoop_step in Hrun.
    destruct (insertAttempt g) as [[id1 [e|]] g1|] eqn:Hatt; [| |discriminate Hrun].
    + destruct (insertAttempt_events g id1 (Some e) g1 Hatt) as [Htr Htab].
      destruct (IH _ _ _ _ _ Hrun) as (new & Hnew & Hall & Htab').
      cbn [tableName emit] in Hall, Htab'. rewrite Htab in Hall, Htab'.
      exists (CalledPutItem (reserveQuery (tableName g) id1) :: Logged (Error e) :: new).
      split; [|split; [|exact Htab']].
      * rewrite Hnew. cbn [trace emit]. rewrite Htr, <- !app_assoc. reflexivity.
      * constructor; [eexists; reflexivity|]. constructor; [exact I|exact Hall].
    + injection Hrun as <- _ <-.
      destruct (insertAttempt_events g id1 None g1 Hatt) as [Htr Htab].
      exists [CalledPutItem (reserveQuery (tableName g) id1)].
      split; [exact Htr|]. split; [|exact Htab].
      constructor; [eexists; reflexivity|constructor].
Qed.

(** X19.  All a reservation does to the outside is to log and to call
    [PutItem]; every one of these puts goes to the configured table, carries
    the condition that no record has the key, and writes an item that holds
    nothing but the id: a reservation never puts without that condition. *)
Theorem reserve_only_inserts_conditionally g id err g' :
  reserveUniqueID g = Done (id, err) g' ->
  exists new,
    trace g' = (trace g ++ new)%list
    /\ Forall (isReserveEvent (tableName g)) new
    /\ forall table x,
         dynamodb.PutItemInput.ConditionExpression (reserveQuery table x)
         = Some "attribute_not_exists(id)"
         /\ dynamodb.PutItemInput.Item (reserveQuery table x) = {[ "id" := attrS x ]}
         /\ dynamodb.PutItemInput.TableName (reserveQuery table x) = Some table.
Proof.
  intros Hrun. rewrite reserveUniqueID_eq in Hrun.
  destruct (reserveLoop_events 11 None g id err g' Hrun) as (new & Hnew & Hall & _).
  exists new. split; [exact Hnew|]. split; [exact Hall|].
  intros table x. repeat split.
Qed.

(** X20.  The download handler reads the record exactly once, with a
    strongly consistent [GetItem] for the id in the configured table, and
    makes no other call on the store: a download never writes. *)
Theorem download_reads_once_never_writes w r assetID g :
  exists rest,
    trace (finalState (handleAssetURLRequest w r assetID g))
    = (trace g ++ CalledGetItem (stateQuery (tableName g) assetID) :: rest)%list
    /\ existsb isStoreCall rest = false
    /\ dynamodb.GetItemInput.ConsistentRead (stateQuery (tableName g) assetID) = Some true
    /\ dynamodb.GetItemInput.Key (stateQuery (tableName g) assetID) = {[ "id" := attrS assetID ]}.
Proof.
  assert (Hq : forall rest,
            trace (finalState (handleAssetURLRequest w r assetID g))
            = (trace g ++ CalledGetItem (stateQuery (tableName g) assetID) :: rest)%list ->
            existsb isStoreCall rest = false ->
            exists rest,
              trace (finalState (handleAssetURLRequest w r assetID g))
              = (trace g ++ CalledGetItem (stateQuery (tableName g) assetID) :: rest)%list
              /\ existsb isStoreCall rest = false
              /\ dynamodb.GetItemInput.ConsistentRead (stateQuery (tableName g) assetID)
                 = Some true
              /\ dynamodb.GetItemInput.Key (stateQuery (tableName g) assetID)
                 = {[ "id" := attrS assetID ]}).
  { intros rest Htr Hno. exists rest. repeat split; assumption. }
  destruct (dynamodb.GetItem (stateQuery (tableName g) assetID) (dbSvc g))
    as [[result|err] d'] eqn:Hget.
  - unfold handleAssetURLRequest, bind, gets, dbSvc_GetItem in *.
    fold (stateQuery (tableName g) assetID) in *. rewrite Hget in *.
    destruct (dynamodb.GetItemOutput.Item result !! "id");
      [|apply (Hq []); [apply trace_afterRead|reflexivity]].
    destruct (dynamodb.GetItemOutput.Item result !! "status") as [status|].
    + destruct (dynamodb.S status) as [s|];
        [|apply (Hq []); [apply trace_afterRead|reflexivity]].
      unfold ret in *. destruct (String.eqb s assetStatusUploaded); cbn [negb] in *;
        [|apply (Hq []); [apply trace_afterRead|reflexivity]].
      destruct (downloadTimeout _) as [timeout|msg];
        [|apply (Hq []); [apply trace_afterRead|reflexivity]].
      unfold s3Svc_GetObjectRequest, req_Presign, log_Println, modify in *. cbn -[emit] in *.
      destruct (request.Presign _ timeout) as [url|e]; cbn [finalState] in *.
      * apply (Hq [CalledGetObjectRequest
                     (s3.GetObjectInput.mk (Some (bucketName g)) (Some assetID));
                   CalledPresign timeout]);
          [apply (trace_afterSign g assetID d' timeout)|reflexivity].
      * apply (Hq [CalledGetObjectRequest
                     (s3.GetObjectInput.mk (Some (bucketName g)) (Some assetID));
                   CalledPresign timeout; Logged (Error e)]); [|reflexivity].
        cbn. repeat rewrite <- app_assoc. reflexivity.
    + apply (Hq []); [apply trace_afterRead|reflexivity].
  - rewrite (download_store_failure w r assetID g err d' Hget) in *. cbn [finalState] in *.
    apply (Hq [Logged (Error err)]); [|reflexivity].
    rewrite trace_emit, trace_afterRead, <- app_assoc. reflexivity.
Qed.

End StoreCalls.

Lemma reserve_only_inserts_conditionally_witness :
  exists new,
    trace (finalState (reserveUniqueID (fake.world ∅ [Some fake.throttled])))
    = ([] ++ new)%list
    /\ Forall (isReserveEvent "assets") new.
Proof.
  eassert (Hres : reserveUniqueID (fake.world ∅ [Some fake.throttled])
                  = Done ("-LdLOYvopcWvfsjz", None) _)
    by (vm_compute; reflexivity).
  destruct (reserve_only_inserts_conditionally _ _ _ _ Hres) as (new & Hnew & Hall & _).
  exists new. rewrite Hres. cbn [finalState]. split; [exact Hnew|exact Hall].
Defined.

(** ** The fuel of the JSON scanner is never what makes it fail *)

Lemma skipSpace_length (s : string) :
  String.length (json.skipSpace s) <= String.length s.
Proof.
  induction s as [|c s IH]; [reflexivity|].
  cbn [json.skipSpace]. destruct (json.isSpace c); cbn [String.length]; lia.
Qed.

Lemma skipSpace_cons_length (s : string) (c : ascii) (r : string) :
  json.skipSpace s = String c r -> String.length r < String.length s.
Proof.
  intros Hs. pose proof (skipSpace_length s) as Hl. rewrite Hs in Hl.
  cbn [String.length] in Hl. lia.
Qed.

Lemma scanString_length_aux (n : nat) : forall s us r,
  String.length s <= n ->
  json.scanString s = Some (us, r) -> String.length r < String.length s.
Proof.
  induction n as [|n IH]; intros s us r Hn.
  { destruct s; [discriminate|cbn [String.length] in Hn; lia]. }
  destruct s as [|c s']; [discriminate|].
  cbn [String.length] in Hn. cbn [json.scanString].
  destruct (Ascii.eqb c dquote).
  { intros Heq. injection Heq as _ <-. cbn [String.length]. lia. }
  destruct (Ascii.eqb c "\").
  - destruct s' as [|e s'']; [discriminate|]. cbn [String.length] in Hn.
    destruct (json.simpleEscape e).
    + destruct (json.scanString s'') as [[us' r']|] eqn:Hrec; [|discriminate].
      intros Heq. injection Heq as _ <-.
      pose proof (IH s'' _ _ ltac:(lia) Hrec).
      cbn [String.length]. lia.
    + destruct (Ascii.eqb e "u"); [|discriminate].
      destruct s'' as [|h1 [|h2 [|h3 [|h4 s4]]]]; try discriminate.
      cbn [String.length] in Hn.
      destruct (json.getu4 h1 h2 h3 h4); [|discriminate].
      destruct (json.scanString s4) as [[us' r']|] eqn:Hrec; [|discriminate].
      intros Heq. injection Heq as _ <-.
      pose proof (IH s4 _ _ ltac:(lia) Hrec).
      cbn [String.length]. lia.
  - destruct (codeOf c <? 32)%Z; [discriminate|].
    destruct (json.scanString s') as [[us' r']|] eqn:Hrec; [|discriminate].
    intros Heq. injection Heq as _ <-.
    pose proof (IH s' _ _ ltac:(lia) Hrec).
    cbn [String.length]. lia.
Qed.

Lemma scanString_length (s : string) (us : list json.unit16) (r : string) :
  json.scanString s = Some (us, r) -> String.length r < String.length s.
Proof. apply (scanString_length_aux (String.length s)). reflexivity. Qed.

Lemma stringLit_length (s x r : string) :
  json.stringLit s = Some (x, r) -> String.length r < String.length s.
Proof.
  unfold json.stringLit. destruct (json.scanString s) as [[us r']|] eqn:Hs; [|discriminate].
  intros Heq. injection Heq as _ <-. apply (scanString_length s us r' Hs).
Qed.

Lemma spanDigits_length (s : string) : forall ds r,
  json.spanDigits s = (ds, r) -> String.length r <= String.length s.
Proof.
  induction s as [|c s IH]; intros ds r; cbn [json.spanDigits].
  - intros Heq. injection Heq as _ <-. reflexivity.
  - destruct (strconv.isDigit c).
    + destruct (json.spanDigits s) as [ds' r'] eqn:Hrec.
      intros Heq. injection Heq as _ <-. specialize (IH _ _ eq_refl).
      cbn [String.length]. lia.
    + intros Heq. injection Heq as _ <-. reflexivity.
Qed.

Lemma cutPrefix_length (p : string) : forall s r,
  strings.cutPrefix s p = Some r -> String.length r <= String.length s.
Proof.
  induction p as [|c p IH]; intros s r.
  - destruct s; cbn; intros Heq; injection Heq as <-; reflexivity.
  - destruct s as [|c' s']; cbn [strings.cutPrefix]; [discriminate|].
    destruct (Ascii.eqb c' c); [|discriminate].
    intros Heq. specialize (IH _ _ Heq). cbn [String.length]. lia.
Qed.

Lemma scanNumber_length (s lit r : string) :
  json.scanNumber s = Some (lit, r) -> String.length r < String.length s.
Proof.
  unfold json.scanNumber.
  set (p := match s with
            | String c r0 => if Ascii.eqb c "-" then ("-", r0) else ("", s)
            | EmptyString => ("", s)
            end).
  assert (Hp : String.length (snd p) <= String.length s).
  { subst p. destruct s as [|c r0]; [reflexivity|].
    destruct (Ascii.eqb c "-"); cbn [snd String.length]; lia. }
  destruct p as [sign s1]. cbn [snd] in Hp.
  destruct s1 as [|c1 r1]; [discriminate|].
  set (ipart := if Ascii.eqb c1 "0" then Some ("0", r1)
                else if strconv.isDigit c1
                     then let (ds, r') := json.spanDigits r1 in Some (String c1 ds, r')
                     else None).
  assert (Hi : forall ip s2, ipart = Some (ip, s2) -> String.length s2 <= String.length r1).
  { subst ipart. intros ip s2. destruct (Ascii.eqb c1 "0").
    - intros Heq. injection Heq as _ <-. reflexivity.
    - destruct (strconv.isDigit c1); [|discriminate].
      destruct (json.spanDigits r1) as [ds r'] eqn:Hd.
      intros Heq. injection Heq as _ <-. apply (spanDigits_length _ _ _ Hd). }
  destruct ipart as [[ip s2]|]; [|discriminate]. specialize (Hi _ _ eq_refl).
  cbn [mbind option_bind].
  set (fpart := match s2 with
                | String c r0 =>
                    if Ascii.eqb c "." then
                      let (ds, r') := json.spanDigits r0 in
                      if String.eqb ds "" then None else Some (String c ds, r')
                    else Some ("", s2)
                | EmptyString => Some ("", s2)
                end).
  assert (Hf : forall fp s3, fpart = Some (fp, s3) -> String.length s3 <= String.length s2).
  { subst fpart. intros fp s3. destruct s2 as [|c r0].
    - intros Heq. injection Heq as _ <-. reflexivity.
    - destruct (Ascii.eqb c ".").
      + destruct (json.spanDigits r0) as [ds r'] eqn:Hd.
        destruct (String.eqb ds ""); [discriminate|].
        intros Heq. injection Heq as _ <-.
        pose proof (spanDigits_length _ _ _ Hd). cbn [String.length]. lia.
      + intros Heq. injection Heq as _ <-. reflexivity. }
  destruct fpart as [[fp s3]|]; [|discriminate]. specialize (Hf _ _ eq_refl).
  cbn [mbind option_bind].
  set (epart := match s3 with
                | String c r0 =>
                    if Ascii.eqb c "e" || Ascii.eqb c "E" then
                      let '(sg, r1') :=
                        match r0 with
                        | String g0 r00 =>
                            if Ascii.eqb g0 "+" || Ascii.eqb g0 "-"
                            then (String g0 "", r00) else ("", r0)
                        | EmptyString => ("", r0)
                        end in
                      let (ds, r') := json.spanDigits r1' in
                      if String.eqb ds "" then None
                      else Some (String c (sg ++ ds), r')
                    else Some ("", s3)
                | EmptyString => Some ("", s3)
                end).
  assert (He : forall ep s4, epart = Some (ep, s4) -> String.length s4 <= String.length s3).
  { subst epart. intros ep s4. destruct s3 as [|c r0].
    - intros Heq. injection Heq as _ <-. reflexivity.
    - destruct (Ascii.eqb c "e" || Ascii.eqb c "E").
      + assert (Hsg : String.length
                        (snd (match r0 with
                              | String g0 r00 =>
                                  if Ascii.eqb g0 "+" || Ascii.eqb g0 "-"
                                  then (String g0 "", r00) else ("", r0)
                              | EmptyString => ("", r0)
                              end)) <= String.length r0).
        { destruct r0 as [|g0 r00]; [reflexivity|].
          destruct (Ascii.eqb g0 "+" || Ascii.eqb g0 "-"); cbn [snd String.length]; lia. }
        destruct (match r0 with
                  | String g0 r00 =>
                      if Ascii.eqb g0 "+" || Ascii.eqb g0 "-"
                      then (String g0 "", r00) else ("", r0)
                  | EmptyString => ("", r0)
                  end) as [sg r1'].
        cbn [snd] in Hsg.
        destruct (json.spanDigits r1') as [ds r'] eqn:Hd.
        destruct (String.eqb ds ""); [discriminate|].
        intros Heq. injection Heq as _ <-.
        pose proof (spanDigits_length _ _ _ Hd). cbn [String.length]. lia.
      + intros Heq. injection Heq as _ <-. reflexivity. }
  destruct epart as [[ep s4]|]; [|discriminate]. specialize (He _ _ eq_refl).
  cbn [mbind option_bind].
  intros Heq. injection Heq as _ <-. cbn [String.length] in *. lia.
Qed.

Lemma scanValue_S (f : nat) (d : Z) (s : string) :
  json.scanValueAt (S f) d s
  = match json.skipSpace s with
    | EmptyString => None
    | String c r =>
        if Ascii.eqb c "{" then
          if (d + 1 <=? json.maxNestingDepth)%Z then
            match json.skipSpace r with
            | String c' r' =>
                if Ascii.eqb c' "}" then Some (json.Object [], r')
                else match json.scanMembersAt f (d + 1)%Z r with
                     | Some (ms, r'') => Some (json.Object ms, r'')
                     | None => None
                     end
            | EmptyString => None
            end
          else None
        else if Ascii.eqb c "[" then
          if (d + 1 <=? json.maxNestingDepth)%Z then
            match json.skipSpace r with
            | String c' r' =>
                if Ascii.eqb c' "]" then Some (json.Array [], r')
                else match json.scanElementsAt f (d + 1)%Z r with
                     | Some (vs, r'') => Some (json.Array vs, r'')
                     | None => None
                     end
            | EmptyString => None
            end
          else None
        else if Ascii.eqb c dquote then
          match json.stringLit r with
          | Some (str, r') => Some (json.Str str, r')
          | None => None
          end
        else if Ascii.eqb c "t" then
          match strings.cutPrefix r "rue" with
          | Some r' => Some (json.Bool true, r')
          | None => None
          end
        else if Ascii.eqb c "f" then
          match strings.cutPrefix r "alse" with
          | Some r' => Some (json.Bool false, r')
          | None => None
          end
        else if Ascii.eqb c "n" then
          match strings.cutPrefix r "ull" with
          | Some r' => Some (json.Null, r')
          | None => None
          end
        else if Ascii.eqb c "-" || strconv.isDigit c then
          match json.scanNumber (String c r) with
          | Some (lit, r') => Some (json.Number lit, r')
          | None => None
          end
        else None
    end.
Proof. reflexivity. Qed.

Lemma scanElements_S (f : nat) (d : Z) (s : string) :
  json.scanElementsAt (S f) d s
  = match json.scanValueAt f d s with
    | Some (v, r) =>
        match json.skipSpace r with
        | String c r' =>
            if Ascii.eqb c "," then
              match json.scanElementsAt f d r' with
              | Some (vs, r'') => Some (v :: vs, r'')
              | None => None
              end
            else if Ascii.eqb c "]" then Some ([v], r')
            else None
        | EmptyString => None
        end
    | None => None
    end.
Proof. reflexivity. Qed.

Lemma scanMembers_S (f : nat) (d : Z) (s : string) :
  json.scanMembersAt (S f) d s
  = match json.skipSpace s with
    | String q r =>
        if Ascii.eqb q dquote then
          match json.stringLit r with
          | Some (k, r1) =>
              match json.skipSpace r1 with
              | String c r2 =>
                  if Ascii.eqb c ":" then
                    match json.scanValueAt f d r2 with
                    | Some (v, r3) =>
                        match json.skipSpace r3 with
                        | String c' r4 =>
                            if Ascii.eqb c' "," then
                              match json.scanMembersAt f d r4 with
                              | Some (ms, r5) => Some ((k, v) :: ms, r5)
                              | None => None
                              end
                            else if Ascii.eqb c' "}" then Some ([(k, v)], r4)
                            else None
                        | EmptyString => None
                        end
                    | None => None
                    end
                  else None
              | EmptyString => None
              end
          | None => None
          end
        else None
    | EmptyString => None
    end.
Proof. reflexivity. Qed.

(** A scan that succeeds has consumed at least one character, and succeeds
    with the same result for any fuel that is at least the number of
    characters it consumed. *)
Lemma scan_fuel (m : nat) :
  (forall d s v r, json.scanValueAt m d s = Some (v, r) ->
     String.length r < String.length s
     /\ forall n, String.length s - String.length r <= n ->
                  json.scanValueAt n d s = Some (v, r))
  /\ (forall d s vs r, json.scanElementsAt m d s = Some (vs, r) ->
        String.length r < String.length s
        /\ forall n, String.length s - String.length r <= n ->
                     json.scanElementsAt n d s = Some (vs, r))
  /\ (forall d s ms r, json.scanMembersAt m d s = Some (ms, r) ->
        String.length r < String.length s
        /\ forall n, String.length s - String.length r <= n ->
                     json.scanMembersAt n d s = Some (ms, r)).
Proof.
  induction m as [|m (IHv & IHe & IHm)].
  { split; [|split]; intros d s x r Hc; discriminate Hc. }
  split; [|split].
  - intros d s v r. rewrite scanValue_S.
    destruct (json.skipSpace s) as [|c r0] eqn:Hs; [discriminate|].
    pose proof (skipSpace_cons_length s c r0 Hs) as Hl0.
    destruct (Ascii.eqb c "{") eqn:Hobj.
    { destruct (d + 1 <=? json.maxNestingDepth)%Z eqn:Hd; [|discriminate].
      destruct (json.skipSpace r0) as [|c' r'] eqn:Hs0; [discriminate|].
      pose proof (skipSpace_cons_length r0 c' r' Hs0) as Hl1.
      destruct (Ascii.eqb c' "}") eqn:Hclose.
      - intros Heq. injection Heq as <- <-. split; [lia|].
        intros [|n] Hn; [lia|]. rewrite scanValue_S, Hs, Hobj, Hd, Hs0, Hclose. reflexivity.
      - destruct (json.scanMembersAt m (d + 1)%Z r0) as [[ms r'']|] eqn:Hms; [|discriminate].
        intros Heq. injection Heq as <- <-.
        destruct (IHm _ _ _ _ Hms) as [Hlt Hfuel]. split; [lia|].
        intros [|n] Hn; [lia|]. rewrite scanValue_S, Hs, Hobj, Hd, Hs0, Hclose.
        rewrite (Hfuel n ltac:(lia)). reflexivity. }
    destruct (Ascii.eqb c "[") eqn:Harr.
    { destruct (d + 1 <=? json.maxNestingDepth)%Z eqn:Hd; [|discriminate].
      destruct (json.skipSpace r0) as [|c' r'] eqn:Hs0; [discriminate|].
      pose proof (skipSpace_cons_length r0 c' r' Hs0) as Hl1.
      destruct (Ascii.eqb c' "]") eqn:Hclose.
      - intros Heq. injection Heq as <- <-. split; [lia|].
        intros [|n] Hn; [lia|]. rewrite scanValue_S, Hs, Hobj, Harr, Hd, Hs0, Hclose. reflexivity.
      - destruct (json.scanElementsAt m (d + 1)%Z r0) as [[vs r'']|] eqn:Hvs; [|discriminate].
        intros Heq. injection Heq as <- <-.
        destruct (IHe _ _ _ _ Hvs) as [Hlt Hfuel]. split; [lia|].
        intros [|n] Hn; [lia|]. rewrite scanValue_S, Hs, Hobj, Harr, Hd, Hs0, Hclose.
        rewrite (Hfuel n ltac:(lia)). reflexivity. }
    destruct (Ascii.eqb c dquote) eqn:Hq.
    { destruct (json.stringLit r0) as [[str r']|] eqn:Hlit; [|discriminate].
      intros Heq. injection Heq as <- <-.
      pose proof (stringLit_length _ _ _ Hlit). split; [lia|].
      intros [|n] Hn; [lia|]. rewrite scanValue_S, Hs, Hobj, Harr, Hq, Hlit. reflexivity. }
    destruct (Ascii.eqb c "t") eqn:Ht.
    { destruct (strings.cutPrefix r0 "rue") as [r'|] eqn:Hcut; [|discriminate].
      intros Heq. injection Heq as <- <-.
      pose proof (cutPrefix_length _ _ _ Hcut). split; [lia|].
      intros [|n] Hn; [lia|]. rewrite scanValue_S, Hs, Hobj, Harr, Hq, Ht, Hcut. reflexivity. }
    destruct (Ascii.eqb c "f") eqn:Hf.
    { destruct (strings.cutPrefix r0 "alse") as [r'|] eqn:Hcut; [|discriminate].
      intros Heq. injection Heq as <- <-.
      pose proof (cutPrefix_length _ _ _ Hcut). split; [lia|].
      intros [|n] Hn; [lia|].
      rewrite scanValue_S, Hs, Hobj, Harr, Hq, Ht, Hf, Hcut. reflexivity. }
    destruct (Ascii.eqb c "n") eqn:Hnl.
    { destruct (strings.cutPrefix r0 "ull") as [r'|] eqn:Hcut; [|discriminate].
      intros Heq. injection Heq as <- <-.
      pose proof (cutPrefix_length _ _ _ Hcut). split; [lia|].
      intros [|n] Hn; [lia|].
      rewrite scanValue_S, Hs, Hobj, Harr, Hq, Ht, Hf, Hnl, Hcut. reflexivity. }
    destruct (Ascii.eqb c "-" || strconv.isDigit c) eqn:Hnum; [|discriminate].
    destruct (json.scanNumber (String c r0)) as [[lit r']|] eqn:Hlit; [|discriminate].
    intros Heq. injection Heq as <- <-.
    pose proof (scanNumber_length _ _ _ Hlit) as Hln. cbn [String.length] in Hln.
    split; [lia|].
    intros [|n] Hn; [lia|].
    rewrite scanValue_S, Hs, Hobj, Harr, Hq, Ht, Hf, Hnl, Hnum, Hlit. reflexivity.
  - intros d s vs r. rewrite scanElements_S.
    destruct (json.scanValueAt m d s) as [[v r1]|] eqn:Hv; [|discriminate].
    destruct (IHv _ _ _ _ Hv) as [Hlt1 Hfuel1].
    destruct (json.skipSpace r1) as [|c r'] eqn:Hs1; [discriminate|].
    pose proof (skipSpace_cons_length r1 c r' Hs1) as Hl1.
    destruct (Ascii.eqb c ",") eqn:Hcomma.
    + destruct (json.scanElementsAt m d r') as [[vs' r'']|] eqn:Hvs; [|discriminate].
      intros Heq. injection Heq as <- <-.
      destruct (IHe _ _ _ _ Hvs) as [Hlt2 Hfuel2]. split; [lia|].
      intros [|n] Hn; [lia|]. rewrite scanElements_S.
      rewrite (Hfuel1 n ltac:(lia)), Hs1, Hcomma, (Hfuel2 n ltac:(lia)). reflexivity.
    + destruct (Ascii.eqb c "]") eqn:Hclose; [|discriminate].
      intros Heq. injection Heq as <- <-. split; [lia|].
      intros [|n] Hn; [lia|]. rewrite scanElements_S.
      rewrite (Hfuel1 n ltac:(lia)), Hs1, Hcomma, Hclose. reflexivity.
  - intros d s ms r. rewrite scanMembers_S.
    destruct (json.skipSpace s) as [|q r0] eqn:Hs; [discriminate|].
    pose proof (skipSpace_cons_length s q r0 Hs) as Hl0.
    destruct (Ascii.eqb q dquote) eqn:Hq; [|discriminate].
    destruct (json.stringLit r0) as [[k r1]|] eqn:Hk; [|discriminate].
    pose proof (stringLit_length _ _ _ Hk) as Hlk.
    destruct (json.skipSpace r1) as [|c r2] eqn:Hs1; [discriminate|].
    pose proof (skipSpace_cons_length r1 c r2 Hs1) as Hl1.
    destruct (Ascii.eqb c ":") eqn:Hcolon; [|discriminate].
    destruct (json.scanValueAt m d r2) as [[v r3]|] eqn:Hv; [|discriminate].
    destruct (IHv _ _ _ _ Hv) as [Hlt3 Hfuel3].
    destruct (json.skipSpace r3) as [|c' r4] eqn:Hs3; [discriminate|].
    pose proof (skipSpace_cons_length r3 c' r4 Hs3) as Hl3.
    destruct (Ascii.eqb c' ",") eqn:Hcomma.
    + destruct (json.scanMembersAt m d r4) as [[ms' r5]|] eqn:Hms; [|discriminate].
      intros Heq. injection Heq as <- <-.
      destruct (IHm _ _ _ _ Hms) as [Hlt5 Hfuel5]. split; [lia|].
      intros [|n] Hn; [lia|]. rewrite scanMembers_S, Hs, Hq, Hk, Hs1, Hcolon.
      rewrite (Hfuel3 n ltac:(lia)), Hs3, Hcomma, (Hfuel5 n ltac:(lia)). reflexivity.
    + destruct (Ascii.eqb c' "}") eqn:Hclose; [|discriminate].
      intros Heq. injection Heq as <- <-. split; [lia|].
      intros [|n] Hn; [lia|]. rewrite scanMembers_S, Hs, Hq, Hk, Hs1, Hcolon.
      rewrite (Hfuel3 n ltac:(lia)), Hs3, Hcomma, Hclose. reflexivity.
Qed.

(** The fuel of the scanner is never what makes the decoder fail:
    whenever some amount of fuel lets the scanner read a first JSON value
    from a body, the fuel the decoder gives it reads the same value and
    leaves the same rest. *)
Theorem decoder_fuel_suffices (m : nat) (body : string) (v : json.value) (rest : string) :
  json.scanValue m body = Some (v, rest) ->
  json.scanValue (S (String.length body)) body = Some (v, rest).
Proof.
  unfold json.scanValue. intros Hscan.
  destruct (proj1 (scan_fuel m) _ _ _ _ Hscan) as [_ Hfuel].
  apply Hfuel. lia.
Qed.
